(** * GST invoice analyzer: the field reconciliation pipeline of [app2.py]

    A shallow embedding of the response parser, the field validation and
    fallback stage, the GST total calculation, the date normalizer and the
    batch summary of [src/app2.py], with the properties the specification
    states about them.

    Python values are modelled as follows.
    - [str] is a list of Unicode code points ([N]); the tables that decide
      what [\s], [\d], [str.lower] and [re.IGNORECASE] do are those of
      CPython 3.11 (Unicode 14.0).
    - [float] is IEEE 754 binary64, taken from the Standard Library's
      executable specification [SpecFloat] with precision 53 and [emax] 1024.
    - a JSON object, a [dict], is a finite map from [str] keys.
    - [re] is a backtracking matcher over a small regular expression syntax
      with greedy repetition, ordered alternation and capture groups.
    Calls of [st.error] and [st.warning] only report to the user interface and
    are left out. *)

From Stdlib Require Import ZArith NArith List String Ascii Lia.
From Stdlib Require Import Floats.SpecFloat.
From stdpp Require Import base option list gmap.

Local Open Scope N_scope.

(** * The Python library the program uses *)

(** ** Python strings *)

Abbreviation str := (list N).

(** An ASCII literal as a Python string. *)
Definition lit (s : string) : str :=
  List.map N_of_ascii (list_ascii_of_string s).

(** The rupee sign U+20B9, the only character outside ASCII in the patterns. *)
Definition rupee : N := 8377.

Module PyStr.

(** [str.isspace] on one code point; also what [\s] matches, and what
    [str.strip] and [str.split] treat as white space. *)
Definition isspace (c : N) : bool :=
  ((9 <=? c) && (c <=? 13)) || ((28 <=? c) && (c <=? 32))
  || (c =? 133) || (c =? 160) || (c =? 5760)
  || ((8192 <=? c) && (c <=? 8202))
  || (c =? 8232) || (c =? 8233) || (c =? 8239) || (c =? 8287) || (c =? 12288).

(** The code points of the digit zero of every decimal digit block (general
    category Nd); each block holds the ten digits in order, and the block at
    U+1D7CE holds five such runs. *)
Definition nd_zeros : list N :=
  [48; 1632; 1776; 1984; 2406; 2534; 2662; 2790; 2918; 3046; 3174; 3302; 3430;
   3558; 3664; 3792; 3872; 4160; 4240; 6112; 6160; 6470; 6608; 6784; 6800;
   6992; 7088; 7232; 7248; 42528; 43216; 43264; 43472; 43504; 43600; 44016;
   65296; 66720; 68912; 69734; 69872; 69942; 70096; 70384; 70736; 70864;
   71248; 71360; 71472; 71904; 72016; 72784; 73040; 73120; 92768; 92864;
   93008; 120782; 120792; 120802; 120812; 120822; 123200; 123632; 125264;
   130032].

(** [unicodedata.decimal]: the value of a decimal digit, if [c] is one. *)
Definition decimal_value (c : N) : option N :=
  match List.find (fun z => (z <=? c) && (c <? z + 10)) nd_zeros with
  | Some z => Some (c - z)
  | None => None
  end.

Definition isdecimal (c : N) : bool :=
  match decimal_value c with Some _ => true | None => false end.

Definition is_ascii_digit (c : N) : bool := (48 <=? c) && (c <=? 57).
Definition is_ascii_upper (c : N) : bool := (65 <=? c) && (c <=? 90).
Definition is_ascii_lower (c : N) : bool := (97 <=? c) && (c <=? 122).

(** Case folding as [re.IGNORECASE] applies it to the ASCII letters: besides
    the two cases of a letter, U+0130 and U+0131 match [i], U+017F matches
    [s] and U+212A matches [k]. *)
Definition casefold (c : N) : N :=
  if is_ascii_upper c then c + 32
  else if (c =? 304) || (c =? 305) then 105
  else if c =? 383 then 115
  else if c =? 8490 then 107
  else c.

(** [str.lower] on one code point, exact on every code point whose lower case
    contains an ASCII character: the ASCII capitals, U+212A (to [k]) and
    U+0130 (to [i] followed by U+0307). The lower case of any other code
    point has no ASCII character in it; it is kept as it stands, which a
    search for an ASCII substring cannot tell apart. *)
Definition lower_char (c : N) : str :=
  if is_ascii_upper c then [c + 32]
  else if c =? 8490 then [107]
  else if c =? 304 then [105; 775]
  else [c].

Definition lower (s : str) : str := List.concat (List.map lower_char s).

(** [s.startswith(p)] *)
Fixpoint startswith (p s : str) : bool :=
  match p, s with
  | [], _ => true
  | _ :: _, [] => false
  | a :: p', b :: s' => (a =? b) && startswith p' s'
  end.

(** [needle in hay] *)
Fixpoint contains (needle hay : str) : bool :=
  startswith needle hay ||
  match hay with
  | [] => false
  | _ :: hay' => contains needle hay'
  end.

(** [s.find(c)] for a one-character argument: the index of the first
    occurrence, [None] standing for -1. *)
Fixpoint find (c : N) (s : str) : option nat :=
  match s with
  | [] => None
  | x :: s' => if x =? c then Some O else option_map S (find c s')
  end.

(** [s.rfind(c)]: the index of the last occurrence. *)
Fixpoint rfind (c : N) (s : str) : option nat :=
  match s with
  | [] => None
  | x :: s' =>
      match rfind c s' with
      | Some i => Some (S i)
      | None => if x =? c then Some O else None
      end
  end.

(** [s[i:j]] for non-negative [i] and [j]. *)
Definition slice (i j : nat) (s : str) : str :=
  List.firstn (j - i) (List.skipn i s).

(** The string without the characters that satisfy [p] at its front, and at
    both ends. *)
Fixpoint lstrip_by (p : N -> bool) (s : str) : str :=
  match s with
  | x :: s' => if p x then lstrip_by p s' else s
  | [] => []
  end.

Definition strip_by (p : N -> bool) (s : str) : str :=
  List.rev (lstrip_by p (List.rev (lstrip_by p s))).

(** [s.strip()] *)
Definition strip (s : str) : str := strip_by isspace s.

(** [s.replace(old, new)] for a non-empty [old]: occurrences are replaced
    from left to right and do not overlap. [skip] counts the characters of an
    occurrence still to be dropped. *)
Fixpoint replace_from (old new : str) (skip : nat) (s : str) : str :=
  match s with
  | [] => []
  | x :: s' =>
      match skip with
      | S n => replace_from old new n s'
      | O =>
          if startswith old s
          then new ++ replace_from old new (Nat.pred (List.length old)) s'
          else x :: replace_from old new O s'
      end
  end.

Definition replace (old new s : str) : str := replace_from old new O s.

(** [s.split()]: the maximal runs of characters that are not white space. *)
Fixpoint split_from (cur : str) (s : str) : list str :=
  match s with
  | [] => match cur with [] => [] | _ => [List.rev cur] end
  | x :: s' =>
      if isspace x
      then match cur with
           | [] => split_from [] s'
           | _ => List.rev cur :: split_from [] s'
           end
      else split_from (x :: cur) s'
  end.

Definition split (s : str) : list str := split_from [] s.

(** [s.zfill(w)]: zeros on the left up to width [w], after a leading sign. *)
Definition zfill (w : nat) (s : str) : str :=
  let pad := List.repeat 48 (w - List.length s) in
  match s with
  | c :: s' => if (c =? 43) || (c =? 45) then c :: pad ++ s' else pad ++ s
  | [] => pad
  end.

End PyStr.

(** ** Regular expressions: the part of [re] the program uses *)

Module Re.

(** Patterns. [Chr p] matches one character that satisfies [p]; [Alt]
    prefers its left branch; [Star] is greedy; [Group i] records what its
    body matched as group [i]. *)
Inductive regex :=
| Eps
| Chr (p : N -> bool)
| Cat (r1 r2 : regex)
| Alt (r1 r2 : regex)
| Star (r : regex)
| Group (i : nat) (r : regex).

(** The groups captured so far, the latest first. *)
Abbreviation caps := (list (nat * str)).

Fixpoint group (i : nat) (c : caps) : option str :=
  match c with
  | [] => None
  | (j, s) :: c' => if Nat.eqb i j then Some s else group i c'
  end.

Section Exec.
Context {A : Type}.

(** What remains to be matched after a pattern: it receives the rest of
    the subject and the groups, and fails ([None]) to ask for another
    way of matching what came before. *)
Definition cont := str -> caps -> option A.

(** Greedy repetition of [body]: one more round is tried first, and a round
    has to consume something. [fuel] bounds the rounds by the length of the
    subject. *)
Fixpoint star_loop (fuel : nat) (body : str -> caps -> cont -> option A)
    (s : str) (c : caps) (k : cont) : option A :=
  match fuel with
  | O => k s c
  | S fuel' =>
      match body s c (fun s' c' =>
               if Nat.ltb (List.length s') (List.length s)
               then star_loop fuel' body s' c' k else None) with
      | Some a => Some a
      | None => k s c
      end
  end.

(** The backtracking matcher: [exec r s c k] matches [r] at the front of
    [s] and passes the rest to [k], trying the choices in the order of
    Python's engine until [k] succeeds. *)
Fixpoint exec (r : regex) (s : str) (c : caps) (k : cont) : option A :=
  match r with
  | Eps => k s c
  | Chr p =>
      match s with
      | x :: s' => if p x then k s' c else None
      | [] => None
      end
  | Cat r1 r2 => exec r1 s c (fun s' c' => exec r2 s' c' k)
  | Alt r1 r2 =>
      match exec r1 s c k with
      | Some a => Some a
      | None => exec r2 s c k
      end
  | Star r1 => star_loop (S (List.length s)) (exec r1) s c k
  | Group i r1 =>
      exec r1 s c (fun s' c' =>
        k s' ((i, List.firstn (List.length s - List.length s') s) :: c'))
  end.
End Exec.

(** A match object: where the match starts, the matched text ([group(0)]),
    the groups, and the subject after the match. *)
Record Match := mkMatch {
  m_start : nat;
  m_group0 : str;
  m_groups : caps;
  m_rest : str
}.

(** [m.group(1)]; a group that took no part in the match is not used by the
    program and reads as the empty string here. *)
Definition group1 (m : Match) : str :=
  match group 1 (m_groups m) with Some s => s | None => [] end.

(** [pattern.match(s)] with [s] starting at index [i] of the subject. *)
Definition match_at (r : regex) (i : nat) (s : str) : option Match :=
  exec r s [] (fun s' c =>
    Some (mkMatch i (List.firstn (List.length s - List.length s') s) c s')).

(** [re.search]: the first position, from the left, at which the pattern
    matches. *)
Fixpoint search_from (r : regex) (i : nat) (s : str) : option Match :=
  match match_at r i s with
  | Some m => Some m
  | None =>
      match s with
      | [] => None
      | _ :: s' => search_from r (S i) s'
      end
  end.

Definition search (r : regex) (s : str) : option Match := search_from r O s.

(** [re.findall] for a pattern with one group: the group of every match,
    from left to right, each search starting where the previous match ended.
    No pattern of the program matches the empty string; after such a match
    the scan moves on by one character. *)
Fixpoint findall_fuel (fuel : nat) (r : regex) (s : str) : list str :=
  match fuel with
  | O => []
  | S fuel' =>
      match search r s with
      | None => []
      | Some m =>
          group1 m ::
            (if Nat.ltb (List.length (m_rest m)) (List.length s)
             then findall_fuel fuel' r (m_rest m)
             else match List.skipn (m_start m) s with
                  | _ :: s' => findall_fuel fuel' r s'
                  | [] => []
                  end)
      end
  end.

Definition findall (r : regex) (s : str) : list str :=
  findall_fuel (S (List.length s)) r s.

(** *** Pattern syntax *)

(** [r1 r2 ... rn] *)
Definition seq (rs : list regex) : regex := List.fold_right Cat Eps rs.
(** [r?] *)
Definition opt (r : regex) : regex := Alt r Eps.
(** [r+] *)
Definition plus (r : regex) : regex := Cat r (Star r).
(** [r{n}] *)
Definition rep (n : nat) (r : regex) : regex := seq (List.repeat r n).
(** [r1|r2|...|rn] *)
Definition alts (rs : list regex) : regex :=
  match rs with
  | [] => Eps
  | r :: rs' => List.fold_left Alt rs' r
  end.

(** One literal character, case sensitive. *)
Definition ch (a : string) : regex :=
  match lit a with
  | x :: _ => Chr (N.eqb x)
  | [] => Eps
  end.

(** A literal text under [re.IGNORECASE]. *)
Definition itext (a : string) : regex :=
  seq (List.map (fun x => Chr (fun c => PyStr.casefold c =? PyStr.casefold x)) (lit a)).

(** A character class under [re.IGNORECASE]: [c] is in it when a character
    of the same case fold is. The classes of the program hold ASCII
    characters, white space and the rupee sign. *)
Definition iclass (p : N -> bool) (c : N) : bool :=
  p c || p (PyStr.casefold c)
  || (PyStr.is_ascii_lower (PyStr.casefold c) && p (PyStr.casefold c - 32)).

(** [\s], [\d] and the classes written in the patterns. *)
Definition ws : regex := Chr PyStr.isspace.
Definition digit : regex := Chr PyStr.isdecimal.
Definition in_range (lo hi : string) (c : N) : bool :=
  match lit lo, lit hi with
  | a :: _, b :: _ => (a <=? c) && (c <=? b)
  | _, _ => false
  end.
Definition is_char (a : string) (c : N) : bool :=
  match lit a with x :: _ => c =? x | [] => false end.

End Re.

Import Re.

(** ** Python floats and JSON values *)

Module PyFloat.

Abbreviation float := spec_float.

Definition prec : Z := 53.
Definition emax : Z := 1024.

Definition zero : float := S754_zero false.
Definition add : float -> float -> float := SFadd prec emax.
Definition sub : float -> float -> float := SFsub prec emax.
Definition ltb : float -> float -> bool := SFltb.

(** [float(z)] for an [int]: the nearest float, [None] for the
    [OverflowError] of an integer too large for one. *)
Definition of_int (z : Z) : option float :=
  match binary_normalize prec emax z 0 false with
  | S754_infinity _ => None
  | f => Some f
  end.

(** The float nearest to [n / 10 ^ k], for [float] applied to a decimal
    numeral with the digits [n] and [k] digits after the point; an overflow
    gives infinity. *)
Definition pow10 (k : nat) : positive := Nat.iter k (Pos.mul 10) 1%positive.

Definition of_decimal (n : N) (k : nat) : float :=
  match n with
  | N0 => zero
  | Npos p => SFdiv prec emax (S754_finite false p 0) (S754_finite false (pow10 k) 0)
  end.

(** The float nearest to [n * 10 ^ e], negated when [neg] is set: what
    [float] makes of a decimal numeral with a sign, a fraction and an
    exponent. *)
Definition of_scientific (neg : bool) (n : N) (e : Z) : float :=
  match n with
  | N0 => S754_zero neg
  | Npos p =>
      match e with
      | Zneg k =>
          SFdiv prec emax (S754_finite neg p 0)
            (S754_finite false (Pos.pow 10 k) 0)
      | _ =>
          binary_normalize prec emax
            (if neg then Zneg p * 10 ^ e else Zpos p * 10 ^ e)%Z 0 false
      end
  end.

End PyFloat.

(** A value decoded from JSON, or held by a variable of the program. *)
#[warnings="-register-all"]
Inductive pyval :=
| PNone
| PBool (b : bool)
| PInt (z : Z)
| PFloat (f : PyFloat.float)
| PStr (s : str)
| PList (l : list pyval)
| PDict (d : gmap str pyval).

(** A JSON object as the program holds it. *)
Abbreviation dict := (gmap str pyval).

Module Py.

(** [bool(v)]: what [not v] negates. *)
Definition truthy (v : pyval) : bool :=
  match v with
  | PNone => false
  | PBool b => b
  | PInt z => negb (z =? 0)%Z
  | PFloat (S754_zero _) => false
  | PFloat _ => true
  | PStr s => match s with [] => false | _ => true end
  | PList l => match l with [] => false | _ => true end
  | PDict d => negb (Nat.eqb (size d) 0)
  end.

(** [v == s] for a string [s]. *)
Definition eq_str (v : pyval) (s : str) : bool :=
  match v with
  | PStr t => bool_decide (t = s)
  | _ => false
  end.

(** [v == 0] *)
Definition eq_zero (v : pyval) : bool :=
  match v with
  | PInt z => (z =? 0)%Z
  | PBool b => negb b
  | PFloat (S754_zero _) => true
  | _ => false
  end.

(** [d.get(k)]: [None] for a key that is absent. *)
Definition get (d : dict) (k : str) : pyval :=
  match d !! k with Some v => v | None => PNone end.

(** [d.get(k, v0)] *)
Definition get_default (d : dict) (k : str) (v0 : pyval) : pyval :=
  match d !! k with Some v => v | None => v0 end.

(** A number as a float, for arithmetic with a float operand: [None] when the
    value is no number ([TypeError]) or an integer too large
    ([OverflowError]). *)
Definition as_float (v : pyval) : option PyFloat.float :=
  match v with
  | PFloat f => Some f
  | PInt z => PyFloat.of_int z
  | PBool b => PyFloat.of_int (if b then 1 else 0)%Z
  | _ => None
  end.

Definition as_int (v : pyval) : option Z :=
  match v with
  | PInt z => Some z
  | PBool b => Some (if b then 1 else 0)%Z
  | _ => None
  end.

(** Arithmetic on numbers: integers stay integers, and a float operand makes
    the other one a float. [None] stands for the exception raised. *)
Definition arith (fi : Z -> Z -> Z) (ff : PyFloat.float -> PyFloat.float -> PyFloat.float)
    (a b : pyval) : option pyval :=
  match as_int a, as_int b with
  | Some x, Some y => Some (PInt (fi x y))
  | _, _ =>
      match as_float a, as_float b with
      | Some x, Some y => Some (PFloat (ff x y))
      | _, _ => None
      end
  end.

(** [a + b]: numbers are added, two strings or two lists are joined, and
    anything else raises [TypeError]. *)
Definition add (a b : pyval) : option pyval :=
  match a, b with
  | PStr s, PStr t => Some (PStr (s ++ t))
  | PList s, PList t => Some (PList (s ++ t))
  | _, _ => arith Z.add PyFloat.add a b
  end.

(** [a - b] *)
Definition sub (a b : pyval) : option pyval := arith Z.sub PyFloat.sub a b.

(** [v > 0] for a number [v]. *)
Definition gt_zero (v : pyval) : bool :=
  match v with
  | PInt z => (0 <? z)%Z
  | PBool b => b
  | PFloat f => PyFloat.ltb PyFloat.zero f
  | _ => false
  end.

(** The ASCII digits at the front of [s]: their value on top of [acc], their
    number, and the rest of [s]. *)
Fixpoint scan_digits (acc : N) (s : str) : N * nat * str :=
  match s with
  | c :: s' =>
      if PyStr.is_ascii_digit c
      then let '(v, n, r) := scan_digits (10 * acc + (c - 48)) s' in (v, S n, r)
      else (acc, O, s)
  | [] => (acc, O, [])
  end.

(** [float(s)] for a string of ASCII digits with at most one point, which is
    all the program passes: the amounts captured by its patterns, which are
    made of digits, commas and points, with the commas removed. [None] stands for the [ValueError] of a string without a digit. *)
Definition float_of_str (s : str) : option PyFloat.float :=
  let '(v1, n1, r1) := scan_digits 0 s in
  match r1 with
  | [] => if Nat.eqb n1 0 then None else Some (PyFloat.of_decimal v1 0)
  | c :: r =>
      if c =? 46 then
        let '(v2, n2, r2) := scan_digits v1 r in
        match r2 with
        | [] => if Nat.eqb (n1 + n2) 0 then None else Some (PyFloat.of_decimal v2 n2)
        | _ :: _ => None
        end
      else None
  end.

End Py.

(** ** [json.loads] *)

(** The decoder of the [json] module with its default settings, as its C
    scanner reads a text: white space is space, tab, line feed and carriage
    return; [NaN], [Infinity] and [-Infinity] are accepted; a control
    character inside a string is refused; of two equal keys the later one
    stays. [None] stands for the exception raised: [JSONDecodeError], or the
    [ValueError] of [int] for an integer of more than 4300 digits. The limit
    of the interpreter on the nesting depth, which depends on the depth of
    the call, is not modelled. *)
Module Json.

Definition is_ws (c : N) : bool := (c =? 32) || (c =? 9) || (c =? 10) || (c =? 13).

Fixpoint skip_ws (s : str) : str :=
  match s with
  | c :: s' => if is_ws c then skip_ws s' else s
  | [] => []
  end.

Definition hex_value (c : N) : option N :=
  if PyStr.is_ascii_digit c then Some (c - 48)
  else if (97 <=? c) && (c <=? 102) then Some (c - 87)
  else if (65 <=? c) && (c <=? 70) then Some (c - 55)
  else None.

(** The four hexadecimal digits of a [\u] escape. *)
Definition hex4 (s : str) : option (N * str) :=
  match s with
  | a :: b :: c :: d :: r =>
      va ← hex_value a; vb ← hex_value b; vc ← hex_value c; vd ← hex_value d;
      Some (((va * 16 + vb) * 16 + vc) * 16 + vd, r)
  | _ => None
  end.

Definition simple_escape (c : N) : option N :=
  if (c =? 34) || (c =? 92) || (c =? 47) then Some c
  else if c =? 98 then Some 8
  else if c =? 102 then Some 12
  else if c =? 110 then Some 10
  else if c =? 114 then Some 13
  else if c =? 116 then Some 9
  else None.

Definition is_high_surrogate (c : N) : bool := (55296 <=? c) && (c <=? 56319).
Definition is_low_surrogate (c : N) : bool := (56320 <=? c) && (c <=? 57343).

Definition push (c : N) (r : option (str * str)) : option (str * str) :=
  match r with
  | Some (k, rest) => Some (c :: k, rest)
  | None => None
  end.

(** [scanstring]: the text of a string whose opening quote has been read, and
    what follows its closing quote. *)
Fixpoint scanstring (fuel : nat) (s : str) : option (str * str) :=
  match fuel with
  | O => None
  | S fuel' =>
      match s with
      | [] => None
      | c :: r =>
          if c =? 34 then Some ([], r)
          else if c =? 92 then
            match r with
            | [] => None
            | e :: r' =>
                if e =? 117 then
                  match hex4 r' with
                  | None => None
                  | Some (u1, r1) =>
                      if is_high_surrogate u1 then
                        match r1 with
                        | 92 :: 117 :: r2 =>
                            match hex4 r2 with
                            | None => None
                            | Some (u2, r3) =>
                                if is_low_surrogate u2
                                then push (65536 + (u1 - 55296) * 1024 + (u2 - 56320))
                                       (scanstring fuel' r3)
                                else push u1 (scanstring fuel' r1)
                            end
                        | _ => push u1 (scanstring fuel' r1)
                        end
                      else push u1 (scanstring fuel' r1)
                  end
                else
                  match simple_escape e with
                  | Some x => push x (scanstring fuel' r')
                  | None => None
                  end
            end
          else if c <=? 31 then None
          else push c (scanstring fuel' r)
      end
  end.

(** A number: an optional minus, [0] or a digit run without a leading zero,
    a fraction if a point and a digit follow, an exponent if digits follow
    the [e]. With a fraction or an exponent it is a float, else an integer,
    which [int] refuses when it has more than 4300 digits. *)
Definition scan_number (s : str) : option (pyval * str) :=
  let '(neg, s1) :=
    match s with
    | c :: r => if c =? 45 then (true, r) else (false, s)
    | [] => (false, s)
    end in
  match s1 with
  | [] => None
  | c :: r =>
      let int_part :=
        if c =? 48 then Some (0, 1%nat, r)
        else if (49 <=? c) && (c <=? 57)
        then let '(v, n, r') := Py.scan_digits 0 s1 in Some (v, n, r')
        else None in
      match int_part with
      | None => None
      | Some (v, digits, s2) =>
          let '(v', k, s3, has_frac) :=
            match s2 with
            | p :: d :: _ =>
                if (p =? 46) && PyStr.is_ascii_digit d
                then let '(w, n, r') := Py.scan_digits v (List.tl s2) in (w, n, r', true)
                else (v, O, s2, false)
            | _ => (v, O, s2, false)
            end in
          let '(e, s4, has_exp) :=
            match s3 with
            | x :: r1 =>
                if (x =? 101) || (x =? 69) then
                  let '(eneg, r2) :=
                    match r1 with
                    | g :: r2 =>
                        if g =? 45 then (true, r2)
                        else if g =? 43 then (false, r2)
                        else (false, r1)
                    | [] => (false, r1)
                    end in
                  let '(ev, n, r3) := Py.scan_digits 0 r2 in
                  if Nat.eqb n 0 then (0%Z, s3, false)
                  else ((if eneg then - Z.of_N ev else Z.of_N ev)%Z, r3, true)
                else (0%Z, s3, false)
            | [] => (0%Z, s3, false)
            end in
          if has_frac || has_exp
          then Some (PFloat (PyFloat.of_scientific neg v' (e - Z.of_nat k)), s4)
          else if Nat.ltb 4300 digits then None
          else Some (PInt (if neg then - Z.of_N v' else Z.of_N v'), s4)
      end
  end.

(** A word of the grammar at the front of the text. *)
Definition word (w : string) (v : pyval) (s : str) : option (pyval * str) :=
  if PyStr.startswith (lit w) s
  then Some (v, List.skipn (List.length (lit w)) s)
  else None.

(** [scan_once] reads one value; [scan_members] reads the members of an
    object from a key on, and [scan_elements] the elements of an array from a
    value on. Every call takes one unit of [fuel]. *)
Fixpoint scan_once (fuel : nat) (s : str) {struct fuel} : option (pyval * str) :=
  match fuel with
  | O => None
  | S fuel' =>
      match s with
      | [] => None
      | c :: r =>
          if c =? 34 then
            match scanstring (S (List.length r)) r with
            | Some (k, r') => Some (PStr k, r')
            | None => None
            end
          else if c =? 123 then
            match skip_ws r with
            | 125 :: r' => Some (PDict ∅, r')
            | r' => scan_members fuel' ∅ r'
            end
          else if c =? 91 then
            match skip_ws r with
            | 93 :: r' => Some (PList [], r')
            | r' => scan_elements fuel' [] r'
            end
          else
            let literal :=
              if c =? 110 then word "null" PNone s
              else if c =? 116 then word "true" (PBool true) s
              else if c =? 102 then word "false" (PBool false) s
              else if c =? 78 then word "NaN" (PFloat S754_nan) s
              else if c =? 73 then word "Infinity" (PFloat (S754_infinity false)) s
              else if c =? 45 then word "-Infinity" (PFloat (S754_infinity true)) s
              else None in
            match literal with
            | Some res => Some res
            | None => scan_number s
            end
      end
  end
with scan_members (fuel : nat) (acc : dict) (s : str) {struct fuel}
    : option (pyval * str) :=
  match fuel with
  | O => None
  | S fuel' =>
      match s with
      | 34 :: r =>
          match scanstring (S (List.length r)) r with
          | None => None
          | Some (key, r1) =>
              match skip_ws r1 with
              | 58 :: r2 =>
                  match scan_once fuel' (skip_ws r2) with
                  | None => None
                  | Some (v, r3) =>
                      let acc' := <[key := v]> acc in
                      match skip_ws r3 with
                      | 125 :: r4 => Some (PDict acc', r4)
                      | 44 :: r4 => scan_members fuel' acc' (skip_ws r4)
                      | _ => None
                      end
                  end
              | _ => None
              end
          end
      | _ => None
      end
  end
with scan_elements (fuel : nat) (acc : list pyval) (s : str) {struct fuel}
    : option (pyval * str) :=
  match fuel with
  | O => None
  | S fuel' =>
      match scan_once fuel' s with
      | None => None
      | Some (v, r1) =>
          match skip_ws r1 with
          | 93 :: r2 => Some (PList (List.rev (v :: acc)), r2)
          | 44 :: r2 => scan_elements fuel' (v :: acc) (skip_ws r2)
          | _ => None
          end
      end
  end.

(** [json.loads(s)]: one value between white space, and nothing else. *)
Definition loads (s : str) : option pyval :=
  match scan_once (2 * List.length s + 2) (skip_ws s) with
  | Some (v, r) => match skip_ws r with [] => Some v | _ :: _ => None end
  | None => None
  end.

End Json.

(** ** Dates: [int], [datetime.strptime] and [strftime] *)

Module PyDate.

(** The decimal digits of [s] as a number, Unicode digits included, with
    single underscores allowed between digits. *)
Fixpoint digits_value (acc : N) (after_digit : bool) (s : str) : option N :=
  match s with
  | [] => if after_digit then Some acc else None
  | c :: s' =>
      match PyStr.decimal_value c with
      | Some v => digits_value (10 * acc + v) true s'
      | None =>
          if (c =? 95) && after_digit
          then match s' with
               | [] => None
               | _ => digits_value acc false s'
               end
          else None
      end
  end.

(** The white space [int] drops around a numeral: that of [str.isspace]
    but for the four separators U+001C to U+001F. *)
Definition int_space (c : N) : bool :=
  PyStr.isspace c && negb ((28 <=? c) && (c <=? 31)).

(** [int(s)] in base ten: white space around the numeral is dropped and a
    sign may come first. [None] stands for [ValueError]. *)
Definition int (s : str) : option Z :=
  match PyStr.strip_by int_space s with
  | c :: r =>
      if c =? 45 then option_map (fun n => (- Z.of_N n)%Z) (digits_value 0 false r)
      else if c =? 43 then option_map Z.of_N (digits_value 0 false r)
      else option_map Z.of_N (digits_value 0 false (c :: r))
  | [] => None
  end.

(** Decimal digits of a number, as [str] writes them. *)
Fixpoint digits_of (fuel : nat) (n : N) (acc : str) : str :=
  match fuel with
  | O => acc
  | S fuel' =>
      let acc' := (48 + n mod 10) :: acc in
      if n <? 10 then acc' else digits_of fuel' (n / 10) acc'
  end.

Definition str_of_N (n : N) : str := digits_of (S (N.to_nat (N.log2 n))) n [].

(** A number in at least two digits. *)
Definition two_digits (n : N) : str := PyStr.zfill 2 (str_of_N n).

Definition is_leap (year : N) : bool :=
  (year mod 4 =? 0) && (negb (year mod 100 =? 0) || (year mod 400 =? 0)).

Definition days_in_month (year month : N) : N :=
  match month with
  | 2 => if is_leap year then 29 else 28
  | 4 | 6 | 9 | 11 => 30
  | _ => 31
  end.

(** The dates [datetime] accepts. *)
Definition valid_date (year month day : N) : bool :=
  (1 <=? year) && (year <=? 9999) && (1 <=? month) && (month <=? 12)
  && (1 <=? day) && (day <=? days_in_month year month).

Record date := mkDate { year : N; month : N; day : N }.

(** The names of the months in the C and English locales, in lower case as
    [_strptime] keeps them. *)
Definition a_month : list str :=
  List.map lit [ "jan"; "feb"; "mar"; "apr"; "may"; "jun"; "jul"; "aug"; "sep";
                 "oct"; "nov"; "dec" ]%string.

Definition f_month : list str :=
  List.map lit [ "january"; "february"; "march"; "april"; "may"; "june"; "july";
                 "august"; "september"; "october"; "november"; "december" ]%string.

(** [names.index(s)], counted from 1 as the month lists of [_strptime] are. *)
Fixpoint month_index (names : list str) (i : N) (s : str) : option N :=
  match names with
  | [] => None
  | name :: names' =>
      if bool_decide (name = s) then Some i else month_index names' (i + 1) s
  end.

(** The pieces of a format: a directive, a literal character, or a run of
    white space, which stands for one or more white space characters. *)
Inductive item :=
| Directive (c : N)
| Literal (c : N)
| Spaces.

Fixpoint parse_format (after_space : bool) (s : str) : list item :=
  match s with
  | [] => []
  | c :: r =>
      if c =? 37 then
        match r with
        | d :: r' => Directive d :: parse_format false r'
        | [] => []
        end
      else if PyStr.isspace c then
        if after_space then parse_format true r else Spaces :: parse_format true r
      else Literal c :: parse_format false r
  end.

(** Alternatives for a list of names, the longest first (the sort is
    stable). *)
Definition names_regex (names : list string) : regex :=
  alts (List.map itext names).

(** The regular expression of each directive the program uses, with the
    number of the group that holds it. *)
Definition directive_regex (c : N) : option regex :=
  if c =? 100 (* d *) then
    Some (Group 1 (alts [ seq [ch "3"; Chr (in_range "0" "1")]; seq [Chr (in_range "1" "2"); digit];
                          seq [ch "0"; Chr (in_range "1" "9")]; Chr (in_range "1" "9");
                          seq [ch " "; Chr (in_range "1" "9")] ]))
  else if c =? 109 (* m *) then
    Some (Group 2 (alts [ seq [ch "1"; Chr (in_range "0" "2")]; seq [ch "0"; Chr (in_range "1" "9")];
                          Chr (in_range "1" "9") ]))
  else if c =? 89 (* Y *) then Some (Group 3 (rep 4 digit))
  else if c =? 121 (* y *) then Some (Group 4 (rep 2 digit))
  else if c =? 98 (* b *) then
    Some (Group 5 (names_regex [ "jan"; "feb"; "mar"; "apr"; "may"; "jun"; "jul";
                                 "aug"; "sep"; "oct"; "nov"; "dec" ]%string))
  else if c =? 66 (* B *) then
    Some (Group 6 (names_regex [ "september"; "february"; "november"; "december";
                                 "january"; "october"; "august"; "march"; "april";
                                 "june"; "july"; "may" ]%string))
  else None.

Fixpoint format_regex (items : list item) : option regex :=
  match items with
  | [] => Some Eps
  | it :: items' =>
      match format_regex items' with
      | None => None
      | Some rest =>
          match it with
          | Directive c =>
              match directive_regex c with
              | Some r => Some (Cat r rest)
              | None => None
              end
          | Literal c =>
              Some (Cat (Chr (fun x => PyStr.casefold x =? PyStr.casefold c)) rest)
          | Spaces => Some (Cat (plus ws) rest)
          end
      end
  end.

(** [datetime.strptime(data_string, format)], for the directives above; the
    pattern has to match from the start, and the match has to end where the
    string ends. [None] stands for [ValueError]. *)
Definition strptime (data_string : str) (format : string) : option date :=
  match format_regex (parse_format false (lit format)) with
  | None => None
  | Some pattern =>
      match exec pattern data_string [] (fun rest found => Some (rest, found)) with
      | Some ([], found) =>
          year ← match group 3 found, group 4 found with
                 | Some g, _ => int g
                 | None, Some g =>
                     y ← int g;
                     Some (if (y <=? 68)%Z then (y + 2000)%Z else (y + 1900)%Z)
                 | None, None => Some 1900%Z
                 end;
          month ← match group 2 found, group 6 found, group 5 found with
                  | Some g, _, _ => int g
                  | None, Some g, _ =>
                      option_map Z.of_N (month_index f_month 1 (PyStr.lower g))
                  | None, None, Some g =>
                      option_map Z.of_N (month_index a_month 1 (PyStr.lower g))
                  | None, None, None => Some 1%Z
                  end;
          day ← match group 1 found with
                | Some g => int g
                | None => Some 1%Z
                end;
          let '(y, m, d) := (Z.to_N year, Z.to_N month, Z.to_N day) in
          if valid_date y m d then Some (mkDate y m d) else None
      | _ => None
      end
  end.

(** [date_obj.strftime('%Y.%m.%d')] with the C library of Linux, which
    writes a year below 1000 without leading zeros. *)
Definition strftime_ymd (d : date) : str :=
  str_of_N (year d) ++ lit "." ++ two_digits (month d) ++ lit "." ++ two_digits (day d).

End PyDate.

(** ** More of [str]: [isdigit] and [encode] *)

Module PyText.

(** The first and last code point of each run of characters that
    [str.isdigit] accepts besides the decimal digits: superscripts,
    subscripts, circled and parenthesized digits and the like. *)
Definition other_digits : list (N * N) :=
  [ (178, 179); (185, 185); (4969, 4977); (6618, 6618); (8304, 8304);
    (8308, 8313); (8320, 8329); (9312, 9320); (9332, 9340); (9352, 9360);
    (9450, 9450); (9461, 9469); (9471, 9471); (10102, 10110); (10112, 10120);
    (10122, 10130); (68160, 68163); (69216, 69224); (69714, 69722);
    (127232, 127242) ].

Definition isdigit_char (c : N) : bool :=
  PyStr.isdecimal c
  || List.existsb (fun r => (fst r <=? c) && (c <=? snd r)) other_digits.

(** [s.isdigit()]: every character is a digit and there is at least one. *)
Definition isdigit (s : str) : bool :=
  match s with
  | [] => false
  | _ :: _ => List.forallb isdigit_char s
  end.

Definition is_surrogate (c : N) : bool := (55296 <=? c) && (c <=? 57343).

(** The UTF-8 bytes of one code point. *)
Definition utf8 (c : N) : list N :=
  if c <? 128 then [c]
  else if c <? 2048 then [192 + c / 64; 128 + c mod 64]
  else if c <? 65536 then [224 + c / 4096; 128 + (c / 64) mod 64; 128 + c mod 64]
  else [240 + c / 262144; 128 + (c / 4096) mod 64; 128 + (c / 64) mod 64;
        128 + c mod 64].

(** [s.encode()]: UTF-8, with [None] for the [UnicodeEncodeError] of a
    surrogate. *)
Definition encode (s : str) : option (list N) :=
  if List.existsb is_surrogate s then None
  else Some (List.concat (List.map utf8 s)).

End PyText.

(** ** [hashlib.sha256] *)

(** SHA-256 (FIPS 180-4) on a list of bytes, with 32-bit words as numbers
    below [2 ^ 32]. *)
Module Sha256.

Definition w32 (x : N) : N := x mod 4294967296.

Definition rotr (n x : N) : N :=
  N.lor (N.shiftr x n) (w32 (N.shiftl x (32 - n))).

Definition ch (x y z : N) : N :=
  N.lxor (N.land x y) (N.land (4294967295 - x) z).
Definition maj (x y z : N) : N :=
  N.lxor (N.lxor (N.land x y) (N.land x z)) (N.land y z).
Definition bsig0 (x : N) : N := N.lxor (N.lxor (rotr 2 x) (rotr 13 x)) (rotr 22 x).
Definition bsig1 (x : N) : N := N.lxor (N.lxor (rotr 6 x) (rotr 11 x)) (rotr 25 x).
Definition ssig0 (x : N) : N := N.lxor (N.lxor (rotr 7 x) (rotr 18 x)) (N.shiftr x 3).
Definition ssig1 (x : N) : N := N.lxor (N.lxor (rotr 17 x) (rotr 19 x)) (N.shiftr x 10).

Definition K : list N :=
  [ 1116352408; 1899447441; 3049323471; 3921009573; 961987163; 1508970993; 2453635748; 2870763221;
    3624381080; 310598401; 607225278; 1426881987; 1925078388; 2162078206; 2614888103; 3248222580;
    3835390401; 4022224774; 264347078; 604807628; 770255983; 1249150122; 1555081692; 1996064986;
    2554220882; 2821834349; 2952996808; 3210313671; 3336571891; 3584528711; 113926993; 338241895;
    666307205; 773529912; 1294757372; 1396182291; 1695183700; 1986661051; 2177026350; 2456956037;
    2730485921; 2820302411; 3259730800; 3345764771; 3516065817; 3600352804; 4094571909; 275423344;
    430227734; 506948616; 659060556; 883997877; 958139571; 1322822218; 1537002063; 1747873779;
    1955562222; 2024104815; 2227730452; 2361852424; 2428436474; 2756734187; 3204031479; 3329325298 ].

Definition H0 : list N :=
  [ 1779033703; 3144134277; 1013904242; 2773480762; 1359893119; 2600822924; 528734635; 1541459225 ].

(** A number as [n] bytes, the most significant first. *)
Fixpoint big_endian (n : nat) (x : N) : list N :=
  match n with
  | O => []
  | S n' => big_endian n' (x / 256) ++ [x mod 256]
  end.

(** The message with its padding: a byte 128, zero bytes up to 56 modulo
    64, and the length of the message in bits as 8 bytes. *)
Definition pad (msg : list N) : list N :=
  let len := List.length msg in
  let zeros := ((64 - (len + 9) mod 64) mod 64)%nat in
  msg ++ [128] ++ List.repeat 0 zeros ++ big_endian 8 (8 * N.of_nat len).

(** The words of a block: four bytes each, the most significant first. *)
Fixpoint words (bytes : list N) : list N :=
  match bytes with
  | a :: b :: c :: d :: r => (((a * 256 + b) * 256 + c) * 256 + d) :: words r
  | _ => []
  end.

(** The message schedule: [n] more words after those of [w]. *)
Fixpoint schedule (n : nat) (w : list N) : list N :=
  match n with
  | O => w
  | S n' =>
      let k := List.length w in
      let g i := List.nth (k - i) w 0 in
      schedule n' (w ++ [w32 (ssig1 (g 2%nat) + g 7%nat + ssig0 (g 15%nat) + g 16%nat)])
  end.

(** One round on the working variables [a] to [h]. *)
Definition round (v : list N) (kw : N * N) : list N :=
  match v with
  | [a; b; c; d; e; f; g; h] =>
      let t1 := h + bsig1 e + ch e f g + fst kw + snd kw in
      let t2 := bsig0 a + maj a b c in
      [w32 (t1 + t2); a; b; c; w32 (d + t1); e; f; g]
  | _ => v
  end.

Definition compress (hash : list N) (block : list N) : list N :=
  let w := schedule 48 (words block) in
  let v := List.fold_left round (List.combine K w) hash in
  List.map (fun xy => w32 (fst xy + snd xy)) (List.combine hash v).

Fixpoint blocks (n : nat) (hash : list N) (bytes : list N) : list N :=
  match n with
  | O => hash
  | S n' => blocks n' (compress hash (List.firstn 64 bytes)) (List.skipn 64 bytes)
  end.

Definition digest_words (msg : list N) : list N :=
  let p := pad msg in
  blocks (List.length p / 64)%nat H0 p.

Definition hex_digit (x : N) : N := if x <? 10 then 48 + x else 87 + x.

(** A word as eight hexadecimal digits in lower case. *)
Fixpoint hex (n : nat) (x : N) : str :=
  match n with
  | O => []
  | S n' => hex n' (x / 16) ++ [hex_digit (x mod 16)]
  end.

(** [hashlib.sha256(msg).hexdigest()] *)
Definition hexdigest (msg : list N) : str :=
  List.concat (List.map (hex 8) (digest_words msg)).

End Sha256.

(** * The program *)

(** ** The patterns of the program *)

(** [[A-Z0-9\-]], [[A-Za-z\s]], [[0-9,]], [[0-9]], [[0-9.%]] and [[₹\s]], each
    under [re.IGNORECASE]. *)
Definition alnum_dash : regex :=
  Chr (iclass (fun c => in_range "A" "Z" c || in_range "0" "9" c || is_char "-" c)).
Definition alpha_space : regex :=
  Chr (iclass (fun c => in_range "A" "Z" c || in_range "a" "z" c || PyStr.isspace c)).
Definition digit_comma : regex :=
  Chr (iclass (fun c => in_range "0" "9" c || is_char "," c)).
Definition digit09 : regex := Chr (iclass (in_range "0" "9")).
Definition digit_dot_percent : regex :=
  Chr (iclass (fun c => in_range "0" "9" c || is_char "." c || is_char "%" c)).
Definition rupee_space : regex :=
  Chr (iclass (fun c => (c =? rupee) || PyStr.isspace c)).

(** [\s*:?\s*] *)
Definition colon : list regex := [Star ws; opt (ch ":"); Star ws].

(** The amount at the end of a pattern: any run of rupee signs and white
    space, then group 1, which is one or more of [[0-9,]], an optional point
    and any run of [[0-9]]. *)
Definition amount : list regex :=
  [Star rupee_space; Group 1 (seq [plus digit_comma; opt (ch "."); Star digit09])].

Definition invoice_patterns : list regex :=
  [ seq ([itext "Invoice No"; opt (ch ".")] ++ colon ++ [Group 1 (plus alnum_dash)]);
    seq ([itext "Invoice Number"] ++ colon ++ [Group 1 (plus alnum_dash)]);
    seq ([itext "Bill No"; opt (ch ".")] ++ colon ++ [Group 1 (plus alnum_dash)]);
    seq [itext "INV-"; Star ws; Group 1 (plus alnum_dash)];
    seq ([itext "Inv"; opt (ch "."); Star ws; itext "No"; opt (ch ".")] ++ colon
           ++ [Group 1 (plus alnum_dash)]) ].

(** [[0-9]{2}[A-Z]{5}[0-9]{4}[A-Z]{1}[1-9A-Z]{1}[Z]{1}[0-9A-Z]{1}], case
    sensitive. *)
Definition gstin_classes : list (N -> bool) :=
  List.repeat (in_range "0" "9") 2 ++ List.repeat (in_range "A" "Z") 5
  ++ List.repeat (in_range "0" "9") 4 ++ List.repeat (in_range "A" "Z") 1
  ++ List.repeat (fun c => in_range "1" "9" c || in_range "A" "Z" c) 1
  ++ List.repeat (is_char "Z") 1
  ++ List.repeat (fun c => in_range "0" "9" c || in_range "A" "Z" c) 1.

Definition gstin_pattern : regex := seq (List.map Chr gstin_classes).

Definition total_patterns : list regex :=
  [ seq ([itext "Grand Total"] ++ colon ++ amount);
    seq ([itext "Total Amount"] ++ colon ++ amount);
    seq ([itext "Amount Payable"] ++ colon ++ amount);
    seq ([itext "Net Amount"] ++ colon ++ amount) ].

(** Group 1 of a date pattern: [\d{2}], the separator, [\d{2}], the
    separator, [\d{4}]. *)
Definition dmy (sep : string) : regex :=
  Group 1 (seq [rep 2 digit; ch sep; rep 2 digit; ch sep; rep 4 digit]).

Definition date_patterns : list regex :=
  [ seq ([itext "Date"] ++ colon ++ [dmy "-"]);
    seq ([itext "Date"] ++ colon ++ [dmy "/"]);
    seq ([itext "Invoice Date"] ++ colon ++ [dmy "-"]);
    seq ([itext "Bill Date"] ++ colon ++ [dmy "-"]) ].

Definition place_patterns : list regex :=
  [ seq ([itext "Place of Supply"] ++ colon ++ [Group 1 (plus alpha_space)]);
    seq ([itext "Delivery At"] ++ colon ++ [Group 1 (plus alpha_space)]);
    seq ([itext "City"] ++ colon ++ [Group 1 (plus alpha_space)]) ].

Definition states : list str :=
  List.map lit
    [ "Maharashtra"; "Karnataka"; "Tamil Nadu"; "Delhi"; "Uttar Pradesh";
      "Gujarat"; "Rajasthan"; "Punjab"; "Haryana"; "Kerala"; "West Bengal";
      "Andhra Pradesh"; "Telangana"; "Madhya Pradesh"; "Bihar"; "Odisha" ]%string.

Definition total_gst_patterns : list regex :=
  [ seq ([itext "Total GST"] ++ colon ++ amount);
    seq ([itext "Total Tax"] ++ colon ++ amount);
    seq ([itext "GST Total"] ++ colon ++ amount) ].

(** A tax component: the label, [\s*@?\s*], any run of [[0-9.%]], the
    optional colon and the amount. *)
Definition component_pattern (label : string) : regex :=
  seq ([itext label; Star ws; opt (ch "@"); Star ws; Star digit_dot_percent]
         ++ colon ++ amount).

Definition cgst_pattern : regex := component_pattern "CGST".
Definition sgst_pattern : regex := component_pattern "SGST".
Definition igst_pattern : regex := component_pattern "IGST".

(** ** [calculate_summary_statistics] *)

(** [sum(values)]: the values are added to 0 one by one, from the left, as
    CPython does up to version 3.11 (later versions add floats with a
    compensation term); the first addition that raises ends the sum
    ([None]). *)
Fixpoint sum_onto (acc : pyval) (values : list pyval) : option pyval :=
  match values with
  | [] => Some acc
  | v :: values' => acc' ← Py.add acc v; sum_onto acc' values'
  end.

Definition py_sum (values : list pyval) : option pyval := sum_onto (PInt 0) values.

(** The dictionary the function returns, with its four keys as fields. *)
Record BatchSummary := mkBatchSummary {
  total_invoices : nat;
  total_grand_total : pyval;
  total_gst_amount : pyval;
  total_taxable_amount : pyval
}.

(** [invoice.get('grand_total', 0)] and [invoice.get('total_gst', 0)] for
    every invoice. *)
Definition grand_totals (invoices : list dict) : list pyval :=
  List.map (fun invoice => Py.get_default invoice (lit "grand_total") (PInt 0)) invoices.

Definition gst_amounts (invoices : list dict) : list pyval :=
  List.map (fun invoice => Py.get_default invoice (lit "total_gst") (PInt 0)) invoices.

(** [None] stands for the exception of an addition or of the subtraction. *)
Definition calculate_summary_statistics (invoices : list dict) : option BatchSummary :=
  let total_invoices := List.length invoices in
  total_grand_total ← py_sum (grand_totals invoices);
  total_gst_amount ← py_sum (gst_amounts invoices);
  total_taxable_amount ← Py.sub total_grand_total total_gst_amount;
  Some (mkBatchSummary total_invoices total_grand_total total_gst_amount
          total_taxable_amount).

(** ** [parse_gemini_response] *)

(** An index as [str.find] and [str.rfind] return it: -1 when there is no
    occurrence. *)
Definition index_of (o : option nat) : Z :=
  match o with
  | Some i => Z.of_nat i
  | None => (-1)%Z
  end.

Section ParseGeminiResponse.
(** [json.loads], with [None] for the exception it raises. *)
Variable json_loads : str -> option pyval.

(** The bare [except] clauses catch whatever the decoder raises; the
    failure of the last attempt returns Python's [None]. *)
Definition parse_gemini_response (response_text : str) : pyval :=
  let start_idx := index_of (PyStr.find 123 response_text) in
  let end_idx := (index_of (PyStr.rfind 125 response_text) + 1)%Z in
  let attempt :=
    if negb (start_idx =? -1)%Z && negb (end_idx =? -1)%Z then
      let json_str :=
        PyStr.slice (Z.to_nat start_idx) (Z.to_nat end_idx) response_text in
      json_loads json_str
    else
      json_loads response_text in
  match attempt with
  | Some v => v
  | None =>
      let cleaned :=
        PyStr.strip
          (PyStr.replace (lit "```") []
             (PyStr.replace (lit "```json") [] response_text)) in
      match json_loads cleaned with
      | Some v => v
      | None => PNone
      end
  end.
End ParseGeminiResponse.

(** ** [calculate_total_gst_from_text] *)

(** The state of [total_gst] when a block of additions ends: it ran to its
    end, or a statement raised and the handler took over. *)
Inductive outcome :=
| Done (total_gst : pyval)
| Raised (total_gst : pyval).

(** [for match in matches: total_gst += float(match.replace(',', ''))] *)
Fixpoint add_matches (total_gst : pyval) (matches : list str) : outcome :=
  match matches with
  | [] => Done total_gst
  | m :: matches' =>
      match Py.float_of_str (PyStr.replace (lit ",") [] m) with
      | None => Raised total_gst
      | Some amount =>
          match Py.add total_gst (PFloat amount) with
          | None => Raised total_gst
          | Some t => add_matches t matches'
          end
      end
  end.

(** The first loop: every pattern in turn, every match of it in turn. *)
Fixpoint add_patterns (total_gst : pyval) (patterns : list regex) (text : str) : outcome :=
  match patterns with
  | [] => Done total_gst
  | pattern :: patterns' =>
      match add_matches total_gst (findall pattern text) with
      | Done t => add_patterns t patterns' text
      | Raised t => Raised t
      end
  end.

Definition calculate_total_gst_from_text (text : str) : pyval :=
  let total_gst := PInt 0 in
  (* Method 1: explicit total GST *)
  match add_patterns total_gst total_gst_patterns text with
  | Raised total_gst => total_gst
  | Done total_gst =>
      if Py.gt_zero total_gst then total_gst else
      (* Method 2: CGST and SGST amounts *)
      let cgst_matches := findall cgst_pattern text in
      let sgst_matches := findall sgst_pattern text in
      match add_matches total_gst cgst_matches with
      | Raised total_gst => total_gst
      | Done total_gst =>
          match add_matches total_gst sgst_matches with
          | Raised total_gst => total_gst
          | Done total_gst =>
              if Py.gt_zero total_gst then total_gst else
              (* Method 3: IGST amounts *)
              let igst_matches := findall igst_pattern text in
              match add_matches total_gst igst_matches with
              | Raised total_gst => total_gst
              | Done total_gst => total_gst
              end
          end
      end
  end.

(** ** [validate_extracted_data] *)

(** [for pattern in patterns: match = re.search(pattern, text); if match:
    ...; break]: the match of the first pattern, in the order of the list,
    that is found in the text. *)
Fixpoint first_match (patterns : list regex) (text : str) : option Match :=
  match patterns with
  | [] => None
  | pattern :: patterns' =>
      match search pattern text with
      | Some m => Some m
      | None => first_match patterns' text
      end
  end.

(** The loop over [total_patterns]: a match whose amount [float] refuses is
    passed over ([except ValueError: continue]). *)
Fixpoint first_amount (patterns : list regex) (text : str) : option PyFloat.float :=
  match patterns with
  | [] => None
  | pattern :: patterns' =>
      match search pattern text with
      | Some m =>
          let amount_str := PyStr.replace (lit ",") [] (group1 m) in
          match Py.float_of_str amount_str with
          | Some f => Some f
          | None => first_amount patterns' text
          end
      | None => first_amount patterns' text
      end
  end.

(** The loop over [states]: the first name whose lower case occurs in the
    lower case of the text. *)
Fixpoint first_state (names : list str) (text : str) : option str :=
  match names with
  | [] => None
  | state :: names' =>
      if PyStr.contains (PyStr.lower state) (PyStr.lower text)
      then Some state
      else first_state names' text
  end.

(** [not d.get(k) or d.get(k) == "N/A"] *)
Definition missing_text (d : dict) (k : str) : bool :=
  negb (Py.truthy (Py.get d k)) || Py.eq_str (Py.get d k) (lit "N/A").

(** [not d.get(k) or d.get(k) == 0] *)
Definition missing_number (d : dict) (k : str) : bool :=
  negb (Py.truthy (Py.get d k)) || Py.eq_zero (Py.get d k).

(** What each fallback recovers from the text, if anything. *)
Definition recover_invoice_no (text : str) : option pyval :=
  match first_match invoice_patterns text with
  | Some m => Some (PStr (PyStr.strip (group1 m)))
  | None => None
  end.

Definition recover_gstin_no (text : str) : option pyval :=
  match search gstin_pattern text with
  | Some m => Some (PStr (m_group0 m))
  | None => None
  end.

Definition recover_grand_total (text : str) : option pyval :=
  match first_amount total_patterns text with
  | Some f => Some (PFloat f)
  | None => None
  end.

Definition recover_total_gst (text : str) : option pyval :=
  let total_gst := calculate_total_gst_from_text text in
  if Py.gt_zero total_gst then Some total_gst else None.

Definition recover_date (text : str) : option pyval :=
  match first_match date_patterns text with
  | Some m => Some (PStr (group1 m))
  | None => None
  end.

Definition recover_place (text : str) : option pyval :=
  match first_match place_patterns text with
  | Some m => Some (PStr (PyStr.strip (group1 m)))
  | None => None
  end.

Definition recover_state (text : str) : option pyval :=
  match first_state states text with
  | Some state => Some (PStr state)
  | None => None
  end.

(** One fallback block: when the field is missing and the text yields a
    value, the value is stored under the key; otherwise the record stays as
    it is. *)
Definition fallback (missing : dict -> str -> bool) (k : str)
    (recovered : option pyval) (d : dict) : dict :=
  if missing d k
  then match recovered with
       | Some v => <[k := v]> d
       | None => d
       end
  else d.

Definition validate_extracted_data (extracted_data : dict)
    (original_text : str) (filename : str) : dict :=
  let d := extracted_data in
  let d := fallback missing_text (lit "invoice_no") (recover_invoice_no original_text) d in
  let d := fallback missing_text (lit "gstin_no") (recover_gstin_no original_text) d in
  let d := fallback missing_number (lit "grand_total") (recover_grand_total original_text) d in
  let d := fallback missing_number (lit "total_gst") (recover_total_gst original_text) d in
  let d := fallback missing_text (lit "date") (recover_date original_text) d in
  let d := fallback missing_text (lit "place") (recover_place original_text) d in
  let d := fallback missing_text (lit "state") (recover_state original_text) d in
  (* Ensure items field exists *)
  match d !! lit "items" with
  | None => <[lit "items" := PList []]> d
  | Some _ => d
  end.

(** ** [format_date_to_ymd] *)

Import PyDate.

(** The items of [month_map] in the order of the dictionary; the key [may],
    written twice, keeps its first place. *)
Definition month_map : list (string * string) :=
  [ ("jan", "01"); ("feb", "02"); ("mar", "03"); ("apr", "04"); ("may", "05");
    ("jun", "06"); ("jul", "07"); ("aug", "08"); ("sep", "09"); ("oct", "10");
    ("nov", "11"); ("dec", "12");
    ("january", "01"); ("february", "02"); ("march", "03"); ("april", "04");
    ("june", "06"); ("july", "07"); ("august", "08"); ("september", "09");
    ("october", "10"); ("november", "11"); ("december", "12") ]%string.

Definition formats_to_try : list string :=
  [ (* Standard formats *)
    "%d-%m-%Y"; "%d-%m-%y"; "%Y-%m-%d"; "%d/%m/%Y"; "%d/%m/%y";
    "%d.%m.%Y"; "%d.%m.%y"; "%Y.%m.%d";
    (* Text month formats *)
    "%d-%b-%Y"; "%d-%B-%Y"; "%d %b %Y"; "%d %B %Y";
    "%b-%d-%Y"; "%B-%d-%Y"; "%b %d, %Y"; "%B %d, %Y";
    "%d-%b-%y"; "%d-%B-%y"; "%d %b %y"; "%d %B %y" ]%string.

(** The loop over [formats_to_try]: the first format that parses. *)
Fixpoint first_parse (formats : list string) (date_str : str) : option date :=
  match formats with
  | [] => None
  | fmt :: formats' =>
      match strptime date_str fmt with
      | Some date_obj => Some date_obj
      | None => first_parse formats' date_str
      end
  end.

(** How the scan for a month name ends: it returns a date, a statement of it
    raises, or the loop runs out. *)
Inductive scan_end :=
| Returned (s : str)
| ScanRaised
| NotFound.

Fixpoint manual_scan (items : list (string * string)) (date_str date_lower : str)
    : scan_end :=
  match items with
  | [] => NotFound
  | (month_text, month_num) :: items' =>
      if PyStr.contains (lit month_text) date_lower then
        let parts :=
          PyStr.split
            (PyStr.replace (lit "/") (lit " ")
               (PyStr.replace (lit "-") (lit " ")
                  (PyStr.replace (lit ",") (lit " ") date_str))) in
        match parts with
        | part0 :: _ :: year :: _ =>
            let day := PyStr.zfill 2 part0 in
            if Nat.eqb (List.length year) 2 then
              match PyDate.int year with
              | None => ScanRaised
              | Some y =>
                  let year := if (y <=? 50)%Z then lit "20" ++ year
                              else lit "19" ++ year in
                  Returned (year ++ lit "." ++ lit month_num ++ lit "." ++ day)
              end
            else Returned (year ++ lit "." ++ lit month_num ++ lit "." ++ day)
        | _ => manual_scan items' date_str date_lower
        end
      else manual_scan items' date_str date_lower
  end.

(** The string the function works on after its first statement. *)
Definition clean_date (s : str) : str :=
  PyStr.replace (lit ".") (lit "-") (PyStr.replace (lit "/") (lit "-") (PyStr.strip s)).

(** An argument that is no string has no [strip]; the outer handler returns
    it as it is. *)
Definition format_date_to_ymd (date_str : pyval) : pyval :=
  match date_str with
  | PStr s =>
      let date_str := clean_date s in
      match first_parse formats_to_try date_str with
      | Some date_obj => PStr (strftime_ymd date_obj)
      | None =>
          match manual_scan month_map date_str (PyStr.lower date_str) with
          | Returned r => PStr r
          | ScanRaised | NotFound => PStr date_str
          end
      end
  | _ => date_str
  end.

(** ** [extract_invoice_data] *)

Section ExtractInvoiceData.
Variable json_loads : str -> option pyval.

Definition extract_invoice_data (invoice_text : str) (response : option str)
    (name : str) : pyval :=
  match PyStr.strip invoice_text with
  | [] => PNone
  | _ :: _ =>
      match response with
      | None => PNone
      | Some content =>
          let extracted_json := parse_gemini_response json_loads content in
          if Py.truthy extracted_json then
            match extracted_json with
            | PDict d =>
                let d := validate_extracted_data d invoice_text name in
                if Py.truthy (PDict d) && bool_decide (is_Some (d !! lit "date")) then
                  let date_str := Py.get_default d (lit "date") (PStr []) in
                  if Py.truthy date_str
                  then PDict (<[lit "date" := format_date_to_ymd date_str]> d)
                  else PDict d
                else PDict d
            | _ => PNone
            end
          else extracted_json
      end
  end.
End ExtractInvoiceData.

(** ** The numbers of [bill_generation_page] *)

(** [random.choice(population)] and each element of
    [random.choices(population, k=...)]: the element at the drawn index. *)
Definition choice (population : string) (i : nat) : N :=
  List.nth i (lit population) 0.

(** [generate_invoice_number]: [year] is what the clock gives for
    [datetime.now().strftime("%Y")] and [random_num] the draw of
    [random.randint(1000, 9999)]. *)
Definition generate_invoice_number (year : str) (random_num : N) : str :=
  let prefix := lit "INV" in
  prefix ++ lit "/" ++ year ++ lit "/" ++ str_of_N random_num.

(** [generate_gstin], with the four draws as arguments: [state] from
    [random.randint(1, 37)], [pan] the ten indices of [random.choices],
    [entity] from [random.randint(1, 9)] and [check] the index of
    [random.choice]. *)
Definition generate_gstin (state : N) (pan : list nat) (entity : N) (check : nat) : str :=
  let state_code := PyStr.zfill 2 (str_of_N state) in
  let pan := List.map (choice "ABCDEFGHIJKLMNOPQRSTUVWXYZ") pan in
  let entity_code := str_of_N entity in
  let check_digit := [choice "ABCDEFGHIJKLMNOPQRSTUVWXYZ1234567890" check] in
  state_code ++ pan ++ entity_code ++ lit "Z" ++ check_digit.

(** ** [prepare_enhanced_json_data] *)

(** A dictionary display: the later of two equal keys stays. *)
Definition py_dict (items : list (string * pyval)) : dict :=
  List.fold_left (fun d kv => <[lit (fst kv) := snd kv]> d) items ∅.

(** [invoice.get(k, '')] and [invoice.get(k, 0)] *)
Definition text_of (invoice : dict) (k : string) : pyval :=
  Py.get_default invoice (lit k) (PStr []).
Definition number_of (invoice : dict) (k : string) : pyval :=
  Py.get_default invoice (lit k) (PInt 0).

(** The dictionary [calculate_summary_statistics] returns. *)
Definition summary_dict (s : BatchSummary) : pyval :=
  PDict (py_dict
    [ ("total_invoices", PInt (Z.of_nat (total_invoices s)));
      ("total_grand_total", total_grand_total s);
      ("total_gst_amount", total_gst_amount s);
      ("total_taxable_amount", total_taxable_amount s) ]%string).

(** The entry of one invoice; [None] stands for the exception of the
    subtraction. *)
Definition invoice_data (invoice : dict) : option pyval :=
  taxable_amount ← Py.sub (number_of invoice "grand_total") (number_of invoice "total_gst");
  Some (PDict (py_dict
    [ ("file_name", text_of invoice "file_name");
      ("invoice_number", text_of invoice "invoice_no");
      ("invoice_date", text_of invoice "date");
      ("seller_info", PDict (py_dict
         [ ("name", text_of invoice "seller_name");
           ("gstin", text_of invoice "gstin_no");
           ("place", text_of invoice "place");
           ("state", text_of invoice "state") ]));
      ("customer_info", PDict (py_dict
         [ ("name", text_of invoice "customer_name") ]));
      ("financial_summary", PDict (py_dict
         [ ("grand_total", number_of invoice "grand_total");
           ("total_gst", number_of invoice "total_gst");
           ("taxable_amount", taxable_amount) ]));
      ("items", Py.get_default invoice (lit "items") (PList [])) ]%string)).

Definition prepare_enhanced_json_data (invoices : list dict) : option pyval :=
  summary_statistics ← calculate_summary_statistics invoices;
  entries ← mapM invoice_data invoices;
  Some (PDict (py_dict
    [ ("invoices", PList entries);
      ("summary_statistics", summary_dict summary_statistics) ]%string)).

(** ** The rows of [prepare_enhanced_csv_data] *)

(** The columns of a row that come from the invoice; [None] stands for the
    exception of the subtraction. *)
Definition invoice_columns (invoice : dict) : option (list (string * pyval)) :=
  taxable_amount ← Py.sub (number_of invoice "grand_total") (number_of invoice "total_gst");
  Some [ ("File Name", text_of invoice "file_name");
         ("Invoice Number", text_of invoice "invoice_no");
         ("Invoice Date", text_of invoice "date");
         ("Seller Name", text_of invoice "seller_name");
         ("Seller GSTIN", text_of invoice "gstin_no");
         ("Seller Place", text_of invoice "place");
         ("Seller State", text_of invoice "state");
         ("Customer Name", text_of invoice "customer_name");
         ("Grand Total", number_of invoice "grand_total");
         ("Total GST", number_of invoice "total_gst");
         ("Taxable Amount", taxable_amount) ]%string.

(** The row of one item; an item that is no dictionary has no [get]. *)
Definition item_row (invoice : dict) (item : pyval) : option dict :=
  match item with
  | PDict item =>
      columns ← invoice_columns invoice;
      Some (py_dict (columns ++
        [ ("Item Name", text_of item "item_name");
          ("Item Category", text_of item "category");
          ("HSN Code", text_of item "hsn_code");
          ("Quantity", text_of item "quantity");
          ("Unit Price", text_of item "unit_price");
          ("Item Amount", text_of item "amount");
          ("GST Rate", text_of item "gst_rate") ]%string))
  | _ => None
  end.

(** The single row of an invoice without items. *)
Definition plain_row (invoice : dict) : option dict :=
  columns ← invoice_columns invoice;
  Some (py_dict (columns ++
    List.map (fun k => (k, PStr (lit "N/A")))
      [ "Item Name"; "Item Category"; "HSN Code"; "Quantity"; "Unit Price";
        "Item Amount"; "GST Rate" ]%string)).

(** The rows of one invoice. Items that are true and no list are a string
    or a dictionary, whose elements are strings without [get], or a number,
    which cannot be iterated: the loop raises. *)
Definition invoice_rows (invoice : dict) : option (list dict) :=
  match invoice !! lit "items" with
  | Some items =>
      if Py.truthy items then
        match items with
        | PList l => mapM (item_row invoice) l
        | _ => None
        end
      else row ← plain_row invoice; Some [row]
  | None => row ← plain_row invoice; Some [row]
  end.

(** [csv_rows] when the loop over the invoices ends. *)
Definition csv_rows (invoices : list dict) : option (list dict) :=
  rows ← mapM invoice_rows invoices;
  Some (List.concat rows).

(** ** The accounts of [main_app.py] *)

(** [hash_password]: the hexadecimal SHA-256 digest of the UTF-8 bytes of
    the password; [None] stands for the exception of [encode]. *)
Definition hash_password (password : str) : option str :=
  bytes ← PyText.encode password;
  Some (Sha256.hexdigest bytes).

(** A row of the table [users] of [user_db_setup.py], with text in every
    column but [id], as the program writes it. *)
Record user_row := mkUser {
  u_id : Z;
  u_name : str;
  u_email : str;
  u_aadhaar_number : str;
  u_password : str;
  u_user_type : str;
  u_created_at : str
}.

(** The table and the counter SQLite keeps for its [AUTOINCREMENT] key: the
    largest [id] the table ever held. *)
Record database := mkDb {
  users : list user_row;
  users_sequence : Z
}.

(** A string can be bound to a parameter of a statement when it has a UTF-8
    encoding; binding any other raises. *)
Definition bindable (s : str) : bool := negb (List.existsb PyText.is_surrogate s).

(** The key of the next row: one more than the largest key the table holds
    or ever held. *)
Definition next_id (db : database) : Z :=
  (List.fold_right Z.max (users_sequence db) (List.map u_id (users db)) + 1)%Z.

(** The largest key of a table; no row can be added beyond it. *)
Definition max_rowid : Z := 9223372036854775807.

(** What [create_user] returns: [(True, "User created successfully")],
    [(False, "User with this email or Aadhaar number already exists")], or
    [(False, "Error creating user: ...")] from the handler. *)
Inductive create_outcome :=
| UserCreated
| UserExists
| CreateError.

(** [create_user]; [now] is the time the database writes in [created_at].
    The table is changed only by the [INSERT] that is committed. *)
Definition create_user (now : str) (name email aadhaar_number password user_type : str)
    (db : database) : create_outcome * database :=
  if negb (bindable email && bindable aadhaar_number) then (CreateError, db) else
  match List.find (fun u => bool_decide (u_email u = email)
                            || bool_decide (u_aadhaar_number u = aadhaar_number))
                  (users db) with
  | Some _ => (UserExists, db)
  | None =>
      match hash_password password with
      | None => (CreateError, db)
      | Some hashed_pw =>
          if negb (bindable name && bindable user_type) then (CreateError, db)
          else if (max_rowid <? next_id db)%Z then (CreateError, db)
          else
            let row := mkUser (next_id db) name email aadhaar_number hashed_pw
                         user_type now in
            (UserCreated, mkDb (users db ++ [row]) (next_id db))
      end
  end.

(** What [verify_user] returns: [(True, user)] with the dictionary of the
    user, [(False, "Invalid email or password")], or
    [(False, "Error verifying user: ...")] from the handler. *)
Inductive verify_outcome :=
| Verified (user : dict)
| InvalidLogin
| VerifyError.

Definition verify_user (email password : str) (db : database) : verify_outcome :=
  match hash_password password with
  | None => VerifyError
  | Some hashed_pw =>
      if negb (bindable email) then VerifyError else
      match List.find (fun u => bool_decide (u_email u = email)
                                && bool_decide (u_password u = hashed_pw))
                      (users db) with
      | Some user =>
          Verified (py_dict
            [ ("id", PInt (u_id user));
              ("name", PStr (u_name user));
              ("email", PStr (u_email user));
              ("aadhaar_number", PStr (u_aadhaar_number user));
              ("user_type", PStr (u_user_type user)) ]%string)
      | None => InvalidLogin
      end
  end.

(** The sign-up form of [auth_page]: the message it shows, or the call of
    [create_user]. *)
Inductive signup_outcome :=
| FillInAllFields
| PasswordsDoNotMatch
| AadhaarMustBe12Digits
| PasswordTooShort
| Submitted (created : create_outcome).

Definition nonempty (s : str) : bool := Py.truthy (PStr s).

Definition signup (now : str) (name email aadhaar_number password confirm_password
    user_type : str) (db : database) : signup_outcome * database :=
  if negb (List.forallb nonempty
             [name; email; aadhaar_number; password; confirm_password])
  then (FillInAllFields, db)
  else if negb (bool_decide (password = confirm_password))
  then (PasswordsDoNotMatch, db)
  else if negb (Nat.eqb (List.length aadhaar_number) 12)
          || negb (PyText.isdigit aadhaar_number)
  then (AadhaarMustBe12Digits, db)
  else if Nat.ltb (List.length password) 6
  then (PasswordTooShort, db)
  else
    let '(created, db') :=
      create_user now name email aadhaar_number password user_type db in
    (Submitted created, db').

(** The sign-in form of [auth_page]: [None] for the message that asks to
    fill in all fields, and otherwise what [verify_user] returns. *)
Definition signin (email password : str) (db : database) : option verify_outcome :=
  if negb (nonempty email) || negb (nonempty password) then None
  else Some (verify_user email password db).

(** ** The batch of [multi_invoice_extraction_page] *)

(** An uploaded file as the batch sees it: its name, the text read from it
    ([None] when reading fails, in which case [extract_invoice_data] returns
    [None]) and the content of the reply of the model. *)
Record upload := mkUpload {
  upload_name : str;
  upload_text : option str;
  upload_reply : option str
}.

Section Batch.
Variable json_loads : str -> option pyval.

Definition extract_upload (uploaded_file : upload) : pyval :=
  match upload_text uploaded_file with
  | None => PNone
  | Some invoice_text =>
      extract_invoice_data json_loads invoice_text (upload_reply uploaded_file)
        (upload_name uploaded_file)
  end.

(** The loop of the extraction button: what is true of the extracted data
    gets the name of its file and joins [all_extracted_data]. [None] stands
    for the [TypeError] of assigning an item of a value that is no
    dictionary. *)
Fixpoint extract_all (uploaded_invoices : list upload) : option (list dict) :=
  match uploaded_invoices with
  | [] => Some []
  | uploaded_file :: files =>
      let extracted_data := extract_upload uploaded_file in
      if Py.truthy extracted_data then
        match extracted_data with
        | PDict d =>
            rest ← extract_all files;
            Some (<[lit "file_name" := PStr (upload_name uploaded_file)]> d :: rest)
        | _ => None
        end
      else extract_all files
  end.
End Batch.

(** ** The session of the manual verification *)

(** [verified_invoices] is a list of its own, or the very list object of
    [all_extracted_data], which the page assigns to it when the manual mode
    is off. *)
Inductive verified_list :=
| Own (l : list dict)
| Alias.

(** The part of [st.session_state] the handlers read and write. *)
Record session := mkSession {
  all_extracted_data : list dict;
  verified : verified_list;
  current_file_index : Z;
  extraction_complete : bool
}.

Definition verified_invoices (s : session) : list dict :=
  match verified s with
  | Own l => l
  | Alias => all_extracted_data s
  end.

(** [st.session_state.verified_invoices.append(x)]: an append to the shared
    list shows in [all_extracted_data] too. *)
Definition append_verified (x : dict) (s : session) : session :=
  match verified s with
  | Own l =>
      mkSession (all_extracted_data s) (Own (l ++ [x])) (current_file_index s)
        (extraction_complete s)
  | Alias =>
      mkSession (all_extracted_data s ++ [x]) Alias (current_file_index s)
        (extraction_complete s)
  end.

(** [if st.session_state.verified_invoices:
       st.session_state.verified_invoices.pop()] *)
Definition pop_verified (s : session) : session :=
  match verified s with
  | Own l =>
      mkSession (all_extracted_data s) (Own (List.removelast l))
        (current_file_index s) (extraction_complete s)
  | Alias =>
      mkSession (List.removelast (all_extracted_data s)) Alias
        (current_file_index s) (extraction_complete s)
  end.

Definition set_index (i : Z) (s : session) : session :=
  mkSession (all_extracted_data s) (verified s) i (extraction_complete s).

(** [l[i]]: a negative index counts from the end; [None] stands for
    [IndexError]. *)
Definition list_item (l : list dict) (i : Z) : option dict :=
  if (0 <=? i)%Z then l !! Z.to_nat i
  else if (- Z.of_nat (List.length l) <=? i)%Z
       then l !! Z.to_nat (Z.of_nat (List.length l) + i)
       else None.

(** The values of the verification form when it is submitted. *)
Record form := mkForm {
  form_invoice_no : str;
  form_gstin_no : str;
  form_seller_name : str;
  form_customer_name : str;
  form_grand_total : PyFloat.float;
  form_total_gst : PyFloat.float;
  form_place : str;
  form_date : str;
  form_state : str
}.

(** The three submit buttons of the form. *)
Inductive click :=
| VerifyClick (values : form)
| SkipClick
| PreviousClick.

(** The state after the extraction button, for the batch [records] it
    extracted: with an empty batch the page returns after its error
    message. *)
Definition extraction_button (manual_mode : bool) (records : list dict) : session :=
  match records with
  | [] => mkSession [] (Own []) 0 true
  | _ :: _ =>
      if manual_mode then mkSession records (Own []) 0 true
      else mkSession records Alias 0 true
  end.

(** [show_manual_verification_interface] when a button of its form is
    pressed: the state the handler of the button leaves. [None] means the
    handler is not reached: the interface is not shown, the button is not
    on the page, or a statement before the handler raises. *)
Definition handle (c : click) (s : session) : option session :=
  if negb (extraction_complete s
           && (current_file_index s <? Z.of_nat (List.length (all_extracted_data s)))%Z)
  then None
  else
    current_data ← list_item (all_extracted_data s) (current_file_index s);
    current_file ← current_data !! lit "file_name";
    match c with
    | VerifyClick values =>
        let items := Py.get_default current_data (lit "items") (PList []) in
        let items := if Py.truthy items then items else PList [PDict ∅] in
        let verified_data := py_dict
          [ ("file_name", current_file);
            ("invoice_no", PStr (form_invoice_no values));
            ("gstin_no", PStr (form_gstin_no values));
            ("seller_name", PStr (form_seller_name values));
            ("customer_name", PStr (form_customer_name values));
            ("grand_total", PFloat (form_grand_total values));
            ("total_gst", PFloat (form_total_gst values));
            ("place", PStr (form_place values));
            ("date", PStr (form_date values));
            ("state", PStr (form_state values));
            ("items", items) ]%string in
        let s := append_verified verified_data s in
        Some (set_index (current_file_index s + 1) s)
    | SkipClick =>
        let s := append_verified current_data s in
        Some (set_index (current_file_index s + 1) s)
    | PreviousClick =>
        if (0 <? current_file_index s)%Z then
          let s := set_index (current_file_index s - 1) s in
          Some (pop_verified s)
        else None
    end.

(** The state after a series of button presses, each one handled. *)
Fixpoint handle_all (clicks : list click) (s : session) : option session :=
  match clicks with
  | [] => Some s
  | c :: clicks' => s' ← handle c s; handle_all clicks' s'
  end.

(** ** The pages of [main_app.py] *)

(** The keys the pages of [app2.py] store in [st.session_state]. *)
Definition page_keys : list str :=
  List.map lit
    [ "verified_invoices"; "current_file_index"; "extraction_complete";
      "show_final_table"; "all_extracted_data"; "uploaded_invoices_dict";
      "all_uploaded_files"; "bill_items"; "invoice_number"; "gstin_number";
      "invoice_draft" ]%string.

(** What a run of the application does to [st.session_state], a dictionary
    of the entries the program stores (those Streamlit keeps for its widgets
    are left out): a button or a form is submitted, or a page that is shown
    stores a value. *)
Inductive app_event :=
| ShowAuth
| ShowMain
| Launch
| BackToHome
| ChooseSignIn
| ChooseSignUp
| SubmitSignIn (email password : str)
| SubmitSignUp (now name email aadhaar_number password confirm_password user_type : str)
| SignOut
| Navigate (current_nav : string)
| PageWrite (key : str) (value : pyval).

(** [if k not in st.session_state: st.session_state[k] = v] *)
Definition set_default (k : string) (v : pyval) (s : dict) : dict :=
  match s !! lit k with
  | Some _ => s
  | None => <[lit k := v]> s
  end.

(** The first statements of [main]. *)
Definition main_init (s : dict) : dict :=
  set_default "authenticated" (PBool false)
    (set_default "current_page" (PStr (lit "landing")) s).

Definition on_page (name : string) (s : dict) : bool :=
  Py.eq_str (Py.get s (lit "current_page")) (lit name).

(** The main page is shown when [current_page] is ["main_app"] and
    [authenticated] is true; its sidebar and its header read three keys of
    [user] before any button, and raise without them. *)
Definition main_shown (s : dict) : bool :=
  on_page "main_app" s && Py.truthy (Py.get s (lit "authenticated"))
  && match s !! lit "user" with
     | Some (PDict u) =>
         bool_decide (is_Some (u !! lit "name"))
         && bool_decide (is_Some (u !! lit "email"))
         && bool_decide (is_Some (u !! lit "user_type"))
     | _ => false
     end.

(** The handler of the sign-out button: every key but [current_page] and
    [auth_mode] is deleted, then the two assignments. *)
Definition sign_out (s : dict) : dict :=
  let kept :=
    filter (fun kv => bool_decide (fst kv = lit "current_page")
                      || bool_decide (fst kv = lit "auth_mode")) s in
  <[lit "authenticated" := PBool false]>
    (<[lit "current_page" := PStr (lit "landing")]> kept).

(** One event in a run of [main]: the session and the table of users it
    leaves. [None] means that the page shown has no such button or form. *)
Definition press (e : app_event) (s : dict) (db : database) : option (dict * database) :=
  let s := main_init s in
  match e with
  | Launch =>
      if on_page "landing" s
      then Some (<[lit "current_page" := PStr (lit "auth")]> s, db) else None
  | ShowAuth =>
      if on_page "auth" s
      then Some (set_default "auth_mode" (PStr (lit "signin")) s, db) else None
  | BackToHome =>
      if on_page "auth" s
      then Some (<[lit "current_page" := PStr (lit "landing")]> s, db) else None
  | ChooseSignIn =>
      if on_page "auth" s
      then Some (<[lit "auth_mode" := PStr (lit "signin")]> s, db) else None
  | ChooseSignUp =>
      if on_page "auth" s
      then Some (<[lit "auth_mode" := PStr (lit "signup")]> s, db) else None
  | SubmitSignIn email password =>
      if on_page "auth" s && Py.eq_str (Py.get s (lit "auth_mode")) (lit "signin") then
        match signin email password db with
        | Some (Verified result) =>
            Some (<[lit "authenticated" := PBool true]>
                    (<[lit "current_page" := PStr (lit "main_app")]>
                       (<[lit "user" := PDict result]> s)), db)
        | _ => Some (s, db)
        end
      else None
  | SubmitSignUp now name email aadhaar_number password confirm_password user_type =>
      if on_page "auth" s
         && bool_decide (is_Some (s !! lit "auth_mode"))
         && negb (Py.eq_str (Py.get s (lit "auth_mode")) (lit "signin")) then
        match signup now name email aadhaar_number password confirm_password
                user_type db with
        | (Submitted UserCreated, db') =>
            Some (<[lit "auth_mode" := PStr (lit "signin")]> s, db')
        | (_, db') => Some (s, db')
        end
      else None
  | ShowMain =>
      if main_shown s
      then Some (set_default "current_nav" (PStr (lit "extraction")) s, db) else None
  | SignOut =>
      if main_shown s then Some (sign_out s, db) else None
  | Navigate current_nav =>
      if main_shown s
      then Some (<[lit "current_nav" := PStr (lit current_nav)]> s, db) else None
  | PageWrite key value =>
      if main_shown s && bool_decide (key ∈ page_keys)
      then Some (<[key := value]> s, db) else None
  end.

(** A series of events. *)
Fixpoint press_all (events : list app_event) (s : dict) (db : database)
    : option (dict * database) :=
  match events with
  | [] => Some (s, db)
  | e :: events' =>
      match press e s db with
      | Some (s', db') => press_all events' s' db'
      | None => None
      end
  end.

(** * What the statements speak of *)

(** ** The validation stage *)

(** A parsed object in which the model gave the seller and nothing else. *)
Definition seller_only : dict :=
  <[lit "seller_name" := PStr (lit "Acme Traders")]> ∅.

(** The fields that have a fallback: the key, the test that finds the field
    missing, and what the fallback recovers from the text. *)
Definition fallbacks (text : str)
    : list (str * (dict -> str -> bool) * option pyval) :=
  [ (lit "invoice_no", missing_text, recover_invoice_no text);
    (lit "gstin_no", missing_text, recover_gstin_no text);
    (lit "grand_total", missing_number, recover_grand_total text);
    (lit "total_gst", missing_number, recover_total_gst text);
    (lit "date", missing_text, recover_date text);
    (lit "place", missing_text, recover_place text);
    (lit "state", missing_text, recover_state text) ].

(** The keys the stage may write. *)
Definition written_keys : list str :=
  List.map lit
    [ "invoice_no"; "gstin_no"; "grand_total"; "total_gst"; "date"; "place";
      "state"; "items" ]%string.

(** The last step, which makes sure of the key [items]. *)
Definition ensure_items (d : dict) : dict :=
  match d !! lit "items" with
  | None => <[lit "items" := PList []]> d
  | Some _ => d
  end.

(** ** The tax identifier *)

(** The subject starts with one character of each class, in order. *)
Fixpoint starts_with_classes (classes : list (N -> bool)) (s : str) : bool :=
  match classes, s with
  | [], _ => true
  | p :: classes', x :: s' => p x && starts_with_classes classes' s'
  | _ :: _, [] => false
  end.

(** The shape [gstin_pattern] asks for, character by character: two digits,
    five capital letters, four digits, a capital letter, a character that is
    [1] to [9] or a capital letter, the letter [Z], and a digit or a capital
    letter. *)
Definition gstin_shape (s : str) : bool :=
  let digit := PyStr.is_ascii_digit in
  let upper := PyStr.is_ascii_upper in
  match s with
  | [a1; a2; b1; b2; b3; b4; b5; c1; c2; c3; c4; d; e; z; f] =>
      digit a1 && (digit a2 && (upper b1 && (upper b2 && (upper b3 &&
      (upper b4 && (upper b5 && (digit c1 && (digit c2 && (digit c3 &&
      (digit c4 && (upper d && ((((49 <=? e) && (e <=? 57)) || upper e) &&
      ((z =? 90) && (digit f || upper f))))))))))))))
  | _ => false
  end.

(** The shape in the words of the specification: two digits, five letters,
    four digits, a letter, an alphanumeric character, the letter [Z] and an
    alphanumeric character. *)
Definition spec_gstin_shape (s : str) : bool :=
  let digit := PyStr.is_ascii_digit in
  let letter c := PyStr.is_ascii_upper c || PyStr.is_ascii_lower c in
  let alnum c := digit c || letter c in
  match s with
  | [a1; a2; b1; b2; b3; b4; b5; c1; c2; c3; c4; d; e; z; f] =>
      digit a1 && (digit a2 && (letter b1 && (letter b2 && (letter b3 &&
      (letter b4 && (letter b5 && (digit c1 && (digit c2 && (digit c3 &&
      (digit c4 && (letter d && (alnum e && ((z =? 90) && alnum f)))))))))))))
  | _ => false
  end.

(** ** What a pattern can capture *)

(** Every character class of the pattern lies within [q]. *)
Fixpoint only_chars (q : N -> bool) (r : regex) : Prop :=
  match r with
  | Eps => True
  | Chr p => forall c, p c = true -> q c = true
  | Cat r1 r2 | Alt r1 r2 => only_chars q r1 /\ only_chars q r2
  | Star r1 | Group _ r1 => only_chars q r1
  end.

(** Every group of the pattern is made of classes within [q]. *)
Fixpoint groups_only (q : N -> bool) (r : regex) : Prop :=
  match r with
  | Eps | Chr _ => True
  | Cat r1 r2 | Alt r1 r2 => groups_only q r1 /\ groups_only q r2
  | Star r1 => groups_only q r1
  | Group _ r1 => only_chars q r1
  end.

(** A string, and a list of captures, made of characters in [q]. *)
Definition plain (q : N -> bool) (w : str) : Prop := Forall (fun c => q c = true) w.

Definition caps_plain (q : N -> bool) (c : caps) : Prop :=
  Forall (fun iw => plain q (snd iw)) c.

(** The characters of a captured amount: the ASCII digits, the comma and the
    point. *)
Definition amount_char (c : N) : bool :=
  PyStr.is_ascii_digit c || (c =? 44) || (c =? 46).

(** The patterns whose group goes to [float]. *)
Definition amount_patterns : list regex :=
  total_patterns ++ total_gst_patterns ++ [cgst_pattern; sgst_pattern; igst_pattern].

(** ** The GST total *)

(** The sign bit is clear and the value is a number: a positive zero, a
    positive finite float or positive infinity. *)
Definition fnonneg (f : PyFloat.float) : Prop :=
  match f with
  | S754_zero false | S754_infinity false | S754_finite false _ _ => True
  | _ => False
  end.

(** The values [total_gst] takes: the integer it starts from, or a float that
    is not negative. *)
Definition nonneg_total (t : pyval) : Prop :=
  t = PInt 0 \/ exists f, t = PFloat f /\ fnonneg f.

Definition outcome_total (o : outcome) : pyval :=
  match o with Done t | Raised t => t end.


(** The total after the amounts are added to it one by one, in order. *)
Definition add_amount (total : pyval) (a : PyFloat.float) : pyval :=
  PFloat (PyFloat.add (match total with PFloat f => f | _ => PyFloat.zero end) a).


(** All the matches of the first method, in the order they are added. *)
Definition explicit_matches (text : str) : list str :=
  List.concat (List.map (fun pattern => findall pattern text) total_gst_patterns).

(** The float a decimal literal of the program text denotes. *)
Definition float_literal (s : string) : PyFloat.float :=
  match Py.float_of_str (lit s) with Some f => f | None => PyFloat.zero end.

Definition nl : str := [10].



(** A transcript whose second total tax line has no digit: [float] raises on
    it after the first line was added. *)
Definition broken_total_transcript : str :=
  lit "Total GST: 5" ++ nl ++ lit "Total GST: ,".






(** ** The batch summary *)

(** Amounts that add without an exception: floats with the integer 0 of an
    absent field, or integers only. *)
Definition float_amount (v : pyval) : Prop :=
  v = PInt 0 \/ exists f, v = PFloat f.

Definition int_amount (v : pyval) : Prop := exists z, v = PInt z.

Definition example_invoices : list dict :=
  [ <[lit "grand_total" := PFloat (float_literal "2039.96")]>
      (<[lit "total_gst" := PFloat (float_literal "311.18")]> ∅);
    <[lit "grand_total" := PFloat (float_literal "2500.03")]>
      (<[lit "total_gst" := PFloat (float_literal "381.36")]> ∅);
    <[lit "invoice_no" := PStr (lit "INV-3")]> ∅ ].

(** ** The reply of the model *)

(** The text between the first opening brace and the last closing brace,
    both included; it is empty when the closing brace is missing or stands
    before the opening one. *)
Definition bracket_slice (reply : str) : str :=
  match PyStr.find 123 reply with
  | Some i =>
      PyStr.slice i
        (match PyStr.rfind 125 reply with Some j => S j | None => O end) reply
  | None => []
  end.

(** The reply without the code fence markers and the white space around it. *)
Definition cleaned_reply (reply : str) : str :=
  PyStr.strip (PyStr.replace (lit "```") [] (PyStr.replace (lit "```json") [] reply)).

Definition has_open_brace (reply : str) : bool :=
  match PyStr.find 123 reply with Some _ => true | None => false end.

Definition has_close_brace (reply : str) : bool :=
  match PyStr.rfind 125 reply with Some _ => true | None => false end.

(** The three steps in the words of the specification: the bracket slice if
    both braces exist, then the entire reply, then the cleaned reply. *)
Definition spec_parse (json_loads : str -> option pyval) (reply : str) : pyval :=
  let step1 :=
    if has_open_brace reply && has_close_brace reply
    then json_loads (bracket_slice reply) else None in
  match step1 with
  | Some v => v
  | None =>
      match json_loads reply with
      | Some v => v
      | None =>
          match json_loads (cleaned_reply reply) with
          | Some v => v
          | None => PNone
          end
      end
  end.

(** An ASCII text between double quotes, as JSON writes a string. *)
Definition json_string (a : string) : str := [34] ++ lit a ++ [34].

(** A reply with prose around the JSON object. *)
Definition prose_reply : str :=
  lit "Here is the data: {" ++ json_string "invoice_no" ++ lit ": "
  ++ json_string "INV-42" ++ lit "} as requested.".

(** A reply that is a JSON array of two objects. *)
Definition array_reply : str :=
  lit "[{" ++ json_string "a" ++ lit ": 1}, {" ++ json_string "b" ++ lit ": 2}]".

(** A reply that is a JSON array with a code fence marker in a string. *)
Definition fenced_array_reply : str :=
  lit "[" ++ json_string "```" ++ lit ", {" ++ json_string "a" ++ lit ": 1}, {"
  ++ json_string "b" ++ lit ": 2}]".

(** ** Dates that do not parse *)

(** No format of [formats_to_try] parses the string. *)
Definition no_template_parses (date_str : str) : bool :=
  List.forallb
    (fun fmt => match strptime date_str fmt with Some _ => false | None => true end)
    formats_to_try.

(** No key of [month_map] occurs in the lower case of the string. *)
Definition no_month_name (date_str : str) : bool :=
  List.forallb
    (fun item => negb (PyStr.contains (lit (fst item)) (PyStr.lower date_str)))
    month_map.

(** ** The numbers of the bill generator *)

(** The draws [random] can make for [generate_gstin]. *)
Definition gstin_draws (state : N) (pan : list nat) (entity : N) (check : nat) : Prop :=
  1 <= state <= 37 /\ List.length pan = 10%nat /\ Forall (fun i => (i < 26)%nat) pan
  /\ 1 <= entity <= 9 /\ (check < 36)%nat.

(** Any character but the slash. *)
Definition no_slash (c : N) : bool := negb (c =? 47).

(** ** The export *)

(** [entry['financial_summary']['taxable_amount']] *)
Definition taxable_amount_of (entry : pyval) : option pyval :=
  match entry with
  | PDict e =>
      match e !! lit "financial_summary" with
      | Some (PDict f) => f !! lit "taxable_amount"
      | _ => None
      end
  | _ => None
  end.

(** [data['invoices']] and [data['summary_statistics']['total_taxable_amount']] *)
Definition entries_of (data : pyval) : option (list pyval) :=
  match data with
  | PDict e => match e !! lit "invoices" with Some (PList l) => Some l | _ => None end
  | _ => None
  end.

Definition total_taxable_of (data : pyval) : option pyval :=
  match data with
  | PDict e =>
      match e !! lit "summary_statistics" with
      | Some (PDict f) => f !! lit "total_taxable_amount"
      | _ => None
      end
  | _ => None
  end.

(** ** The rows of the CSV export *)

(** The number of rows an invoice takes: one for each item, and one when it
    has no items. *)
Definition row_count (invoice : dict) : nat :=
  match invoice !! lit "items" with
  | Some (PList (item :: items)) => S (List.length items)
  | _ => 1
  end.

(** Every row carries the name of the file and the grand total of its
    invoice. *)
Definition row_of (invoice row : dict) : Prop :=
  row !! lit "File Name" = Some (text_of invoice "file_name")
  /\ row !! lit "Grand Total" = Some (number_of invoice "grand_total").

(** ** The accounts *)

(** The dictionary [verify_user] returns for a row. *)
Definition user_dict (id : Z) (name email aadhaar_number user_type : str) : dict :=
  py_dict
    [ ("id", PInt id); ("name", PStr name); ("email", PStr email);
      ("aadhaar_number", PStr aadhaar_number); ("user_type", PStr user_type) ]%string.

(** The constraints of the table: the keys, the e-mail addresses and the
    Aadhaar numbers are unique, and no key is above the counter. *)
Definition consistent (db : database) : Prop :=
  NoDup (List.map u_id (users db))
  /\ NoDup (List.map u_email (users db))
  /\ NoDup (List.map u_aadhaar_number (users db))
  /\ Forall (fun u => (u_id u <= users_sequence db)%Z) (users db).

(** A call of [create_user]. *)
Record request := mkRequest {
  r_now : str;
  r_name : str;
  r_email : str;
  r_aadhaar_number : str;
  r_password : str;
  r_user_type : str
}.

Definition create_all (requests : list request) (db : database) : database :=
  List.fold_left
    (fun db r =>
       snd (create_user (r_now r) (r_name r) (r_email r) (r_aadhaar_number r)
              (r_password r) (r_user_type r) db))
    requests db.

(** ** Dates in digits *)

(** The pattern [_strptime] makes of a directive, and of a literal
    character. *)
Definition day_re : regex := default Eps (directive_regex 100).
Definition month_re : regex := default Eps (directive_regex 109).
Definition year_re : regex := default Eps (directive_regex 89).
Definition year2_re : regex := default Eps (directive_regex 121).
Definition lit_re (c : N) : regex := Chr (fun x => PyStr.casefold x =? PyStr.casefold c).

(** [date.strftime] for the formats [%d-%m-%Y] and [%Y-%m-%d], with [sep]
    between the fields, for a year of four digits. *)
Definition dmy_text (sep : N) (d : date) : str :=
  two_digits (day d) ++ [sep] ++ two_digits (month d) ++ [sep] ++ str_of_N (year d).
Definition ymd_text (sep : N) (d : date) : str :=
  str_of_N (year d) ++ [sep] ++ two_digits (month d) ++ [sep] ++ two_digits (day d).

(** The ten ASCII digits. *)
Definition ascii_digit (c : N) : Prop := 48 <= c <= 57.

(** ** The verification session *)

(** The manual verification is in step with the batch: [verified_invoices]
    is a list of its own with one record for each of the first
    [current_file_index] files, in their order and under their names. *)
Definition in_step (s : session) : Prop :=
  exists l : list dict,
    verified s = Own l
    /\ current_file_index s = Z.of_nat (List.length l)
    /\ (List.length l <= List.length (all_extracted_data s))%nat
    /\ forall (i : nat) (d : dict), l !! i = Some d ->
         exists e : dict, all_extracted_data s !! i = Some e
           /\ d !! lit "file_name" = e !! lit "file_name".

(** ** The pages *)

(** [st.session_state.authenticated] is true. *)
Definition signed_in (s : dict) : bool :=
  Py.truthy (Py.get s (lit "authenticated")).

(** The session of someone signed in is on the main page and holds as [user]
    the dictionary of a row of the table; any other session is not on the
    main page and holds no key but [current_page], [authenticated] and
    [auth_mode]. *)
Definition guarded (s : dict) (db : database) : Prop :=
  (signed_in s = true ->
     on_page "main_app" s = true
     /\ exists u, In u (users db)
          /\ s !! lit "user"
             = Some (PDict (user_dict (u_id u) (u_name u) (u_email u)
                              (u_aadhaar_number u) (u_user_type u))))
  /\ (signed_in s = false ->
        on_page "main_app" s = false
        /\ forall k, is_Some (s !! k) ->
             k = lit "current_page" \/ k = lit "authenticated"
             \/ k = lit "auth_mode").

(** A first visit: an account is created, its owner signs in and starts a
    bill. *)
Definition visit : list app_event :=
  [ Launch; ShowAuth; ChooseSignUp;
    SubmitSignUp (lit "2024-01-01 10:00:00") (lit "Asha Rao")
      (lit "asha@example.com") (lit "123412341234") (lit "s3cret!")
      (lit "s3cret!") (lit "CA");
    SubmitSignIn (lit "asha@example.com") (lit "s3cret!");
    ShowMain; Navigate "bill";
    PageWrite (lit "invoice_number") (PStr (lit "INV/2024/1234")) ].

(** * Properties *)

(** ** Finite maps and the fallback blocks *)

Ltac key_neq :=
  let H := fresh in intros H; vm_compute in H; discriminate H.

Lemma truthy_not_zero (v : pyval) : Py.truthy v = true -> Py.eq_zero v = false.
Proof.
  destruct v as [| b | z | f | s | l | d]; simpl; try reflexivity.
  - intros ->. reflexivity.
  - intros H. apply negb_true_iff in H. exact H.
  - destruct f; simpl; intros H; try reflexivity; discriminate H.
Qed.

Lemma get_lookup (d : dict) (k : str) (v : pyval) : d !! k = Some v -> Py.get d k = v.
Proof. unfold Py.get. intros ->. reflexivity. Qed.

Lemma fallback_lookup (miss : dict -> str -> bool) (k : str) (r : option pyval) (d : dict) (k' : str) :
  fallback miss k r d !! k' =
    if decide (k = k')
    then (if miss d k then match r with Some v => Some v | None => d !! k end
          else d !! k)
    else d !! k'.
Proof.
  unfold fallback. destruct (decide (k = k')) as [<- | Hne].
  - destruct (miss d k); [destruct r as [v|]|]; try reflexivity.
    apply lookup_insert_eq.
  - destruct (miss d k); [destruct r as [v|]|]; try reflexivity.
    apply lookup_insert_ne. exact Hne.
Qed.

Lemma fallback_lookup_ne (miss : dict -> str -> bool) (k : str) (r : option pyval) (d : dict) (k' : str) :
  k <> k' -> fallback miss k r d !! k' = d !! k'.
Proof. intros Hne. rewrite fallback_lookup. destruct (decide (k = k')); congruence. Qed.

Lemma fallback_lookup_eq (miss : dict -> str -> bool) (k : str) (r : option pyval) (d : dict) :
  fallback miss k r d !! k =
    if miss d k then match r with Some v => Some v | None => d !! k end
    else d !! k.
Proof. rewrite fallback_lookup. destruct (decide (k = k)); congruence. Qed.

(** A block whose key differs from [k] reads the same answer from the record
    before and after another block on [k]. *)
Lemma missing_text_fallback_ne (miss : dict -> str -> bool) (k : str) (r : option pyval) (d : dict) (k' : str) :
  k <> k' -> missing_text (fallback miss k r d) k' = missing_text d k'.
Proof.
  intros Hne. unfold missing_text, Py.get.
  rewrite fallback_lookup_ne by exact Hne. reflexivity.
Qed.

Lemma missing_number_fallback_ne (miss : dict -> str -> bool) (k : str) (r : option pyval) (d : dict) (k' : str) :
  k <> k' -> missing_number (fallback miss k r d) k' = missing_number d k'.
Proof.
  intros Hne. unfold missing_number, Py.get.
  rewrite fallback_lookup_ne by exact Hne. reflexivity.
Qed.

(** A present, non-missing value passes every block. *)
Lemma fallback_keeps (miss : dict -> str -> bool) (k : str) (r : option pyval) (d : dict) (k' : str) (v : pyval) :
  miss = missing_text \/ miss = missing_number ->
  d !! k' = Some v -> Py.truthy v = true -> Py.eq_str v (lit "N/A") = false ->
  fallback miss k r d !! k' = Some v.
Proof.
  intros Hm Hk Ht Hn. rewrite fallback_lookup.
  destruct (decide (k = k')) as [-> | Hne]; [|exact Hk].
  assert (miss d k' = false) as ->; [|exact Hk].
  destruct Hm as [-> | ->].
  - unfold missing_text. rewrite (get_lookup _ _ _ Hk), Ht, Hn. reflexivity.
  - unfold missing_number.
    rewrite (get_lookup _ _ _ Hk), Ht, (truthy_not_zero _ Ht). reflexivity.
Qed.

Lemma ensure_items_lookup (d : dict) (k : str) :
  ensure_items d !! k =
    if decide (k = lit "items")
    then Some (match d !! k with Some v => v | None => PList [] end)
    else d !! k.
Proof.
  unfold ensure_items. destruct (decide (k = lit "items")) as [-> | Hne].
  - destruct (d !! lit "items") as [v|] eqn:E.
    + rewrite E. reflexivity.
    + apply lookup_insert_eq.
  - destruct (d !! lit "items") as [v|] eqn:E; [reflexivity|].
    apply lookup_insert_ne. congruence.
Qed.

Lemma validate_unfold (d : dict) (text fn : str) :
  validate_extracted_data d text fn =
    ensure_items
      (fallback missing_text (lit "state") (recover_state text)
      (fallback missing_text (lit "place") (recover_place text)
      (fallback missing_text (lit "date") (recover_date text)
      (fallback missing_number (lit "total_gst") (recover_total_gst text)
      (fallback missing_number (lit "grand_total") (recover_grand_total text)
      (fallback missing_text (lit "gstin_no") (recover_gstin_no text)
      (fallback missing_text (lit "invoice_no") (recover_invoice_no text) d))))))).
Proof. reflexivity. Qed.

(** ** What [validate_extracted_data] stores under each key *)

Ltac peel_blocks :=
  repeat (rewrite fallback_lookup_ne by key_neq);
  rewrite ?fallback_lookup_eq;
  repeat (first [ rewrite missing_text_fallback_ne by key_neq
                | rewrite missing_number_fallback_ne by key_neq ]);
  repeat (rewrite fallback_lookup_ne by key_neq).

(** A field with a fallback: when the test finds it missing it takes the
    recovered value, if there is one, and otherwise it stays as it was. *)
Lemma validate_lookup_fallback (d : dict) (text fn k : str)
    (miss : dict -> str -> bool) (rec : option pyval) :
  (k, miss, rec) ∈ fallbacks text ->
  validate_extracted_data d text fn !! k =
    if miss d k
    then match rec with Some v => Some v | None => d !! k end
    else d !! k.
Proof.
  intros Hin. rewrite validate_unfold, ensure_items_lookup.
  unfold fallbacks in Hin.
  repeat (apply elem_of_cons in Hin as [Heq | Hin];
    [ injection Heq as -> -> ->;
      destruct (decide _) as [Hk | _]; [exfalso; revert Hk; key_neq|];
      peel_blocks; reflexivity | ]).
  apply elem_of_nil in Hin. destruct Hin.
Qed.

(** The key [items]: the value of the model, or an empty list. *)
Lemma validate_lookup_items (d : dict) (text fn : str) :
  validate_extracted_data d text fn !! lit "items" =
    Some (match d !! lit "items" with Some v => v | None => PList [] end).
Proof.
  rewrite validate_unfold, ensure_items_lookup.
  destruct (decide _) as [_ | Hk]; [|congruence].
  peel_blocks. reflexivity.
Qed.

(** Any other key is read as it was. *)
Lemma validate_lookup_other (d : dict) (text fn k : str) :
  k ∉ written_keys ->
  validate_extracted_data d text fn !! k = d !! k.
Proof.
  intros Hk.
  assert (forall w, w ∈ written_keys -> w <> k) as Hne
    by (intros w Hw ->; exact (Hk Hw)).
  rewrite validate_unfold, ensure_items_lookup.
  destruct (decide _) as [-> | _].
  { exfalso. apply Hk. unfold written_keys. simpl. set_solver. }
  repeat (rewrite fallback_lookup_ne
            by (apply Hne; unfold written_keys; simpl; set_solver)).
  reflexivity.
Qed.

(** ** The validation stage and the placeholder ["N/A"] *)

(** The tests of the stage find the placeholder and a zero missing. *)
Lemma placeholder_is_missing (d : dict) (k : str) :
  d !! k = Some (PStr (lit "N/A")) -> missing_text d k = true.
Proof. intros H. unfold missing_text. rewrite (get_lookup _ _ _ H). reflexivity. Qed.

Lemma zero_is_missing (d : dict) (k : str) :
  d !! k = Some (PInt 0) -> missing_number d k = true.
Proof. intros H. unfold missing_number. rewrite (get_lookup _ _ _ H). reflexivity. Qed.

Lemma absent_is_missing (d : dict) (k : str) (miss : dict -> str -> bool) :
  miss = missing_text \/ miss = missing_number ->
  d !! k = None -> miss d k = true.
Proof.
  intros [-> | ->] H; unfold missing_text, missing_number, Py.get;
    rewrite H; reflexivity.
Qed.

Lemma fallbacks_tests (text k : str) (miss : dict -> str -> bool) (rec : option pyval) :
  (k, miss, rec) ∈ fallbacks text ->
  miss = missing_text \/ miss = missing_number.
Proof.
  unfold fallbacks. intros Hin.
  repeat (apply elem_of_cons in Hin as [Heq | Hin];
    [ injection Heq as -> -> ->; auto | ]).
  apply elem_of_nil in Hin. destruct Hin.
Qed.

(** C1, as the code has it: a field with a fallback that the stage finds
    missing (the placeholder ["N/A"] for a text field, a zero for a numeric
    one, an absent key for both) takes the value its fallback recovers from
    the transcript; when the fallback recovers nothing the field is left as
    the model supplied it, so a placeholder stays; and a key without a
    fallback, such as [seller_name] and [customer_name], is never changed. *)
Theorem validate_missing_field (d : dict) (text fn : str) :
  (forall k miss rec, (k, miss, rec) ∈ fallbacks text -> miss d k = true ->
     validate_extracted_data d text fn !! k =
       match rec with Some v => Some v | None => d !! k end)
  /\ (forall k, d !! k = Some (PStr (lit "N/A")) -> missing_text d k = true)
  /\ (forall k, d !! k = Some (PInt 0) -> missing_number d k = true)
  /\ (forall k, k ∉ written_keys ->
        validate_extracted_data d text fn !! k = d !! k).
Proof.
  split; [|split; [|split]].
  - intros k miss rec Hin Hm.
    rewrite (validate_lookup_fallback d text fn k miss rec Hin), Hm. reflexivity.
  - intros k. apply placeholder_is_missing.
  - intros k. apply zero_is_missing.
  - intros k. apply validate_lookup_other.
Qed.

(** A placeholder for [invoice_no] with a labelled number in the transcript:
    the number takes its place. *)
Lemma validate_missing_field_witness :
  validate_extracted_data (<[lit "invoice_no" := PStr (lit "N/A")]> ∅)
      (lit "Invoice No: INV-42") (lit "a.pdf") !! lit "invoice_no"
    = Some (PStr (lit "INV-42")).
Proof.
  rewrite (proj1 (validate_missing_field _ (lit "Invoice No: INV-42") _)
             (lit "invoice_no") missing_text
             (recover_invoice_no (lit "Invoice No: INV-42"))).
  - vm_compute. reflexivity.
  - unfold fallbacks. apply list_elem_of_here.
  - vm_compute. reflexivity.
Defined.

(** C1 fails as stated: with no invoice number label in the transcript, the
    placeholder the model gave for [invoice_no] is still there after the
    stage, and so is the one for [seller_name], which has no fallback. *)
Lemma validate_keeps_placeholder :
  let d : dict := <[lit "invoice_no" := PStr (lit "N/A")]>
                    (<[lit "seller_name" := PStr (lit "N/A")]> ∅) in
  let text := lit "Tax paid in full" in
  recover_invoice_no text = None
  /\ validate_extracted_data d text (lit "a.pdf") !! lit "invoice_no"
       = Some (PStr (lit "N/A"))
  /\ validate_extracted_data d text (lit "a.pdf") !! lit "seller_name"
       = Some (PStr (lit "N/A")).
Proof. vm_compute. repeat split; reflexivity. Qed.

(** ** The keys of the returned record *)

(** C2, as the code has it: the returned record always has the key [items]
    (the value of the model, or an empty list) and keeps every key of the
    parsed object; a field with a fallback that the model left out is present
    exactly when the fallback recovers a value; every other key, such as
    [seller_name] and [customer_name], is present only if the model gave it. *)
Theorem validate_keys (d : dict) (text fn : str) :
  validate_extracted_data d text fn !! lit "items"
    = Some (match d !! lit "items" with Some v => v | None => PList [] end)
  /\ (forall k, is_Some (d !! k) ->
        is_Some (validate_extracted_data d text fn !! k))
  /\ (forall k miss rec, (k, miss, rec) ∈ fallbacks text -> d !! k = None ->
        validate_extracted_data d text fn !! k = rec)
  /\ (forall k, k ∉ written_keys ->
        validate_extracted_data d text fn !! k = d !! k).
Proof.
  split; [|split; [|split]].
  - apply validate_lookup_items.
  - intros k [v Hv].
    destruct (decide (k = lit "items")) as [-> | Hitems].
    { rewrite validate_lookup_items. eauto. }
    destruct (decide (k ∈ written_keys)) as [Hw | Hw].
    + assert (exists miss rec, (k, miss, rec) ∈ fallbacks text) as (miss & rec & Hin).
      { unfold written_keys in Hw. simpl in Hw.
        repeat (apply elem_of_cons in Hw as [-> | Hw];
          [ first [ contradiction
                  | do 2 eexists; unfold fallbacks;
                    repeat first [ apply list_elem_of_here
                                 | apply list_elem_of_further ] ] | ]).
        apply elem_of_nil in Hw. destruct Hw. }
      rewrite (validate_lookup_fallback d text fn k miss rec Hin), Hv.
      destruct (miss d k); [destruct rec|]; eauto.
    + rewrite validate_lookup_other by exact Hw. eauto.
  - intros k miss rec Hin Hk.
    rewrite (validate_lookup_fallback d text fn k miss rec Hin).
    rewrite (absent_is_missing d k miss (fallbacks_tests _ _ _ _ Hin) Hk), Hk.
    destruct rec; reflexivity.
  - intros k. apply validate_lookup_other.
Qed.

(** A record without [invoice_no] gains the key from a bill number in the
    transcript. *)
Lemma validate_keys_witness :
  validate_extracted_data seller_only (lit "Bill No: B-7") (lit "a.pdf")
      !! lit "invoice_no"
    = Some (PStr (lit "B-7")).
Proof.
  rewrite (proj1 (proj2 (proj2
             (validate_keys seller_only (lit "Bill No: B-7") (lit "a.pdf"))))
             (lit "invoice_no") missing_text (recover_invoice_no (lit "Bill No: B-7"))).
  - vm_compute. reflexivity.
  - unfold fallbacks. apply list_elem_of_here.
  - vm_compute. reflexivity.
Defined.

(** C2 fails as stated: from a parsed object with the seller alone and a
    transcript that is not empty, the returned record has the keys
    [seller_name] and [items] and no other; the fields [invoice_no],
    [customer_name] and [grand_total] are absent, not at a default. *)
Lemma validate_field_absent :
  let r := validate_extracted_data seller_only (lit "Tax paid in full") (lit "a.pdf") in
  r !! lit "invoice_no" = None
  /\ r !! lit "customer_name" = None
  /\ r !! lit "grand_total" = None
  /\ r !! lit "seller_name" = Some (PStr (lit "Acme Traders"))
  /\ r !! lit "items" = Some (PList []).
Proof. vm_compute. repeat split; reflexivity. Qed.

(** ** The frame of the validation stage *)

(** C9: a field whose value is present and not missing (not empty, not the
    placeholder ["N/A"], and so not zero) is returned unchanged. *)
Theorem validate_frame (d : dict) (text fn k : str) (v : pyval) :
  d !! k = Some v ->
  Py.truthy v = true ->
  v <> PStr (lit "N/A") ->
  validate_extracted_data d text fn !! k = Some v.
Proof.
  intros Hk Ht Hna.
  assert (Py.eq_str v (lit "N/A") = false) as Hn.
  { destruct v; try reflexivity. simpl. apply bool_decide_eq_false.
    intros ->. apply Hna. reflexivity. }
  destruct (decide (k = lit "items")) as [-> | Hitems].
  { rewrite validate_lookup_items, Hk. reflexivity. }
  rewrite validate_unfold, ensure_items_lookup.
  destruct (decide _) as [? | _]; [contradiction|].
  repeat (apply fallback_keeps; [auto | | exact Ht | exact Hn]).
  exact Hk.
Qed.

(** An invoice number the model gave stays, whatever the transcript holds. *)
Lemma validate_frame_witness :
  validate_extracted_data (<[lit "invoice_no" := PStr (lit "INV-7")]> ∅)
      (lit "Invoice No: X9") (lit "a.pdf") !! lit "invoice_no"
    = Some (PStr (lit "INV-7")).
Proof.
  apply validate_frame.
  - vm_compute. reflexivity.
  - reflexivity.
  - discriminate.
Defined.

(** ** Patterns that are a sequence of character classes *)

Section ClassSequence.
Variable classes : list (N -> bool).
Let n := List.length classes.
Let pattern := seq (List.map Chr classes).

Lemma starts_with_classes_length (s : str) :
  starts_with_classes classes s = true -> (n <= List.length s)%nat.
Proof.
  subst n. revert s. induction classes as [|p cl IH]; intros s H; simpl in *.
  - lia.
  - destruct s as [|x s]; [discriminate|].
    apply andb_true_iff in H as [_ H]. specialize (IH s H). simpl. lia.
Qed.

Lemma starts_with_classes_app (s t : str) :
  List.length s = n ->
  starts_with_classes classes (s ++ t) = starts_with_classes classes s.
Proof.
  subst n. revert s. induction classes as [|p cl IH]; intros s H; simpl in *.
  - reflexivity.
  - destruct s as [|x s]; [discriminate|]. simpl in *.
    rewrite IH by lia. reflexivity.
Qed.

Lemma exec_classes {A} (s : str) (c : caps) (k : @cont A) :
  exec pattern s c k =
    if starts_with_classes classes s then k (List.skipn n s) c else None.
Proof.
  subst n pattern. revert s.
  induction classes as [|p cl IH]; intros s; simpl.
  - reflexivity.
  - destruct s as [|x s]; [reflexivity|].
    destruct (p x); simpl; [apply IH | reflexivity].
Qed.

Lemma match_at_classes (i : nat) (s : str) :
  match_at pattern i s =
    if starts_with_classes classes s
    then Some (mkMatch i (List.firstn n s) [] (List.skipn n s))
    else None.
Proof.
  unfold match_at. rewrite exec_classes.
  destruct (starts_with_classes classes s) eqn:E; [|reflexivity].
  apply starts_with_classes_length in E.
  rewrite length_skipn.
  replace (List.length s - (List.length s - n))%nat with n by lia.
  reflexivity.
Qed.

(** A search that succeeds returns the leftmost place where the classes
    fit. *)
Lemma search_from_classes_some (i : nat) (s : str) (m : Match) :
  search_from pattern i s = Some m ->
  exists pre : str,
    s = pre ++ m_group0 m ++ m_rest m
    /\ m_start m = (i + List.length pre)%nat
    /\ List.length (m_group0 m) = n
    /\ starts_with_classes classes (m_group0 m) = true
    /\ m_groups m = []
    /\ forall pre' rest' : str, s = pre' ++ rest' ->
         starts_with_classes classes rest' = true ->
         (List.length pre <= List.length pre')%nat.
Proof.
  revert i. induction s as [|x s IH]; intros i; simpl;
    rewrite match_at_classes.
  - destruct (starts_with_classes classes []) eqn:E; [|discriminate].
    intros [= <-]. exists []. simpl.
    pose proof (starts_with_classes_length _ E) as Hn. simpl in Hn.
    assert (n = 0)%nat as Hn0 by lia. rewrite Hn0. simpl.
    repeat split; try reflexivity; try lia.
    subst n. destruct classes; [reflexivity | discriminate].
  - destruct (starts_with_classes classes (x :: s)) eqn:E.
    + intros [= <-]. exists []. simpl.
      pose proof (starts_with_classes_length _ E) as Hn.
      rewrite firstn_skipn. repeat split; try lia.
      * rewrite length_firstn. lia.
      * rewrite <- (starts_with_classes_app (List.firstn n (x :: s))
                      (List.skipn n (x :: s))).
        -- rewrite firstn_skipn. exact E.
        -- rewrite length_firstn. lia.
    + intros H. destruct (IH _ H) as (pre & Hs & Hst & Hlen & Hfit & Hg & Hleft).
      exists (x :: pre). simpl. repeat split; try assumption.
      * rewrite Hs at 1. reflexivity.
      * lia.
      * intros pre' rest' Heq Hr. destruct pre' as [|y pre'].
        -- simpl in Heq. subst rest'. congruence.
        -- simpl in Heq. injection Heq as _ Heq. simpl.
           specialize (Hleft pre' rest' Heq Hr). lia.
Qed.

(** A search that fails means the classes fit nowhere. *)
Lemma search_from_classes_none (i : nat) (s : str) :
  search_from pattern i s = None ->
  forall pre' rest' : str, s = pre' ++ rest' ->
    starts_with_classes classes rest' = false.
Proof.
  revert i. induction s as [|x s IH]; intros i; simpl;
    rewrite match_at_classes.
  - destruct (starts_with_classes classes []) eqn:E; [discriminate|].
    intros _ pre' rest' Heq. symmetry in Heq.
    apply app_eq_nil in Heq as [_ ->]. exact E.
  - destruct (starts_with_classes classes (x :: s)) eqn:E; [discriminate|].
    intros H pre' rest' Heq. destruct pre' as [|y pre'].
    + simpl in Heq. subst rest'. exact E.
    + simpl in Heq. injection Heq as _ Heq. exact (IH _ H pre' rest' Heq).
Qed.
End ClassSequence.

(** ** The tax identifier fallback *)

Lemma gstin_shape_classes (s : str) :
  gstin_shape s =
    Nat.eqb (List.length s) 15 && starts_with_classes gstin_classes s.
Proof.
  do 15 (destruct s as [|? s]; [reflexivity|]).
  destruct s as [|? s]; [|reflexivity].
  unfold gstin_shape, gstin_classes.
  cbn [List.length Nat.eqb List.repeat app starts_with_classes].
  rewrite andb_true_r. reflexivity.
Qed.

Lemma gstin_shape_fits (g post : str) :
  gstin_shape g = true ->
  starts_with_classes gstin_classes (g ++ post) = true.
Proof.
  rewrite gstin_shape_classes. intros H.
  apply andb_true_iff in H as [Hlen Hfit]. apply Nat.eqb_eq in Hlen.
  rewrite starts_with_classes_app; [exact Hfit | exact Hlen].
Qed.

(** C7, as the code has it: [gstin_pattern] finds the leftmost 15 characters
    of the transcript that are two digits, five capital letters, four
    digits, a capital letter, a character [1-9A-Z] (not [0]), the letter [Z]
    and a character [0-9A-Z]; every string of that shape is matched wherever
    it stands first, no label being needed; and when [gstin_no] is missing
    the match is stored as [gstin_no]. *)
Theorem gstin_fallback (text : str) :
  (forall m, search gstin_pattern text = Some m ->
     gstin_shape (m_group0 m) = true
     /\ text = List.firstn (m_start m) text ++ m_group0 m ++ m_rest m
     /\ forall pre g post : str, text = pre ++ g ++ post ->
          gstin_shape g = true -> (m_start m <= List.length pre)%nat)
  /\ (search gstin_pattern text = None ->
      forall pre g post : str, text = pre ++ g ++ post -> gstin_shape g = false)
  /\ (forall g : str, gstin_shape g = true ->
      exists m, search gstin_pattern g = Some m /\ m_group0 m = g)
  /\ (forall (d : dict) (fn : str), missing_text d (lit "gstin_no") = true ->
      validate_extracted_data d text fn !! lit "gstin_no" =
        match search gstin_pattern text with
        | Some m => Some (PStr (m_group0 m))
        | None => d !! lit "gstin_no"
        end).
Proof.
  split; [|split; [|split]].
  - intros m H.
    destruct (search_from_classes_some gstin_classes _ _ _ H)
      as (pre & Hs & Hst & Hlen & Hfit & _ & Hleft).
    simpl in Hst. split; [|split].
    + rewrite gstin_shape_classes, Hfit, Hlen. reflexivity.
    + rewrite Hst. simpl.
      assert (List.firstn (List.length pre) text = pre) as ->; [|exact Hs].
      rewrite Hs. apply take_app_length.
    + intros pre' g post Heq Hg. rewrite Hst.
      apply (Hleft pre' (g ++ post) Heq). apply gstin_shape_fits. exact Hg.
  - intros H pre g post Heq.
    destruct (gstin_shape g) eqn:Hg; [|reflexivity].
    pose proof (search_from_classes_none gstin_classes _ _ H pre (g ++ post) Heq) as Hn.
    rewrite (gstin_shape_fits g post Hg) in Hn. discriminate Hn.
  - intros g Hg.
    destruct (search gstin_pattern g) as [m|] eqn:E.
    + exists m. split; [reflexivity|].
      destruct (search_from_classes_some gstin_classes _ _ _ E)
        as (pre & Hs & _ & Hlen & _ & _ & _).
      rewrite gstin_shape_classes in Hg.
      apply andb_true_iff in Hg as [Hg _]. apply Nat.eqb_eq in Hg.
      assert (List.length g = List.length (pre ++ m_group0 m ++ m_rest m))
        as Hl by (rewrite <- Hs; reflexivity).
      rewrite !length_app, Hlen, Hg in Hl.
      destruct pre; [|simpl in Hl; lia].
      destruct (m_rest m); [|simpl in Hl; lia].
      simpl in Hs. rewrite app_nil_r in Hs. symmetry. exact Hs.
    + pose proof (search_from_classes_none gstin_classes _ _ E [] g eq_refl) as Hn.
      rewrite <- (app_nil_r g) in Hn.
      rewrite (gstin_shape_fits g [] Hg) in Hn. discriminate Hn.
  - intros d fn Hm.
    assert ((lit "gstin_no", missing_text, recover_gstin_no text) ∈ fallbacks text)
      as Hin by (unfold fallbacks;
                 repeat first [apply list_elem_of_here | apply list_elem_of_further]).
    rewrite (validate_lookup_fallback d text fn _ _ _ Hin), Hm.
    unfold recover_gstin_no. destruct (search gstin_pattern text); reflexivity.
Qed.

(** Of two tax identifiers in a transcript, the first becomes [gstin_no]. *)
Lemma gstin_fallback_witness :
  validate_extracted_data seller_only
      (lit "Seller 27ABCDE1234F1Z5, buyer 29PQRST5678K2Z6") (lit "a.pdf")
      !! lit "gstin_no"
    = Some (PStr (lit "27ABCDE1234F1Z5")).
Proof.
  rewrite (proj2 (proj2 (proj2
             (gstin_fallback (lit "Seller 27ABCDE1234F1Z5, buyer 29PQRST5678K2Z6"))))
             seller_only).
  - vm_compute. reflexivity.
  - vm_compute. reflexivity.
Defined.

(** C7 fails as stated: a string of the shape the specification gives, with
    [0] as its thirteenth character, is what the pattern matches in no
    transcript at all, and neither is one with small letters; a transcript
    that holds only such a string leaves [gstin_no] unset. *)
Lemma gstin_shape_not_matched :
  spec_gstin_shape (lit "27ABCDE1234F0Z5") = true
  /\ spec_gstin_shape (lit "27abcde1234f1Z5") = true
  /\ (forall (text : str) (m : Match), search gstin_pattern text = Some m ->
        m_group0 m <> lit "27ABCDE1234F0Z5" /\ m_group0 m <> lit "27abcde1234f1Z5")
  /\ search gstin_pattern (lit "GSTIN: 27ABCDE1234F0Z5") = None
  /\ validate_extracted_data seller_only (lit "GSTIN: 27ABCDE1234F0Z5") (lit "a.pdf")
       !! lit "gstin_no" = None.
Proof.
  split; [vm_compute; reflexivity|]. split; [vm_compute; reflexivity|].
  split; [|vm_compute; split; reflexivity].
  intros text m H.
  destruct (search_from_classes_some gstin_classes _ _ _ H)
    as (_ & _ & _ & _ & Hfit & _).
  split; intros Heq; rewrite Heq in Hfit; vm_compute in Hfit; discriminate Hfit.
Qed.

(** ** What the patterns capture *)

Section Captures.
Variable q : N -> bool.

Lemma star_loop_consumes {A} (body : str -> caps -> @cont A -> option A) (a : A) :
  (forall s c k, body s c k = Some a ->
     exists w s' c', s = w ++ s' /\ plain q w /\ k s' c' = Some a
                     /\ (caps_plain q c -> caps_plain q c')) ->
  forall fuel s c k, star_loop fuel body s c k = Some a ->
     exists w s' c', s = w ++ s' /\ plain q w /\ k s' c' = Some a
                     /\ (caps_plain q c -> caps_plain q c').
Proof.
  intros Hbody fuel. induction fuel as [|fuel IH]; intros s c k; simpl.
  - intros H. exists [], s, c. repeat split; auto. constructor.
  - destruct (body s c _) as [a'|] eqn:E.
    + intros [= ->].
      destruct (Hbody _ _ _ E) as (w1 & s1 & c1 & Hs & Hw1 & Hk & Hc1).
      destruct (Nat.ltb _ _); [|discriminate].
      destruct (IH _ _ _ Hk) as (w2 & s2 & c2 & Hs2 & Hw2 & Hk2 & Hc2).
      exists (w1 ++ w2), s2, c2. repeat split; auto.
      * rewrite Hs, Hs2, app_assoc. reflexivity.
      * apply Forall_app. split; assumption.
    + intros H. exists [], s, c. repeat split; auto. constructor.
Qed.

(** What a pattern within [q] consumes is made of characters in [q], and so
    is what its groups record. *)
Lemma exec_consumes {A} (r : regex) (a : A) :
  only_chars q r ->
  forall s c k, exec r s c k = Some a ->
    exists w s' c', s = w ++ s' /\ plain q w /\ k s' c' = Some a
                    /\ (caps_plain q c -> caps_plain q c').
Proof.
  induction r as [|p|r1 IH1 r2 IH2|r1 IH1 r2 IH2|r1 IH1|i r1 IH1];
    simpl; intros Hr s c k H.
  - exists [], s, c. repeat split; auto. constructor.
  - destruct s as [|x s']; [discriminate|].
    destruct (p x) eqn:Ep; [|discriminate].
    exists [x], s', c. repeat split; auto. constructor; [auto|constructor].
  - destruct Hr as [Hr1 Hr2].
    destruct (IH1 Hr1 _ _ _ H) as (w1 & s1 & c1 & Hs & Hw1 & Hk & Hc1).
    destruct (IH2 Hr2 _ _ _ Hk) as (w2 & s2 & c2 & Hs2 & Hw2 & Hk2 & Hc2).
    exists (w1 ++ w2), s2, c2. repeat split; auto.
    + rewrite Hs, Hs2, app_assoc. reflexivity.
    + apply Forall_app. split; assumption.
  - destruct Hr as [Hr1 Hr2].
    destruct (exec r1 s c k) as [a'|] eqn:E.
    + injection H as ->. exact (IH1 Hr1 _ _ _ E).
    + exact (IH2 Hr2 _ _ _ H).
  - exact (star_loop_consumes (exec r1) a (fun s0 c0 k0 => IH1 Hr s0 c0 k0)
             (S (List.length s)) s c k H).
  - destruct (IH1 Hr _ _ _ H) as (w & s' & c' & Hs & Hw & Hk & Hc).
    exists w, s', ((i, List.firstn (List.length s - List.length s') s) :: c').
    split; [exact Hs|]. split; [exact Hw|]. split; [exact Hk|].
    intros Hcp. constructor; [|exact (Hc Hcp)]. simpl.
    rewrite Hs, length_app.
    replace (List.length w + List.length s' - List.length s')%nat
      with (List.length w) by lia.
    rewrite take_app_length. exact Hw.
Qed.

Lemma star_loop_groups {A} (body : str -> caps -> @cont A -> option A) (a : A) :
  (forall s c k, caps_plain q c -> body s c k = Some a ->
     exists s' c', caps_plain q c' /\ k s' c' = Some a) ->
  forall fuel s c k, caps_plain q c -> star_loop fuel body s c k = Some a ->
     exists s' c', caps_plain q c' /\ k s' c' = Some a.
Proof.
  intros Hbody fuel. induction fuel as [|fuel IH]; intros s c k Hc; simpl.
  - intros H. exists s, c. auto.
  - destruct (body s c _) as [a'|] eqn:E.
    + intros [= ->].
      destruct (Hbody _ _ _ Hc E) as (s1 & c1 & Hc1 & Hk).
      destruct (Nat.ltb _ _); [|discriminate].
      exact (IH _ _ _ Hc1 Hk).
    + intros H. exists s, c. auto.
Qed.

(** The groups of a pattern whose groups are within [q] are made of
    characters in [q], whatever surrounds them. *)
Lemma exec_groups {A} (r : regex) (a : A) :
  groups_only q r ->
  forall s c k, caps_plain q c -> exec r s c k = Some a ->
    exists s' c', caps_plain q c' /\ k s' c' = Some a.
Proof.
  induction r as [|p|r1 IH1 r2 IH2|r1 IH1 r2 IH2|r1 IH1|i r1 IH1];
    simpl; intros Hr s c k Hc H.
  - exists s, c. auto.
  - destruct s as [|x s']; [discriminate|].
    destruct (p x); [|discriminate]. exists s', c. auto.
  - destruct Hr as [Hr1 Hr2].
    destruct (IH1 Hr1 _ _ _ Hc H) as (s1 & c1 & Hc1 & Hk).
    exact (IH2 Hr2 _ _ _ Hc1 Hk).
  - destruct Hr as [Hr1 Hr2].
    destruct (exec r1 s c k) as [a'|] eqn:E.
    + injection H as ->. exact (IH1 Hr1 _ _ _ Hc E).
    + exact (IH2 Hr2 _ _ _ Hc H).
  - exact (star_loop_groups (exec r1) a (fun s0 c0 k0 => IH1 Hr s0 c0 k0)
             (S (List.length s)) s c k Hc H).
  - destruct (exec_consumes r1 a Hr _ _ _ H) as (w & s' & c' & Hs & Hw & Hk & Hc').
    exists s', ((i, List.firstn (List.length s - List.length s') s) :: c').
    split; [|exact Hk].
    constructor; [|exact (Hc' Hc)]. simpl.
    rewrite Hs, length_app.
    replace (List.length w + List.length s' - List.length s')%nat
      with (List.length w) by lia.
    rewrite take_app_length. exact Hw.
Qed.

Lemma group_plain (i : nat) (c : caps) (w : str) :
  caps_plain q c -> group i c = Some w -> plain q w.
Proof.
  induction c as [|[j v] c IH]; simpl; [discriminate|].
  intros Hc. inversion Hc as [|? ? Hv Hc']; subst.
  destruct (Nat.eqb i j); [intros [= <-]; exact Hv | apply IH; exact Hc'].
Qed.

Lemma match_at_plain (r : regex) (i : nat) (s : str) (m : Match) :
  groups_only q r -> match_at r i s = Some m -> plain q (group1 m).
Proof.
  intros Hr H. unfold match_at in H.
  assert (caps_plain q []) as H0 by constructor.
  destruct (exec_groups r m Hr s [] _ H0 H) as (s' & c' & Hc & [= <-]).
  unfold group1. simpl.
  destruct (group 1 c') as [w|] eqn:E; [exact (group_plain _ _ _ Hc E) | constructor].
Qed.

Lemma search_from_plain (r : regex) (i : nat) (s : str) (m : Match) :
  groups_only q r -> search_from r i s = Some m -> plain q (group1 m).
Proof.
  intros Hr. revert i. induction s as [|x s IH]; intros i; simpl.
  - destruct (match_at r i []) as [m'|] eqn:E; [|discriminate].
    intros [= <-]. exact (match_at_plain _ _ _ _ Hr E).
  - destruct (match_at r i (x :: s)) as [m'|] eqn:E.
    + intros [= <-]. exact (match_at_plain _ _ _ _ Hr E).
    + apply IH.
Qed.

Lemma findall_plain (r : regex) (s : str) :
  groups_only q r -> Forall (plain q) (findall r s).
Proof.
  intros Hr. unfold findall. generalize (S (List.length s)) as fuel.
  intros fuel. revert s. induction fuel as [|fuel IH]; intros s; simpl.
  - constructor.
  - destruct (search r s) as [m|] eqn:E; [|constructor].
    constructor; [exact (search_from_plain _ _ _ _ Hr E)|].
    destruct (Nat.ltb _ _); [apply IH|].
    destruct (List.skipn _ _); [constructor | apply IH].
Qed.

Lemma groups_only_seq (rs : list regex) :
  Forall (groups_only q) rs -> groups_only q (seq rs).
Proof.
  induction 1 as [|r rs Hr _ IH]; simpl; [exact I | split; assumption].
Qed.

Lemma groups_only_itext (a : string) : groups_only q (itext a).
Proof.
  unfold itext. apply groups_only_seq.
  induction (lit a) as [|x l IH]; simpl; constructor; [exact I | exact IH].
Qed.
End Captures.

(** A code point whose case fold is below the letters is its own fold. *)
Lemma casefold_low (c : N) : PyStr.casefold c < 65 -> PyStr.casefold c = c.
Proof.
  unfold PyStr.casefold, PyStr.is_ascii_upper.
  destruct (N.leb_spec 65 c); destruct (N.leb_spec c 90); simpl; try lia;
    destruct (N.eqb_spec c 304); simpl; try lia;
    destruct (N.eqb_spec c 305); simpl; try lia;
    destruct (N.eqb_spec c 383); simpl; try lia;
    destruct (N.eqb_spec c 8490); simpl; lia.
Qed.

(** [re.IGNORECASE] adds nothing to a class of characters below the
    letters. *)
Lemma iclass_low (p : N -> bool) :
  (forall x, p x = true -> x < 65) ->
  forall c, iclass p c = true -> p c = true.
Proof.
  intros Hp c. unfold iclass.
  destruct (p c) eqn:Ec; [reflexivity|]. simpl.
  intros H. apply orb_true_iff in H as [H | H].
  - pose proof (Hp _ H) as Hlow. rewrite (casefold_low c Hlow) in H. congruence.
  - apply andb_true_iff in H as [Hl H]. apply Hp in H.
    unfold PyStr.is_ascii_lower in Hl. apply andb_true_iff in Hl as [Hl _].
    apply N.leb_le in Hl. lia.
Qed.

Lemma amount_group_plain :
  only_chars amount_char (seq [plus digit_comma; opt (ch "."); Star digit09]).
Proof.
  assert (forall c, (in_range "0" "9" c || is_char "," c) = true ->
                    c < 65 /\ amount_char c = true) as Hdc.
  { intros c.
    change (in_range "0" "9" c) with ((48 <=? c) && (c <=? 57)).
    change (is_char "," c) with (c =? 44).
    unfold amount_char, PyStr.is_ascii_digit.
    destruct (N.leb_spec 48 c); destruct (N.leb_spec c 57);
      destruct (N.eqb_spec c 44); simpl; try discriminate; intros _;
      (split; [lia | reflexivity]). }
  assert (forall c, in_range "0" "9" c = true -> c < 65 /\ amount_char c = true) as Hd.
  { intros c H. apply Hdc. rewrite H. reflexivity. }
  assert (forall c, iclass (fun c => in_range "0" "9" c || is_char "," c) c = true ->
                    amount_char c = true) as H1.
  { intros c H. apply Hdc. revert H. apply iclass_low. intros x Hx. apply Hdc, Hx. }
  assert (forall c, iclass (in_range "0" "9") c = true -> amount_char c = true) as H2.
  { intros c H. apply Hd. revert H. apply iclass_low. intros x Hx. apply Hd, Hx. }
  change (ch ".") with (Chr (N.eqb 46)).
  unfold digit_comma, digit09.
  cbn [seq plus opt List.fold_right only_chars].
  repeat split; try exact I; try assumption.
  intros c H. apply N.eqb_eq in H. subst c. reflexivity.
Qed.

Lemma groups_only_labelled (label : list regex) :
  Forall (groups_only amount_char) label ->
  groups_only amount_char (seq (label ++ colon ++ amount)).
Proof.
  intros Hl. apply groups_only_seq. apply Forall_app. split; [exact Hl|].
  unfold colon, amount.
  repeat (constructor; [first [exact amount_group_plain | simpl; tauto]|]).
  constructor.
Qed.

(** Every amount the program hands to [float] is made of ASCII digits,
    commas and points. *)
Lemma amount_patterns_plain (pattern : regex) :
  In pattern amount_patterns -> groups_only amount_char pattern.
Proof.
  unfold amount_patterns, total_patterns, total_gst_patterns, cgst_pattern,
    sgst_pattern, igst_pattern, component_pattern.
  intros Hin.
  repeat (destruct Hin as [<- | Hin];
    [ first
        [ apply (groups_only_labelled [_]); repeat constructor;
          apply groups_only_itext
        | apply (groups_only_labelled [_; _; _; _; _]);
          repeat (constructor;
                  [first [apply groups_only_itext | simpl; tauto]|]);
          constructor ] | ]).
  destruct Hin.
Qed.

(** ** Floats that are not negative *)

Section Rounding.
Let prec := PyFloat.prec.
Let emax := PyFloat.emax.

Lemma iter_pos_invariant {A} (P : A -> Prop) (f : A -> A) :
  (forall x, P x -> P (f x)) -> forall n x, P x -> P (SpecFloat.iter_pos f n x).
Proof.
  intros Hf n. induction n as [n IH | n IH |]; intros x Hx; simpl.
  - apply IH, IH, Hf, Hx.
  - apply IH, IH, Hx.
  - apply Hf, Hx.
Qed.

Lemma shr_1_nonneg (mrs : shr_record) :
  (0 <= shr_m mrs)%Z -> (0 <= shr_m (shr_1 mrs))%Z.
Proof.
  destruct mrs as [m r s]. simpl. intros Hm.
  destruct m as [|p|p]; [simpl; lia | | lia].
  destruct p; simpl; lia.
Qed.

Lemma shr_nonneg (mrs : shr_record) (e n : Z) :
  (0 <= shr_m mrs)%Z -> (0 <= shr_m (fst (shr mrs e n)))%Z.
Proof.
  intros Hm. unfold shr. destruct n as [|p|p]; simpl; try exact Hm.
  apply (iter_pos_invariant (fun x => (0 <= shr_m x)%Z)); [|exact Hm].
  apply shr_1_nonneg.
Qed.

Lemma shr_fexp_nonneg (m e : Z) (l : location) :
  (0 <= m)%Z -> (0 <= shr_m (fst (shr_fexp prec emax m e l)))%Z.
Proof.
  intros Hm. unfold shr_fexp. apply shr_nonneg.
  destruct l as [|[]]; simpl; exact Hm.
Qed.

Lemma round_nearest_even_nonneg (m : Z) (l : location) :
  (0 <= m)%Z -> (0 <= round_nearest_even m l)%Z.
Proof.
  intros Hm. unfold round_nearest_even.
  destruct l as [|[]]; try destruct (Z.even m); lia.
Qed.

Lemma binary_round_aux_nonneg (m e : Z) (l : location) :
  (0 <= m)%Z -> fnonneg (binary_round_aux prec emax false m e l).
Proof.
  intros Hm. unfold binary_round_aux.
  pose proof (shr_fexp_nonneg m e l Hm) as H1.
  destruct (shr_fexp prec emax m e l) as [mrs' e'] eqn:E1. simpl in H1.
  pose proof (shr_fexp_nonneg _ e' loc_Exact
                (round_nearest_even_nonneg _ (loc_of_shr_record mrs') H1)) as H2.
  destruct (shr_fexp prec emax _ e' loc_Exact) as [mrs'' e''] eqn:E2. simpl in H2.
  destruct (shr_m mrs'') as [|p|p]; simpl.
  - exact I.
  - destruct (Z.leb e'' (emax - prec)); exact I.
  - lia.
Qed.

Lemma add_nonneg (x y : PyFloat.float) :
  fnonneg x -> fnonneg y -> fnonneg (PyFloat.add x y).
Proof.
  unfold PyFloat.add.
  destruct x as [[]|[]| |[] mx ex]; simpl; try contradiction;
    destruct y as [[]|[]| |[] my ey]; simpl; try contradiction;
    intros _ _; try exact I.
  unfold binary_normalize. simpl.
  unfold binary_round.
  destruct (shl_align _ _ _) as [mz ez].
  apply binary_round_aux_nonneg. lia.
Qed.

Lemma of_decimal_nonneg (n : N) (k : nat) : fnonneg (PyFloat.of_decimal n k).
Proof.
  unfold PyFloat.of_decimal. destruct n as [|p]; [exact I|].
  unfold SFdiv.
  destruct (SFdiv_core_binary _ _ _ _ _ _) as [[mz ez] lz] eqn:E.
  apply binary_round_aux_nonneg.
  unfold SFdiv_core_binary in E.
  destruct (Z.div_eucl _ _) as [q r] eqn:Ed.
  injection E as <- _ _.
  match type of Ed with Z.div_eucl ?a ?b = _ =>
    assert (q = a / b)%Z as -> by (unfold Z.div; rewrite Ed; reflexivity);
    apply Z.div_pos; [|lia]
  end.
  destruct (_ - _ - _)%Z; try lia.
  rewrite Z.shiftl_mul_pow2 by lia. lia.
Qed.
End Rounding.

(** ** The running total of [calculate_total_gst_from_text] *)

Lemma float_of_str_nonneg (s : str) (a : PyFloat.float) :
  Py.float_of_str s = Some a -> fnonneg a.
Proof.
  unfold Py.float_of_str.
  destruct (Py.scan_digits 0 s) as [[v1 n1] r1].
  destruct r1 as [|c r].
  - destruct (Nat.eqb n1 0); [discriminate|].
    intros [= <-]. apply of_decimal_nonneg.
  - destruct (c =? 46); [|discriminate].
    destruct (Py.scan_digits v1 r) as [[v2 n2] r2].
    destruct r2; [|discriminate].
    destruct (Nat.eqb (n1 + n2) 0); [discriminate|].
    intros [= <-]. apply of_decimal_nonneg.
Qed.

Lemma add_total (t : pyval) (a : PyFloat.float) :
  nonneg_total t -> Py.add t (PFloat a) = Some (add_amount t a).
Proof. intros [-> | (f & -> & _)]; reflexivity. Qed.

Lemma add_amount_nonneg (t : pyval) (a : PyFloat.float) :
  nonneg_total t -> fnonneg a -> nonneg_total (add_amount t a).
Proof.
  intros Ht Ha. right. eexists. split; [reflexivity|].
  apply add_nonneg; [|exact Ha].
  destruct Ht as [-> | (f & -> & Hf)]; [exact I | exact Hf].
Qed.

Lemma add_matches_nonneg (matches : list str) (t : pyval) :
  nonneg_total t -> nonneg_total (outcome_total (add_matches t matches)).
Proof.
  revert t. induction matches as [|m ms IH]; intros t Ht; simpl.
  - exact Ht.
  - destruct (Py.float_of_str _) as [a|] eqn:Ea; [|exact Ht].
    rewrite (add_total t a Ht). apply IH.
    apply add_amount_nonneg; [exact Ht|].
    exact (float_of_str_nonneg _ _ Ea).
Qed.

Lemma add_patterns_nonneg (patterns : list regex) (text : str) (t : pyval) :
  nonneg_total t -> nonneg_total (outcome_total (add_patterns t patterns text)).
Proof.
  revert t. induction patterns as [|p ps IH]; intros t Ht; simpl.
  - exact Ht.
  - pose proof (add_matches_nonneg (findall p text) t Ht) as H.
    destruct (add_matches t (findall p text)) as [t'|t']; simpl in H.
    + apply IH. exact H.
    + exact H.
Qed.






(** ** The three methods of [calculate_total_gst_from_text] *)





(** ** The total is never negative *)

Lemma findall_amount_plain (pattern : regex) (text : str) :
  In pattern amount_patterns ->
  Forall (plain amount_char) (findall pattern text).
Proof. intros Hin. apply findall_plain, amount_patterns_plain, Hin. Qed.

Lemma explicit_matches_plain (text : str) :
  Forall (plain amount_char) (explicit_matches text).
Proof.
  unfold explicit_matches.
  assert (forall ps, (forall p, In p ps -> In p amount_patterns) ->
            Forall (plain amount_char)
              (List.concat (List.map (fun p => findall p text) ps))) as H.
  { induction ps as [|p ps IH]; intros Hps; cbn [List.map List.concat].
    - constructor.
    - apply Forall_app. split.
      + apply findall_amount_plain, Hps. left. reflexivity.
      + apply IH. intros p' Hp'. apply Hps. right. exact Hp'. }
  apply H. intros p Hp. unfold amount_patterns.
  apply in_or_app. right. apply in_or_app. left. exact Hp.
Qed.

(** C10: the function returns for every text, and what it returns is the
    integer 0 or a float that is not negative, so it is zero or positive;
    every amount the methods add is a capture made of digits, commas and
    points; when a conversion raises the total reached so far is returned,
    as on [broken_total_transcript], which gives 5.0. *)
Theorem total_gst_nonneg (text : str) :
  let r := calculate_total_gst_from_text text in
  nonneg_total r
  /\ (Py.eq_zero r = true \/ Py.gt_zero r = true)
  /\ Forall (plain amount_char)
       (explicit_matches text ++ findall cgst_pattern text
        ++ findall sgst_pattern text ++ findall igst_pattern text)
  /\ (forall t, add_patterns (PInt 0) total_gst_patterns text = Raised t -> r = t)
  /\ calculate_total_gst_from_text broken_total_transcript
       = PFloat (float_literal "5").
Proof.
  intros r.
  assert (nonneg_total r) as Hr.
  { subst r. unfold calculate_total_gst_from_text.
    assert (nonneg_total (PInt 0)) as H0 by (left; reflexivity).
    pose proof (add_patterns_nonneg total_gst_patterns text _ H0) as H1.
    destruct (add_patterns _ _ _) as [t1|t1]; simpl in H1; [|exact H1].
    destruct (Py.gt_zero t1); [exact H1|].
    pose proof (add_matches_nonneg (findall cgst_pattern text) _ H1) as H2.
    destruct (add_matches t1 _) as [t2|t2]; simpl in H2; [|exact H2].
    pose proof (add_matches_nonneg (findall sgst_pattern text) _ H2) as H3.
    destruct (add_matches t2 _) as [t3|t3]; simpl in H3; [|exact H3].
    destruct (Py.gt_zero t3); [exact H3|].
    pose proof (add_matches_nonneg (findall igst_pattern text) _ H3) as H4.
    destruct (add_matches t3 _) as [t4|t4]; simpl in H4; exact H4. }
  split; [exact Hr|]. split; [|split; [|split]].
  - destruct Hr as [-> | (f & -> & Hf)]; [left; reflexivity|].
    destruct f as [[]|[]| |[] m e]; simpl in Hf; try contradiction;
      [left | right | right]; reflexivity.
  - assert (forall p, In p [cgst_pattern; sgst_pattern; igst_pattern] ->
                      Forall (plain amount_char) (findall p text)) as Hc.
    { intros p Hp. apply findall_amount_plain. unfold amount_patterns.
      apply in_or_app. right. apply in_or_app. right. exact Hp. }
    apply Forall_app. split; [apply explicit_matches_plain|].
    apply Forall_app. split; [apply Hc; left; reflexivity|].
    apply Forall_app. split; apply Hc.
    + right. left. reflexivity.
    + right. right. left. reflexivity.
  - intros t Ht. subst r. unfold calculate_total_gst_from_text.
    rewrite Ht. reflexivity.
  - vm_compute. reflexivity.
Qed.

(** ** The batch summary is the difference of two sums *)

Lemma sum_onto_floats (values : list pyval) (acc : pyval) :
  float_amount acc -> Forall float_amount values ->
  exists t, sum_onto acc values = Some t /\ float_amount t.
Proof.
  revert acc. induction values as [|v l IH]; intros acc Ha Hall; simpl.
  - eauto.
  - inversion Hall as [|? ? Hv Hl]; subst.
    assert (exists t, Py.add acc v = Some t /\ float_amount t) as (t & -> & Ht).
    { destruct Ha as [-> | [f ->]]; destruct Hv as [-> | [g ->]]; simpl;
        eexists; (split; [reflexivity|]); unfold float_amount; eauto. }
    simpl. apply IH; assumption.
Qed.

Lemma sum_onto_ints (values : list pyval) (acc : pyval) :
  int_amount acc -> Forall int_amount values ->
  exists t, sum_onto acc values = Some t /\ int_amount t.
Proof.
  revert acc. induction values as [|v l IH]; intros acc Ha Hall; simpl.
  - eauto.
  - inversion Hall as [|? ? Hv Hl]; subst.
    destruct Ha as [a ->]. destruct Hv as [b ->]. simpl.
    apply IH; [|assumption]. eexists. reflexivity.
Qed.

(** C8: the summary is a function of the two amount columns alone; when it is
    returned, [total_invoices] is the number of records, the two totals are
    the sums of [grand_total] and of [total_gst] with 0 for a record without
    the key, and [total_taxable_amount] is exactly their difference; and it
    is returned whenever the amounts are floats or are all integers. *)
Theorem summary_statistics (invoices : list dict) :
  (forall invoices' : list dict,
     grand_totals invoices' = grand_totals invoices ->
     gst_amounts invoices' = gst_amounts invoices ->
     calculate_summary_statistics invoices' = calculate_summary_statistics invoices)
  /\ (forall s, calculate_summary_statistics invoices = Some s ->
        total_invoices s = List.length invoices
        /\ py_sum (grand_totals invoices) = Some (total_grand_total s)
        /\ py_sum (gst_amounts invoices) = Some (total_gst_amount s)
        /\ Py.sub (total_grand_total s) (total_gst_amount s)
             = Some (total_taxable_amount s))
  /\ (Forall float_amount (grand_totals invoices ++ gst_amounts invoices)
      \/ Forall int_amount (grand_totals invoices ++ gst_amounts invoices) ->
      exists s, calculate_summary_statistics invoices = Some s)
  /\ (exists s, calculate_summary_statistics example_invoices = Some s
        /\ total_invoices s = 3%nat
        /\ total_taxable_amount s = PFloat (float_literal "3847.45")).
Proof.
  split; [|split; [|split]].
  - intros invoices' Hg Ht. unfold calculate_summary_statistics.
    rewrite Hg, Ht.
    assert (List.length invoices' = List.length invoices) as ->; [|reflexivity].
    apply (f_equal (@List.length pyval)) in Hg. unfold grand_totals in Hg.
    rewrite !List.length_map in Hg. exact Hg.
  - intros s. unfold calculate_summary_statistics.
    destruct (py_sum (grand_totals invoices)) as [g|]; [|discriminate].
    destruct (py_sum (gst_amounts invoices)) as [t|]; [|discriminate].
    simpl. destruct (Py.sub g t) as [x|] eqn:Ex; [|discriminate].
    simpl. intros [= <-]. simpl. repeat split; assumption || reflexivity.
  - unfold calculate_summary_statistics, py_sum.
    intros [H | H]; apply Forall_app in H as [Hg Ht].
    + destruct (sum_onto_floats _ (PInt 0) (or_introl eq_refl) Hg) as (g & -> & Hg').
      destruct (sum_onto_floats _ (PInt 0) (or_introl eq_refl) Ht) as (t & -> & Ht').
      simpl.
      destruct Hg' as [-> | [f ->]]; destruct Ht' as [-> | [h ->]]; simpl; eauto.
    + destruct (sum_onto_ints _ (PInt 0) (ex_intro _ _ eq_refl) Hg) as (g & -> & [a ->]).
      destruct (sum_onto_ints _ (PInt 0) (ex_intro _ _ eq_refl) Ht) as (t & -> & [b ->]).
      simpl. eauto.
  - vm_compute. eexists. repeat split; reflexivity.
Qed.

(** The summary of the example batch is returned. *)
Lemma summary_statistics_witness :
  exists s, calculate_summary_statistics example_invoices = Some s.
Proof.
  apply (proj1 (proj2 (proj2 (summary_statistics example_invoices)))).
  left. vm_compute.
  repeat (constructor; [first [left; reflexivity | right; eexists; reflexivity]|]).
  constructor.
Defined.

(** ** The steps of [parse_gemini_response] *)

Lemma startswith_app (p q s : str) :
  PyStr.startswith (p ++ q) s = true -> PyStr.startswith p s = true.
Proof.
  revert s. induction p as [|a p IH]; intros s; simpl.
  - destruct s; reflexivity.
  - destruct s as [|b s]; [intros H; exact H|].
    intros H. apply andb_true_iff in H as [Hab H].
    rewrite Hab. simpl. apply IH. exact H.
Qed.

Lemma contains_app (p q s : str) :
  PyStr.contains p s = false -> PyStr.contains (p ++ q) s = false.
Proof.
  induction s as [|x s IH]; simpl.
  - intros H. apply orb_false_iff in H as [H _].
    rewrite orb_false_r.
    destruct (PyStr.startswith (p ++ q) []) eqn:E; [|reflexivity].
    apply startswith_app in E. congruence.
  - intros H. apply orb_false_iff in H as [H1 H2].
    rewrite (IH H2), orb_false_r.
    destruct (PyStr.startswith (p ++ q) (x :: s)) eqn:E; [|reflexivity].
    apply startswith_app in E. congruence.
Qed.

(** Replacing a text that does not occur changes nothing. *)
Lemma replace_absent (old new s : str) :
  PyStr.contains old s = false -> PyStr.replace old new s = s.
Proof.
  unfold PyStr.replace. induction s as [|x s IH]; simpl.
  - reflexivity.
  - intros H. apply orb_false_iff in H as [H1 H2].
    rewrite H1, (IH H2). reflexivity.
Qed.

Lemma cleaned_reply_plain (reply : str) :
  PyStr.contains (lit "```") reply = false ->
  PyStr.strip reply = reply ->
  cleaned_reply reply = reply.
Proof.
  intros Hf Hs. unfold cleaned_reply.
  rewrite (replace_absent (lit "```json")).
  - rewrite (replace_absent _ _ _ Hf). exact Hs.
  - change (lit "```json") with (lit "```" ++ lit "json").
    apply contains_app. exact Hf.
Qed.

(** The function in two steps: the first text that is decoded, and the
    cleaned reply when that fails. *)
Lemma parse_gemini_response_unfold (json_loads : str -> option pyval) (reply : str) :
  parse_gemini_response json_loads reply =
    match json_loads (if has_open_brace reply then bracket_slice reply else reply) with
    | Some v => v
    | None =>
        match json_loads (cleaned_reply reply) with
        | Some v => v
        | None => PNone
        end
    end.
Proof.
  unfold parse_gemini_response, has_open_brace, bracket_slice, cleaned_reply.
  destruct (PyStr.find 123 reply) as [i|]; simpl index_of.
  - assert ((Z.of_nat i =? -1)%Z = false) as -> by (apply Z.eqb_neq; lia).
    destruct (PyStr.rfind 125 reply) as [j|]; simpl index_of.
    + assert ((Z.of_nat j + 1 =? -1)%Z = false) as -> by (apply Z.eqb_neq; lia).
      simpl negb. simpl andb. cbv iota.
      rewrite Nat2Z.id.
      replace (Z.to_nat (Z.of_nat j + 1)) with (S j) by lia.
      reflexivity.
    + simpl. rewrite Nat2Z.id. reflexivity.
  - reflexivity.
Qed.

(** C4, as the code has it: for a reply with both braces the text from the
    first opening brace to the last closing brace is decoded, and for a reply
    without an opening brace the entire reply is; when that decoding fails,
    the reply without its code fence markers and outer white space is
    decoded, the entire reply not being tried as it stands; when that fails
    too the result is [None], and nothing is raised. So for a reply with both
    braces whose slice is not valid JSON while the entire reply is, the
    decoded reply is returned provided the reply has no code fence marker and
    no white space around it. *)
Theorem parse_gemini_response_steps (json_loads : str -> option pyval) (reply : str) :
  (has_open_brace reply = true -> has_close_brace reply = true ->
     forall v, json_loads (bracket_slice reply) = Some v ->
       parse_gemini_response json_loads reply = v)
  /\ (has_open_brace reply = false ->
      forall v, json_loads reply = Some v ->
        parse_gemini_response json_loads reply = v)
  /\ ((has_open_brace reply = true /\ has_close_brace reply = true
       /\ json_loads (bracket_slice reply) = None)
      \/ (has_open_brace reply = false /\ json_loads reply = None) ->
      parse_gemini_response json_loads reply =
        match json_loads (cleaned_reply reply) with
        | Some v => v
        | None => PNone
        end)
  /\ (has_open_brace reply = true -> has_close_brace reply = true ->
      json_loads (bracket_slice reply) = None ->
      PyStr.contains (lit "```") reply = false -> PyStr.strip reply = reply ->
      forall v, json_loads reply = Some v ->
        parse_gemini_response json_loads reply = v).
Proof.
  rewrite parse_gemini_response_unfold.
  split; [|split; [|split]].
  - intros -> _ v ->. reflexivity.
  - intros -> v ->. reflexivity.
  - intros [(-> & _ & ->) | (-> & ->)]; reflexivity.
  - intros -> _ -> Hf Hs v Hv.
    rewrite (cleaned_reply_plain reply Hf Hs), Hv. reflexivity.
Qed.

(** A reply with prose around the object decodes to the object; a reply
    that is an array of two objects, whose slice from brace to brace is not
    valid JSON, decodes to the array. *)
Lemma parse_gemini_response_steps_witness :
  parse_gemini_response Json.loads prose_reply
    = PDict (<[lit "invoice_no" := PStr (lit "INV-42")]> ∅)
  /\ parse_gemini_response Json.loads array_reply
    = PList [PDict (<[lit "a" := PInt 1]> ∅); PDict (<[lit "b" := PInt 2]> ∅)].
Proof.
  split.
  - apply (proj1 (parse_gemini_response_steps Json.loads prose_reply));
      vm_compute; reflexivity.
  - apply (proj2 (proj2 (proj2 (parse_gemini_response_steps Json.loads array_reply))));
      vm_compute; reflexivity.
Defined.

(** C4 fails as stated: [fenced_array_reply] has both braces, its bracket slice
    is not valid JSON and the entire reply is, yet what is returned is the
    decoding of the cleaned reply, in which the string of the fence marker is
    empty, and not the decoded reply, which the three steps of the
    specification give. *)
Lemma parse_skips_entire_reply :
  let whole := PList [ PStr (lit "```"); PDict (<[lit "a" := PInt 1]> ∅);
                       PDict (<[lit "b" := PInt 2]> ∅) ] in
  let stripped := PList [ PStr []; PDict (<[lit "a" := PInt 1]> ∅);
                          PDict (<[lit "b" := PInt 2]> ∅) ] in
  has_open_brace fenced_array_reply = true
  /\ has_close_brace fenced_array_reply = true
  /\ Json.loads (bracket_slice fenced_array_reply) = None
  /\ Json.loads fenced_array_reply = Some whole
  /\ spec_parse Json.loads fenced_array_reply = whole
  /\ parse_gemini_response Json.loads fenced_array_reply = stripped
  /\ stripped <> whole.
Proof.
  vm_compute. repeat split; try reflexivity. discriminate.
Qed.

(** ** Date normalization *)

(** C5: the three dates of the specification all become [2020.03.04]. *)
Theorem format_date_examples :
  format_date_to_ymd (PStr (lit "04-Mar-2020")) = PStr (lit "2020.03.04")
  /\ format_date_to_ymd (PStr (lit "04/03/2020")) = PStr (lit "2020.03.04")
  /\ format_date_to_ymd (PStr (lit "2020.03.04")) = PStr (lit "2020.03.04").
Proof. vm_compute. repeat split; reflexivity. Qed.

Lemma first_parse_none (formats : list string) (date_str : str) :
  List.forallb
    (fun fmt => match strptime date_str fmt with Some _ => false | None => true end)
    formats = true ->
  first_parse formats date_str = None.
Proof.
  induction formats as [|fmt l IH]; simpl; [reflexivity|].
  intros H. apply andb_true_iff in H as [H1 H2].
  destruct (strptime date_str fmt); [discriminate|]. exact (IH H2).
Qed.

Lemma manual_scan_not_found (items : list (string * string)) (date_str date_lower : str) :
  List.forallb (fun item => negb (PyStr.contains (lit (fst item)) date_lower)) items
    = true ->
  manual_scan items date_str date_lower = NotFound.
Proof.
  induction items as [|[month_text month_num] l IH]; simpl; [reflexivity|].
  intros H. apply andb_true_iff in H as [H1 H2].
  apply negb_true_iff in H1. rewrite H1. exact (IH H2).
Qed.

(** Replacing one character by another works character by character. *)
Lemma replace_one_char (o n : N) (s : str) :
  PyStr.replace [o] [n] s = List.map (fun c => if o =? c then n else c) s.
Proof.
  unfold PyStr.replace. induction s as [|x s IH]; [reflexivity|].
  cbn [PyStr.replace_from PyStr.startswith List.length Nat.pred List.map].
  rewrite andb_true_r. destruct (o =? x); simpl; rewrite IH; reflexivity.
Qed.

Lemma contains_one_char (c : N) (s : str) :
  PyStr.contains [c] s = false <-> ~ In c s.
Proof.
  induction s as [|x s IH]; simpl.
  - split; [intros _ []|reflexivity].
  - rewrite andb_true_r, orb_false_iff, IH. split.
    + intros [Hx Hs] [E|Hin]; [|exact (Hs Hin)].
      subst x. rewrite N.eqb_refl in Hx. discriminate Hx.
    + intros H. split; [|intros Hin; apply H; right; exact Hin].
      apply N.eqb_neq. intros ->. apply H. left. reflexivity.
Qed.

Lemma lstrip_by_incl (p : N -> bool) (s : str) (x : N) :
  In x (PyStr.lstrip_by p s) -> In x s.
Proof.
  induction s as [|y s IH]; simpl; [intros []|].
  destruct (p y); [intros H; right; exact (IH H)|intros H; exact H].
Qed.

Lemma strip_incl (s : str) (x : N) : In x (PyStr.strip s) -> In x s.
Proof.
  unfold PyStr.strip, PyStr.strip_by. intros H.
  apply in_rev in H. apply lstrip_by_incl in H. apply in_rev in H.
  exact (lstrip_by_incl _ _ _ H).
Qed.

Lemma map_other (o n : N) (s : str) :
  ~ In o s -> List.map (fun c => if o =? c then n else c) s = s.
Proof.
  induction s as [|x s IH]; simpl; [reflexivity|].
  intros H. rewrite IH by (intros Hin; apply H; right; exact Hin).
  destruct (N.eqb_spec o x) as [->|_]; [|reflexivity].
  elim H. left. reflexivity.
Qed.

(** The cleaned string has no [/] and no [.], and it is the string itself
    exactly when there is nothing to clean. *)
Lemma clean_date_fixed (s : str) :
  clean_date s = s <->
  PyStr.strip s = s /\ PyStr.contains (lit "/") s = false
  /\ PyStr.contains (lit ".") s = false.
Proof.
  unfold clean_date.
  change (lit "/") with [47]. change (lit ".") with [46]. change (lit "-") with [45].
  rewrite !replace_one_char, !contains_one_char. split.
  - intros E.
    assert (H : ~ In 47 s /\ ~ In 46 s).
    { assert (Hc : forall z : N,
                let y := if 47 =? z then 45 else z in
                (if 46 =? y then 45 else y) <> 47
                /\ (if 46 =? y then 45 else y) <> 46).
      { intros z. cbv zeta.
        destruct (N.eqb_spec 47 z) as [E1|E1]; [split; discriminate|].
        destruct (N.eqb_spec 46 z) as [E2|E2]; [split; discriminate|].
        split; congruence. }
      rewrite <- E. split; intros Hin;
        apply in_map_iff in Hin as (y & Hy & Hin);
        apply in_map_iff in Hin as (z & Hz & _); subst y;
        destruct (Hc z) as [C1 C2]; [exact (C1 Hy) | exact (C2 Hy)]. }
    destruct H as [H47 H46]. split; [|split; assumption].
    rewrite (map_other 47 45) in E by (intros Hin; exact (H47 (strip_incl _ _ Hin))).
    rewrite (map_other 46 45) in E by (intros Hin; exact (H46 (strip_incl _ _ Hin))).
    exact E.
  - intros (Hs & H47 & H46). rewrite Hs.
    rewrite (map_other 47 45 s H47). exact (map_other 46 45 s H46).
Qed.

(** C6, as the code has it: when no format parses the string and no month
    name occurs in it, the function returns the string it works on, which is
    the input without the white space around it and with every [/] and [.]
    replaced by [-]; this is the input itself exactly when the input has none
    of these. Nothing is raised. *)
Theorem format_date_unparsed (s : str) :
  no_template_parses (clean_date s) = true ->
  no_month_name (clean_date s) = true ->
  format_date_to_ymd (PStr s) = PStr (clean_date s)
  /\ (format_date_to_ymd (PStr s) = PStr s <->
      PyStr.strip s = s /\ PyStr.contains (lit "/") s = false
      /\ PyStr.contains (lit ".") s = false).
Proof.
  intros Ht Hm.
  assert (format_date_to_ymd (PStr s) = PStr (clean_date s)) as H.
  { unfold format_date_to_ymd.
    rewrite (first_parse_none _ _ Ht).
    rewrite (manual_scan_not_found _ _ _ Hm). reflexivity. }
  split; [exact H|]. rewrite H, <- clean_date_fixed.
  split; [intros [= E]; exact E | intros ->; reflexivity].
Qed.

(** A month and a year alone match no format and hold no month name: with
    a dash the text is returned as it is, with a slash and a space before
    it the cleaned text is. *)
Lemma format_date_unparsed_witness :
  format_date_to_ymd (PStr (lit "12-2020")) = PStr (lit "12-2020")
  /\ format_date_to_ymd (PStr (lit " 12/2020")) = PStr (lit "12-2020").
Proof.
  split.
  - destruct (format_date_unparsed (lit "12-2020")) as [_ [_ H]];
      [vm_compute; reflexivity | vm_compute; reflexivity |].
    apply H. vm_compute. repeat split; reflexivity.
  - apply (format_date_unparsed (lit " 12/2020")); vm_compute; reflexivity.
Defined.

(** C6 fails as stated: no format parses [12/2020] and it has no month name,
    yet what is returned is [12-2020], not the input. *)
Lemma format_date_changes_input :
  no_template_parses (clean_date (lit "12/2020")) = true
  /\ no_template_parses (lit "12/2020") = true
  /\ no_month_name (lit "12/2020") = true
  /\ format_date_to_ymd (PStr (lit "12/2020")) = PStr (lit "12-2020")
  /\ lit "12-2020" <> lit "12/2020".
Proof. vm_compute. repeat split; try reflexivity. discriminate. Qed.

Lemma miss_lookup (miss : dict -> str -> bool) (d d' : dict) (k : str) :
  miss = missing_text \/ miss = missing_number ->
  d !! k = d' !! k -> miss d k = miss d' k.
Proof.
  intros [-> | ->] H; unfold missing_text, missing_number, Py.get; rewrite H;
    reflexivity.
Qed.

Lemma written_key_cases (k : str) (text : str) :
  k ∈ written_keys ->
  k = lit "items" \/ exists miss rec, (k, miss, rec) ∈ fallbacks text.
Proof.
  intros Hw. unfold written_keys in Hw. simpl in Hw.
  repeat (apply elem_of_cons in Hw as [-> | Hw];
    [ first [ left; reflexivity
            | right; do 2 eexists; unfold fallbacks;
              repeat first [ apply list_elem_of_here
                           | apply list_elem_of_further ] ] | ]).
  apply elem_of_nil in Hw. destruct Hw.
Qed.

(** X1: validating a validated record once more, with the same text, changes
    nothing, whatever the name of the file. *)
Theorem validate_idempotent (d : dict) (text fn fn' : str) :
  validate_extracted_data (validate_extracted_data d text fn) text fn'
    = validate_extracted_data d text fn.
Proof.
  apply map_eq. intros k.
  destruct (decide (k ∈ written_keys)) as [Hw | Hw].
  - destruct (written_key_cases k text Hw) as [-> | (miss & rec & Hin)].
    + rewrite !validate_lookup_items. reflexivity.
    + rewrite (validate_lookup_fallback _ text fn' k miss rec Hin).
      pose proof (validate_lookup_fallback d text fn k miss rec Hin) as H1.
      pose proof (fallbacks_tests _ _ _ _ Hin) as Hm.
      destruct (miss d k) eqn:E.
      * destruct rec as [v|].
        -- rewrite H1. case (miss (validate_extracted_data d text fn) k); reflexivity.
        -- rewrite (miss_lookup miss _ d k Hm H1), E. reflexivity.
      * rewrite (miss_lookup miss _ d k Hm H1), E. reflexivity.
  - rewrite !validate_lookup_other by exact Hw. reflexivity.
Qed.

Lemma calculate_total_gst_nonneg (text : str) :
  nonneg_total (calculate_total_gst_from_text text).
Proof.
  unfold calculate_total_gst_from_text.
  assert (nonneg_total (PInt 0)) as H0 by (left; reflexivity).
  pose proof (add_patterns_nonneg total_gst_patterns text _ H0) as H1.
  destruct (add_patterns _ _ _) as [t1|t1]; simpl in H1; [|exact H1].
  destruct (Py.gt_zero t1); [exact H1|].
  pose proof (add_matches_nonneg (findall cgst_pattern text) _ H1) as H2.
  destruct (add_matches t1 _) as [t2|t2]; simpl in H2; [|exact H2].
  pose proof (add_matches_nonneg (findall sgst_pattern text) _ H2) as H3.
  destruct (add_matches t2 _) as [t3|t3]; simpl in H3; [|exact H3].
  destruct (Py.gt_zero t3); [exact H3|].
  pose proof (add_matches_nonneg (findall igst_pattern text) _ H3) as H4.
  destruct (add_matches t3 _) as [t4|t4]; simpl in H4; exact H4.
Qed.

Lemma first_amount_nonneg (patterns : list regex) (text : str) (f : PyFloat.float) :
  first_amount patterns text = Some f -> fnonneg f.
Proof.
  induction patterns as [|p ps IH]; simpl; [discriminate|].
  destruct (search p text) as [m|]; [|exact IH].
  destruct (Py.float_of_str _) as [a|] eqn:Ea; [|exact IH].
  intros [= <-]. exact (float_of_str_nonneg _ _ Ea).
Qed.

(** X2: the total GST of a validated record is the one the reply gave, or a
    float above zero read off the text; its grand total is the one the reply
    gave, or a float that is not negative. *)
Theorem validate_amounts (d : dict) (text fn : str) (v : pyval) :
  (validate_extracted_data d text fn !! lit "total_gst" = Some v ->
     d !! lit "total_gst" = Some v
     \/ exists f, v = PFloat f /\ fnonneg f /\ Py.gt_zero v = true)
  /\ (validate_extracted_data d text fn !! lit "grand_total" = Some v ->
     d !! lit "grand_total" = Some v
     \/ exists f, v = PFloat f /\ fnonneg f).
Proof.
  split.
  - assert ((lit "total_gst", missing_number, recover_total_gst text) ∈ fallbacks text)
      as Hin by (unfold fallbacks;
                 repeat first [apply list_elem_of_here | apply list_elem_of_further]).
    rewrite (validate_lookup_fallback d text fn _ _ _ Hin).
    destruct (missing_number d _); [|auto].
    unfold recover_total_gst.
    destruct (Py.gt_zero (calculate_total_gst_from_text text)) eqn:Eg; [|auto].
    intros [= <-]. right.
    destruct (calculate_total_gst_nonneg text) as [H0 | (f & Hf & Hn)].
    + rewrite H0 in Eg. discriminate Eg.
    + exists f. rewrite Hf in *. auto.
  - assert ((lit "grand_total", missing_number, recover_grand_total text) ∈ fallbacks text)
      as Hin by (unfold fallbacks;
                 repeat first [apply list_elem_of_here | apply list_elem_of_further]).
    rewrite (validate_lookup_fallback d text fn _ _ _ Hin).
    destruct (missing_number d _); [|auto].
    unfold recover_grand_total.
    destruct (first_amount total_patterns text) as [f|] eqn:Ef; [|auto].
    intros [= <-]. right. exists f. split; [reflexivity|].
    exact (first_amount_nonneg _ _ _ Ef).
Qed.

Lemma extract_result_cases (json_loads : str -> option pyval)
    (text : str) (response : option str) (name : str) :
  let r := extract_invoice_data json_loads text response name in
  Py.truthy r = false \/ exists d, r = PDict d /\ is_Some (d !! lit "items").
Proof.
  intros r. subst r. unfold extract_invoice_data.
  destruct (PyStr.strip text); [left; reflexivity|].
  destruct response as [content|]; [|left; reflexivity].
  destruct (Py.truthy (parse_gemini_response json_loads content)) eqn:Et;
    [|left; exact Et].
  destruct (parse_gemini_response json_loads content) as [| | | | | |d];
    try (left; reflexivity).
  right.
  pose proof (validate_lookup_items d text name) as Hi.
  set (d' := validate_extracted_data d text name) in *.
  destruct (_ && _);
    [destruct (Py.truthy (Py.get_default d' (lit "date") (PStr [])))|].
  - eexists. split; [reflexivity|].
    rewrite lookup_insert_ne by key_neq. rewrite Hi. eauto.
  - eexists. split; [reflexivity|]. rewrite Hi. eauto.
  - eexists. split; [reflexivity|]. rewrite Hi. eauto.
Qed.

(** X3: [extract_invoice_data] returns a value that is false or a dictionary
    with the key [items]; it returns [None] for a text of white space and
    when the call of the model failed. *)
Theorem extract_returns_record (json_loads : str -> option pyval)
    (text : str) (response : option str) (name : str) :
  let r := extract_invoice_data json_loads text response name in
  (Py.truthy r = false \/ exists d, r = PDict d /\ is_Some (d !! lit "items"))
  /\ (PyStr.strip text = [] -> r = PNone)
  /\ (response = None -> r = PNone).
Proof.
  intros r. split; [|split].
  - apply extract_result_cases.
  - subst r. unfold extract_invoice_data. intros ->. reflexivity.
  - subst r. unfold extract_invoice_data. intros ->.
    destruct (PyStr.strip text); reflexivity.
Qed.

Lemma size_lookup_pos (d : dict) (k : str) (v : pyval) :
  d !! k = Some v -> Nat.eqb (size d) 0 = false.
Proof.
  intros H. apply Nat.eqb_neq. intros Hs.
  apply map_size_empty_iff in Hs. subst d. rewrite lookup_empty in H. discriminate H.
Qed.

(** X4: a field of the reply that is true and is not [N/A] is in the record as
    the reply gave it, the date after [format_date_to_ymd]. *)
Theorem extract_keeps_fields (json_loads : str -> option pyval)
    (text content name : str) (d0 : dict) (k : str) (v : pyval) :
  PyStr.strip text <> [] ->
  parse_gemini_response json_loads content = PDict d0 ->
  d0 !! k = Some v -> Py.truthy v = true -> v <> PStr (lit "N/A") ->
  exists d, extract_invoice_data json_loads text (Some content) name = PDict d
    /\ d !! k = Some (if decide (k = lit "date") then format_date_to_ymd v else v).
Proof.
  intros Hs Hp Hk Ht Hna. unfold extract_invoice_data.
  destruct (PyStr.strip text) as [|x0 s0]; [contradiction|]. rewrite Hp.
  assert (Py.truthy (PDict d0) = true) as ->.
  { simpl. rewrite (size_lookup_pos _ _ _ Hk). reflexivity. }
  assert (validate_extracted_data d0 text name !! k = Some v) as Hv.
  { assert (Py.eq_str v (lit "N/A") = false) as Hn.
    { destruct v; try reflexivity. simpl. apply bool_decide_eq_false.
      intros ->. apply Hna. reflexivity. }
    destruct (decide (k = lit "items")) as [-> | Hitems].
    { rewrite validate_lookup_items, Hk. reflexivity. }
    rewrite validate_unfold, ensure_items_lookup.
    destruct (decide _) as [? | _]; [contradiction|].
    repeat (apply fallback_keeps; [auto | | exact Ht | exact Hn]).
    exact Hk. }
  generalize dependent (validate_extracted_data d0 text name). intros d' Hv.
  assert (Py.truthy (PDict d') = true) as ->.
  { simpl. rewrite (size_lookup_pos _ _ _ Hv). reflexivity. }
  rewrite andb_true_l.
  destruct (decide (k = lit "date")) as [-> | Hd].
  - rewrite bool_decide_eq_true_2 by (rewrite Hv; eauto).
    unfold Py.get_default. rewrite Hv, Ht.
    eexists. split; [reflexivity|]. apply lookup_insert_eq.
  - destruct (bool_decide _).
    + destruct (Py.truthy (Py.get_default d' (lit "date") (PStr []))).
      * eexists. split; [reflexivity|].
        rewrite lookup_insert_ne; [exact Hv|]. intros E. apply Hd. symmetry. exact E.
      * eexists. split; [reflexivity|]. exact Hv.
    + eexists. split; [reflexivity|]. exact Hv.
Qed.

Lemma find_app_absent (c : N) (pre rest : str) :
  PyStr.find c pre = None ->
  PyStr.find c (pre ++ c :: rest) = Some (List.length pre).
Proof.
  induction pre as [|x pre IH]; simpl.
  - intros _. rewrite N.eqb_refl. reflexivity.
  - destruct (x =? c); [discriminate|].
    destruct (PyStr.find c pre); [discriminate|].
    intros _. rewrite IH by reflexivity. reflexivity.
Qed.

Lemma rfind_app_absent (c : N) (s post : str) :
  PyStr.rfind c post = None ->
  PyStr.rfind c (s ++ c :: post) = Some (List.length s).
Proof.
  intros Hp. induction s as [|x s IH]; simpl.
  - rewrite Hp, N.eqb_refl. reflexivity.
  - rewrite IH. reflexivity.
Qed.

Lemma bracket_slice_prose (pre mid post : str) :
  PyStr.find 123 pre = None -> PyStr.rfind 125 post = None ->
  bracket_slice (pre ++ 123 :: mid ++ 125 :: post) = 123 :: mid ++ [125]
  /\ has_open_brace (pre ++ 123 :: mid ++ 125 :: post) = true.
Proof.
  intros Hpre Hpost. unfold bracket_slice, has_open_brace.
  rewrite (find_app_absent _ _ _ Hpre).
  split; [|reflexivity].
  replace (pre ++ 123 :: mid ++ 125 :: post)
    with ((pre ++ 123 :: mid) ++ 125 :: post)
    by (rewrite <- app_assoc; reflexivity).
  rewrite (rfind_app_absent _ _ _ Hpost).
  unfold PyStr.slice.
  rewrite <- app_assoc. rewrite drop_app_length.
  replace (Nat.sub (S (List.length (pre ++ 123 :: mid))) (List.length pre))
    with (List.length (123 :: mid ++ [125])).
  - change ((123 :: mid) ++ 125 :: post) with (123 :: (mid ++ 125 :: post)).
    replace (123 :: mid ++ 125 :: post) with ((123 :: mid ++ [125]) ++ post).
    + apply take_app_length.
    + simpl. rewrite <- app_assoc. reflexivity.
  - simpl. rewrite !length_app. simpl. lia.
Qed.

(** X5: prose without a brace before and after the object does not change what
    [parse_gemini_response] returns: the value of the text from the first
    opening brace to the last closing one. *)
Theorem parse_ignores_prose (json_loads : str -> option pyval)
    (pre mid post : str) (v : pyval) :
  PyStr.find 123 pre = None -> PyStr.rfind 125 post = None ->
  json_loads (123 :: mid ++ [125]) = Some v ->
  parse_gemini_response json_loads (pre ++ 123 :: mid ++ 125 :: post) = v.
Proof.
  intros Hpre Hpost Hv. rewrite parse_gemini_response_unfold.
  destruct (bracket_slice_prose pre mid post Hpre Hpost) as [-> ->].
  rewrite Hv. reflexivity.
Qed.

Lemma parse_ignores_prose_witness :
  parse_gemini_response Json.loads
      (lit "```json" ++ nl ++ 123 :: (json_string "total_gst" ++ lit ": 311.18")
         ++ 125 :: nl ++ lit "```")
    = PDict (<[lit "total_gst" := PFloat (float_literal "311.18")]> ∅).
Proof.
  apply (parse_ignores_prose Json.loads (lit "```json" ++ nl)
           (json_string "total_gst" ++ lit ": 311.18") (nl ++ lit "```"));
    vm_compute; reflexivity.
Defined.

Lemma extract_keeps_fields_witness :
  exists d,
    extract_invoice_data Json.loads (lit "TAX INVOICE")
      (Some (123 :: json_string "date" ++ lit ": " ++ json_string "15/03/2024" ++ [125]))
      (lit "a.pdf") = PDict d
    /\ d !! lit "date"
       = Some (if decide (lit "date" = lit "date")
               then format_date_to_ymd (PStr (lit "15/03/2024"))
               else PStr (lit "15/03/2024")).
Proof.
  apply (extract_keeps_fields Json.loads (lit "TAX INVOICE")
           (123 :: json_string "date" ++ lit ": " ++ json_string "15/03/2024" ++ [125])
           (lit "a.pdf") (<[lit "date" := PStr (lit "15/03/2024")]> ∅)
           (lit "date") (PStr (lit "15/03/2024"))).
  - vm_compute. discriminate.
  - vm_compute. reflexivity.
  - vm_compute. reflexivity.
  - reflexivity.
  - vm_compute. discriminate.
Defined.

Lemma plain_lstrip_by (q p : N -> bool) (s : str) :
  plain q s -> plain q (PyStr.lstrip_by p s).
Proof.
  induction 1 as [|x s Hx Hs IH]; simpl; [constructor|].
  destruct (p x); [exact IH | constructor; assumption].
Qed.

Lemma plain_strip (q : N -> bool) (s : str) : plain q s -> plain q (PyStr.strip s).
Proof.
  intros H. unfold PyStr.strip, PyStr.strip_by, plain in *.
  apply Forall_rev. apply plain_lstrip_by. apply Forall_rev.
  apply plain_lstrip_by. exact H.
Qed.

Lemma first_match_plain (q : N -> bool) (patterns : list regex) (text : str) (m : Match) :
  Forall (groups_only q) patterns ->
  first_match patterns text = Some m -> plain q (group1 m).
Proof.
  induction 1 as [|p ps Hp _ IH]; simpl; [discriminate|].
  destruct (search p text) as [m'|] eqn:E.
  - intros [= <-]. exact (search_from_plain q _ _ _ _ Hp E).
  - exact IH.
Qed.

Lemma alnum_dash_no_slash : only_chars no_slash (plus alnum_dash).
Proof.
  assert (forall c, iclass (fun c => in_range "A" "Z" c || in_range "0" "9" c
                                     || is_char "-" c) c = true ->
                    no_slash c = true) as H.
  { intros c Hc. unfold no_slash. destruct (N.eqb_spec c 47) as [-> | _];
      [vm_compute in Hc; discriminate Hc | reflexivity]. }
  unfold alnum_dash, plus. simpl. split; exact H.
Qed.

Lemma invoice_patterns_no_slash : Forall (groups_only no_slash) invoice_patterns.
Proof.
  unfold invoice_patterns, colon.
  repeat (constructor;
    [ apply groups_only_seq; simpl app;
      repeat (constructor;
        [ first [ apply groups_only_itext | exact alnum_dash_no_slash
                | simpl; tauto ] | ]);
      constructor | ]).
  constructor.
Qed.

(** X6: no text makes the patterns of the invoice number give back a number of
    [generate_invoice_number]: it has slashes, and the patterns take none. *)
Theorem generated_invoice_number_not_recovered (text year : str) (random_num : N) :
  recover_invoice_no text <> Some (PStr (generate_invoice_number year random_num)).
Proof.
  unfold recover_invoice_no.
  destruct (first_match invoice_patterns text) as [m|] eqn:E; [|discriminate].
  intros [= H].
  pose proof (plain_strip _ _ (first_match_plain _ _ _ _ invoice_patterns_no_slash E)) as Hp.
  rewrite H in Hp. unfold generate_invoice_number in Hp. simpl in Hp.
  inversion Hp as [|? ? _ Hp1]; subst. inversion Hp1 as [|? ? _ Hp2]; subst.
  inversion Hp2 as [|? ? _ Hp3]; subst. inversion Hp3 as [|? ? Hs _]; subst.
  vm_compute in Hs. discriminate Hs.
Qed.

Lemma below_cases (p : N -> bool) (bound : nat) :
  List.forallb p (List.map N.of_nat (List.seq 0 bound)) = true ->
  forall n, n < N.of_nat bound -> p n = true.
Proof.
  intros H n Hn. rewrite forallb_forall in H. apply H.
  apply in_map_iff. exists (N.to_nat n). split; [lia|].
  apply in_seq. lia.
Qed.

Lemma state_code_length (n : N) :
  n < 100 -> List.length (PyStr.zfill 2 (str_of_N n)) = 2%nat.
Proof.
  intros Hn. apply Nat.eqb_eq.
  apply (below_cases
           (fun n => Nat.eqb (List.length (PyStr.zfill 2 (str_of_N n))) 2) 100);
    [vm_compute; reflexivity | exact Hn].
Qed.

Lemma entity_code_length (n : N) : n < 10 -> List.length (str_of_N n) = 1%nat.
Proof.
  intros Hn. apply Nat.eqb_eq.
  apply (below_cases (fun n => Nat.eqb (List.length (str_of_N n)) 1) 10);
    [vm_compute; reflexivity | exact Hn].
Qed.

Lemma recover_gstin_shape (text g : str) :
  recover_gstin_no text = Some (PStr g) -> gstin_shape g = true.
Proof.
  unfold recover_gstin_no.
  destruct (search gstin_pattern text) as [m|] eqn:E; [|discriminate].
  intros [= <-].
  destruct (search_from_classes_some gstin_classes _ _ _ E)
    as (_ & _ & _ & Hlen & Hfit & _).
  rewrite gstin_shape_classes, Hfit, Hlen. reflexivity.
Qed.

Lemma gstin_shape_eighth (g : str) :
  gstin_shape g = true -> PyStr.is_ascii_digit (List.nth 7 g 0) = true.
Proof.
  do 15 (destruct g as [|? g]; [discriminate|]).
  destruct g; [|discriminate].
  unfold gstin_shape. intros H.
  repeat (apply andb_true_iff in H as [? H]). assumption.
Qed.

Lemma letter_not_digit (i : nat) :
  (i < 26)%nat ->
  PyStr.is_ascii_digit (choice "ABCDEFGHIJKLMNOPQRSTUVWXYZ" i) = false
  /\ PyStr.is_ascii_upper (choice "ABCDEFGHIJKLMNOPQRSTUVWXYZ" i) = true.
Proof.
  intros H. do 26 (destruct i as [|i]; [vm_compute; split; reflexivity|]). lia.
Qed.

(** X7: a number of [generate_gstin] has fifteen characters and not the shape
    of a GSTIN the extraction looks for, so that no text makes the pattern
    give it back. *)
Theorem generated_gstin_not_recovered (state : N) (pan : list nat) (entity : N)
    (check : nat) :
  gstin_draws state pan entity check ->
  let g := generate_gstin state pan entity check in
  List.length g = 15%nat
  /\ gstin_shape g = false
  /\ forall text : str, recover_gstin_no text <> Some (PStr g).
Proof.
  intros (Hs & Hlen & Hpan & He & Hc) g.
  assert (List.length g = 15%nat) as Hg.
  { subst g. unfold generate_gstin.
    rewrite !length_app, length_map, Hlen.
    rewrite state_code_length by lia. rewrite entity_code_length by lia.
    reflexivity. }
  assert (gstin_shape g = false) as Hshape.
  { destruct (gstin_shape g) eqn:E; [|reflexivity].
    apply gstin_shape_eighth in E. subst g. unfold generate_gstin in E.
    pose proof (state_code_length state ltac:(lia)) as H2.
    destruct (PyStr.zfill 2 (str_of_N state)) as [|s1 [|s2 [|]]]; try discriminate H2.
    do 10 (destruct pan as [|? pan]; [discriminate Hlen|]).
    simpl in E.
    repeat (apply Forall_cons_1 in Hpan as [? Hpan]).
    match type of E with
    | PyStr.is_ascii_digit (choice _ ?i) = true =>
        rewrite (proj1 (letter_not_digit i ltac:(assumption))) in E
    end.
    discriminate E. }
  split; [exact Hg|]. split; [exact Hshape|].
  intros text H. apply recover_gstin_shape in H. congruence.
Qed.

Lemma generated_gstin_not_recovered_witness :
  List.length (generate_gstin 27 [0; 1; 2; 3; 4; 5; 6; 7; 8; 9]%nat 1 30) = 15%nat
  /\ gstin_shape (generate_gstin 27 [0; 1; 2; 3; 4; 5; 6; 7; 8; 9]%nat 1 30) = false
  /\ forall text : str,
       recover_gstin_no text
         <> Some (PStr (generate_gstin 27 [0; 1; 2; 3; 4; 5; 6; 7; 8; 9]%nat 1 30)).
Proof.
  apply generated_gstin_not_recovered.
  unfold gstin_draws. repeat split; try lia.
  repeat (constructor; [lia|]). constructor.
Defined.

Lemma taxable_amount_of_invoice_data (invoice : dict) (e : pyval) :
  invoice_data invoice = Some e ->
  taxable_amount_of e
    = Py.sub (number_of invoice "grand_total") (number_of invoice "total_gst").
Proof.
  unfold invoice_data.
  destruct (Py.sub _ _) as [t|]; [|discriminate]. simpl.
  intros [= <-]. unfold taxable_amount_of, py_dict. simpl List.fold_left.
  rewrite lookup_insert_ne by key_neq.
  rewrite lookup_insert_eq.
  rewrite lookup_insert_eq. reflexivity.
Qed.

Lemma number_of_grand (invoice : dict) :
  number_of invoice "grand_total" = Py.get_default invoice (lit "grand_total") (PInt 0).
Proof. reflexivity. Qed.

Lemma int_entries (invoices : list dict) :
  Forall int_amount (grand_totals invoices) ->
  Forall int_amount (gst_amounts invoices) ->
  exists (entries taxables : list pyval) (g t : Z),
    mapM invoice_data invoices = Some entries
    /\ List.length entries = List.length invoices
    /\ mapM taxable_amount_of entries = Some taxables
    /\ (forall a, sum_onto (PInt a) (grand_totals invoices) = Some (PInt (a + g)))
    /\ (forall a, sum_onto (PInt a) (gst_amounts invoices) = Some (PInt (a + t)))
    /\ (forall a, sum_onto (PInt a) taxables = Some (PInt (a + (g - t)))).
Proof.
  induction invoices as [|invoice l IH]; intros Hg Ht.
  - exists [], [], 0%Z, 0%Z. simpl.
    repeat split; intros a; f_equal; f_equal; lia.
  - simpl in Hg, Ht.
    apply Forall_cons_1 in Hg as [[x Hx] Hg].
    apply Forall_cons_1 in Ht as [[y Hy] Ht].
    destruct (IH Hg Ht) as (entries & taxables & g & t & He & Hl & Hx' & Sg & St & Sx).
    assert (exists e, invoice_data invoice = Some e) as [e Ee].
    { unfold invoice_data, number_of. rewrite Hx, Hy. simpl. eauto. }
    pose proof (taxable_amount_of_invoice_data _ _ Ee) as Et.
    unfold number_of in Et. rewrite Hx, Hy in Et. simpl in Et.
    exists (e :: entries), (PInt (x - y) :: taxables), (x + g)%Z, (y + t)%Z.
    repeat split.
    + simpl. rewrite Ee. simpl. rewrite He. reflexivity.
    + simpl. rewrite Hl. reflexivity.
    + simpl. rewrite Et. simpl. rewrite Hx'. reflexivity.
    + intros a. simpl. rewrite Hx. simpl. rewrite Sg. do 2 f_equal. lia.
    + intros a. simpl. rewrite Hy. simpl. rewrite St. do 2 f_equal. lia.
    + intros a. simpl. rewrite Sx. do 2 f_equal. lia.
Qed.

Lemma float_entries (invoices : list dict) :
  Forall float_amount (grand_totals invoices) ->
  Forall float_amount (gst_amounts invoices) ->
  exists entries : list pyval,
    mapM invoice_data invoices = Some entries
    /\ List.length entries = List.length invoices.
Proof.
  induction invoices as [|invoice l IH]; intros Hg Ht.
  - exists []. split; reflexivity.
  - simpl in Hg, Ht.
    apply Forall_cons_1 in Hg as [Hx Hg].
    apply Forall_cons_1 in Ht as [Hy Ht].
    destruct (IH Hg Ht) as (entries & He & Hl).
    assert (exists e, invoice_data invoice = Some e) as [e Ee].
    { unfold invoice_data, number_of.
      destruct Hx as [-> | [f ->]]; destruct Hy as [-> | [h ->]]; simpl; eauto. }
    exists (e :: entries). split.
    + simpl. rewrite Ee. simpl. rewrite He. reflexivity.
    + simpl. rewrite Hl. reflexivity.
Qed.

Lemma export_lookups (entries : list pyval) (s : BatchSummary) :
  let data := PDict (py_dict [ ("invoices", PList entries);
                               ("summary_statistics", summary_dict s) ]%string) in
  entries_of data = Some entries
  /\ total_taxable_of data = Some (total_taxable_amount s).
Proof.
  unfold entries_of, total_taxable_of, summary_dict, py_dict. simpl List.fold_left.
  split.
  - rewrite lookup_insert_ne by key_neq. rewrite lookup_insert_eq. reflexivity.
  - rewrite lookup_insert_eq. rewrite lookup_insert_eq. reflexivity.
Qed.

(** X8: for amounts that are all floats or all integers the export has one
    entry for each invoice; for integers the taxable amounts of the entries
    add up to the total taxable amount of the summary. *)
Theorem export_taxable_amounts (invoices : list dict) :
  (Forall float_amount (grand_totals invoices ++ gst_amounts invoices)
   \/ Forall int_amount (grand_totals invoices ++ gst_amounts invoices) ->
   exists data entries,
     prepare_enhanced_json_data invoices = Some data
     /\ entries_of data = Some entries
     /\ List.length entries = List.length invoices)
  /\ (Forall int_amount (grand_totals invoices ++ gst_amounts invoices) ->
      exists data entries taxables,
        prepare_enhanced_json_data invoices = Some data
        /\ entries_of data = Some entries
        /\ mapM taxable_amount_of entries = Some taxables
        /\ py_sum taxables = total_taxable_of data
        /\ is_Some (total_taxable_of data)).
Proof.
  assert (Forall int_amount (grand_totals invoices ++ gst_amounts invoices) ->
      exists data entries taxables,
        prepare_enhanced_json_data invoices = Some data
        /\ entries_of data = Some entries
        /\ List.length entries = List.length invoices
        /\ mapM taxable_amount_of entries = Some taxables
        /\ py_sum taxables = total_taxable_of data
        /\ is_Some (total_taxable_of data)) as Hint.
  { intros H. apply Forall_app in H as [Hg Ht].
    destruct (int_entries invoices Hg Ht)
      as (entries & taxables & g & t & He & Hl & Hx & Sg & St & Sx).
    unfold prepare_enhanced_json_data, calculate_summary_statistics, py_sum.
    rewrite Sg, St. simpl. rewrite He. simpl.
    eexists. exists entries, taxables.
    split; [reflexivity|].
    match goal with
    | |- context[summary_dict ?s] =>
        destruct (export_lookups entries s) as [H1 H2]
    end.
    split; [exact H1|]. split; [exact Hl|]. split; [exact Hx|].
    rewrite H2. simpl. unfold py_sum. rewrite Sx. split; [reflexivity | eauto]. }
  split.
  - intros [H | H].
    + apply Forall_app in H as [Hg Ht].
      destruct (float_entries invoices Hg Ht) as (entries & He & Hl).
      unfold prepare_enhanced_json_data, calculate_summary_statistics, py_sum.
      destruct (sum_onto_floats _ (PInt 0) (or_introl eq_refl) Hg) as (g & -> & Hg').
      destruct (sum_onto_floats _ (PInt 0) (or_introl eq_refl) Ht) as (t & -> & Ht').
      simpl.
      assert (exists x, Py.sub g t = Some x) as [x ->].
      { destruct Hg' as [-> | [f ->]]; destruct Ht' as [-> | [h ->]]; simpl; eauto. }
      simpl. rewrite He. simpl.
      eexists. exists entries. split; [reflexivity|]. split; [|exact Hl].
      match goal with
      | |- context[summary_dict ?s] =>
          exact (proj1 (export_lookups entries s))
      end.
    + destruct (Hint H) as (data & entries & taxables & H1 & H2 & H3 & _).
      exists data, entries. auto.
  - intros H.
    destruct (Hint H) as (data & entries & taxables & H1 & H2 & _ & H4 & H5 & H6).
    exists data, entries, taxables. auto.
Qed.

Ltac row_key :=
  unfold py_dict; cbn [List.fold_left List.map app fst snd];
  repeat (rewrite lookup_insert_ne by key_neq); apply lookup_insert_eq.

Lemma invoice_rows_count (invoice : dict) (rows : list dict) :
  invoice_rows invoice = Some rows ->
  List.length rows = row_count invoice /\ Forall (row_of invoice) rows.
Proof.
  assert (forall row, plain_row invoice = Some row -> row_of invoice row) as Hplain.
  { intros row. unfold plain_row.
    destruct (invoice_columns invoice) as [columns|] eqn:Ec; [|discriminate].
    unfold invoice_columns in Ec.
    destruct (Py.sub _ _) as [t|]; [|discriminate]. injection Ec as <-.
    intros [= <-]. split; row_key. }
  assert (forall item row, item_row invoice item = Some row -> row_of invoice row)
    as Hitem.
  { intros item row. unfold item_row. destruct item; try discriminate.
    destruct (invoice_columns invoice) as [columns|] eqn:Ec; [|discriminate].
    unfold invoice_columns in Ec.
    destruct (Py.sub _ _) as [t|]; [|discriminate]. injection Ec as <-.
    intros [= <-]. split; row_key. }
  unfold invoice_rows, row_count.
  destruct (invoice !! lit "items") as [items|].
  - destruct (Py.truthy items) eqn:Et.
    + destruct items as [| | | | |l|]; try discriminate.
      intros H. split.
      * apply length_mapM in H. destruct l; [discriminate Et|]. simpl in *. lia.
      * apply mapM_Some in H. clear Et. induction H; constructor; eauto.
    + destruct (plain_row invoice) as [row|] eqn:Er; [|discriminate].
      intros [= <-]. split; [|constructor; [exact (Hplain row eq_refl) | constructor]].
      destruct items as [| | | | |[|? ?]|]; try reflexivity. discriminate Et.
  - destruct (plain_row invoice) as [row|] eqn:Er; [|discriminate].
    intros [= <-].
    split; [reflexivity | constructor; [exact (Hplain row eq_refl) | constructor]].
Qed.

(** X9: the CSV export has one row for each item and one for each invoice
    without items, so no fewer rows than invoices, and every row carries the
    file name and the grand total of an invoice. *)
Theorem csv_rows_count (invoices : list dict) (rows : list dict) :
  csv_rows invoices = Some rows ->
  List.length rows = sum_list (List.map row_count invoices)
  /\ (List.length invoices <= List.length rows)%nat
  /\ Forall (fun row => exists invoice, In invoice invoices /\ row_of invoice row) rows.
Proof.
  unfold csv_rows.
  destruct (mapM invoice_rows invoices) as [rs|] eqn:E; [|discriminate].
  intros [= <-]. apply mapM_Some in E.
  induction E as [|invoice r invoices rs Hr _ (IH1 & IH2 & IH3)].
  - repeat split; [simpl; lia | constructor].
  - destruct (invoice_rows_count invoice r Hr) as [Hc Hrow].
    cbn [List.concat List.map sum_list sum_list_with]. rewrite length_app.
    split; [|split].
    + rewrite Hc, IH1. reflexivity.
    + assert (1 <= row_count invoice)%nat
        by (unfold row_count; destruct (invoice !! lit "items") as [[| | | | |[|]|]|]; lia).
      simpl. lia.
    + apply Forall_app. split.
      * eapply Forall_impl; [exact Hrow|]. simpl. intros row Hx.
        exists invoice. split; [left; reflexivity | exact Hx].
      * eapply Forall_impl; [exact IH3|]. simpl. intros row (inv & Hin & Hx).
        exists inv. split; [right; exact Hin | exact Hx].
Qed.

Lemma csv_rows_count_witness :
  let pen : pyval := PDict (<[lit "item_name" := PStr (lit "Pen")]> ∅) in
  let ink : pyval := PDict (<[lit "item_name" := PStr (lit "Ink")]> ∅) in
  let invoices : list dict :=
    [ <[lit "items" := PList [pen; ink]]> (<[lit "grand_total" := PInt 120]> ∅);
      <[lit "grand_total" := PInt 80]> ∅ ] in
  let rows := default [] (csv_rows invoices) in
  List.length rows = sum_list (List.map row_count invoices)
  /\ (List.length invoices <= List.length rows)%nat
  /\ Forall (fun row => exists invoice, In invoice invoices /\ row_of invoice row) rows.
Proof.
  intros pen ink invoices rows. subst rows.
  destruct (csv_rows invoices) as [rows|] eqn:E.
  - exact (csv_rows_count invoices rows E).
  - assert (match csv_rows invoices with Some _ => true | None => false end = true)
      as H by (vm_compute; reflexivity).
    rewrite E in H. discriminate H.
Defined.

Lemma find_none_all {A} (p : A -> bool) (l : list A) :
  List.find p l = None -> forall x, In x l -> p x = false.
Proof. intros H x Hx. exact (List.find_none p l H x Hx). Qed.

Lemma find_app_none {A} (p : A -> bool) (l1 l2 : list A) :
  List.find p l1 = None -> List.find p (l1 ++ l2) = List.find p l2.
Proof.
  induction l1 as [|x l1 IH]; simpl; [reflexivity|].
  destruct (p x); [discriminate | exact IH].
Qed.

Lemma find_app_some {A} (p : A -> bool) (l1 l2 : list A) (x : A) :
  List.find p l1 = Some x -> List.find p (l1 ++ l2) = Some x.
Proof.
  induction l1 as [|y l1 IH]; simpl; [discriminate|].
  destruct (p y); [intros H; exact H | exact IH].
Qed.

Lemma find_weaker_none {A} (p q : A -> bool) (l : list A) :
  (forall x, q x = true -> p x = true) ->
  List.find p l = None -> List.find q l = None.
Proof.
  intros Hpq. induction l as [|x l IH]; simpl; [reflexivity|].
  destruct (p x) eqn:Ep; [discriminate|].
  destruct (q x) eqn:Eq; [|exact IH].
  rewrite (Hpq x Eq) in Ep. discriminate Ep.
Qed.

(** What a call that creates the user has checked and written. *)
Lemma create_user_created (now name email aadhaar_number password user_type : str)
    (db db' : database) :
  create_user now name email aadhaar_number password user_type db = (UserCreated, db') ->
  exists hashed_pw,
    hash_password password = Some hashed_pw
    /\ db' = mkDb (users db ++ [mkUser (next_id db) name email aadhaar_number
                                  hashed_pw user_type now]) (next_id db)
    /\ List.find (fun u => bool_decide (u_email u = email)
                           || bool_decide (u_aadhaar_number u = aadhaar_number))
                 (users db) = None
    /\ bindable email = true /\ bindable aadhaar_number = true
    /\ bindable name = true /\ bindable user_type = true
    /\ (next_id db <= max_rowid)%Z.
Proof.
  unfold create_user.
  destruct (bindable email) eqn:Be; [|discriminate].
  destruct (bindable aadhaar_number) eqn:Ba; [|discriminate].
  simpl negb. cbv iota.
  destruct (List.find _ (users db)) eqn:Ef; [discriminate|].
  destruct (hash_password password) as [h|]; [|discriminate].
  destruct (bindable name) eqn:Bn; [|discriminate].
  destruct (bindable user_type) eqn:Bt; [|discriminate].
  simpl negb. cbv iota.
  destruct (Z.ltb_spec max_rowid (next_id db)); [discriminate|].
  intros [= <-]. exists h. repeat split; auto.
Qed.

Lemma create_user_unchanged (now name email aadhaar_number password user_type : str)
    (db : database) :
  fst (create_user now name email aadhaar_number password user_type db) <> UserCreated ->
  snd (create_user now name email aadhaar_number password user_type db) = db.
Proof.
  unfold create_user.
  destruct (negb _); [reflexivity|].
  destruct (List.find _ _); [reflexivity|].
  destruct (hash_password password); [|reflexivity].
  destruct (negb _); [reflexivity|].
  destruct (_ <? _)%Z; [reflexivity|].
  simpl. intros H. contradiction H. reflexivity.
Qed.

Lemma created_user_verifies (now name email aadhaar_number password user_type : str)
    (db db' : database) :
  create_user now name email aadhaar_number password user_type db = (UserCreated, db') ->
  verify_user email password db'
    = Verified (user_dict (users_sequence db') name email aadhaar_number user_type)
  /\ (forall other : str, hash_password other <> hash_password password ->
        forall user, verify_user email other db' <> Verified user).
Proof.
  intros H.
  destruct (create_user_created _ _ _ _ _ _ _ _ H)
    as (h & Hh & -> & Hf & Be & _ & _ & _ & _).
  assert (forall pw : str,
            List.find (fun u => bool_decide (u_email u = email)
                                && bool_decide (u_password u = pw)) (users db) = None)
    as Hold.
  { intros pw. revert Hf. apply find_weaker_none. intros u Hu.
    apply andb_true_iff in Hu as [Hu _]. rewrite Hu. reflexivity. }
  split.
  - unfold verify_user. rewrite Hh, Be. simpl negb. cbv iota. simpl users.
    rewrite (find_app_none _ _ _ (Hold h)). simpl.
    rewrite !bool_decide_eq_true_2 by reflexivity. reflexivity.
  - intros other Ho user. unfold verify_user.
    destruct (hash_password other) as [h'|]; [|discriminate].
    rewrite Be. simpl negb. cbv iota. simpl users.
    rewrite (find_app_none _ _ _ (Hold h')). simpl.
    rewrite bool_decide_eq_true_2 by reflexivity.
    rewrite bool_decide_eq_false_2 by (intros ->; apply Ho; symmetry; exact Hh).
    discriminate.
Qed.

(** X10: an account that [create_user] made signs in with its e-mail address and
    password, as the row with the new key, and with no password of another
    digest. *)
Theorem create_then_verify (now name email aadhaar_number password user_type : str)
    (db db' : database) :
  create_user now name email aadhaar_number password user_type db = (UserCreated, db') ->
  verify_user email password db'
    = Verified (user_dict (users_sequence db') name email aadhaar_number user_type)
  /\ (forall other : str, hash_password other <> hash_password password ->
        forall user, verify_user email other db' <> Verified user).
Proof. apply created_user_verifies. Qed.

Lemma create_then_verify_witness :
  let db' := snd (create_user (lit "2024-01-01 10:00:00") (lit "Asha Rao")
                    (lit "asha@example.com") (lit "123412341234") (lit "s3cret!")
                    (lit "CA") (mkDb [] 0)) in
  verify_user (lit "asha@example.com") (lit "s3cret!") db'
    = Verified (user_dict 1 (lit "Asha Rao") (lit "asha@example.com")
                  (lit "123412341234") (lit "CA"))
  /\ (forall other : str, hash_password other <> hash_password (lit "s3cret!") ->
        forall user, verify_user (lit "asha@example.com") other db' <> Verified user).
Proof.
  apply (create_then_verify (lit "2024-01-01 10:00:00") (lit "Asha Rao")
           (lit "asha@example.com") (lit "123412341234") (lit "s3cret!") (lit "CA")
           (mkDb [] 0)).
  vm_compute. reflexivity.
Defined.

(** X11: [create_user] refuses an e-mail address or an Aadhaar number that a row
    has; a call that creates nothing leaves the table as it was, and one
    that creates adds one row, with the digest of the password, whose e-mail
    address and Aadhaar number no row had. *)
Theorem create_user_duplicate (now name email aadhaar_number password user_type : str)
    (db : database) :
  let r := create_user now name email aadhaar_number password user_type db in
  (forall u, In u (users db) ->
     u_email u = email \/ u_aadhaar_number u = aadhaar_number ->
     bindable email = true -> bindable aadhaar_number = true ->
     r = (UserExists, db))
  /\ (fst r <> UserCreated -> snd r = db)
  /\ (fst r = UserCreated ->
      exists row, users (snd r) = users db ++ [row]
        /\ u_name row = name /\ u_email row = email
        /\ u_aadhaar_number row = aadhaar_number /\ u_user_type row = user_type
        /\ hash_password password = Some (u_password row)
        /\ forall u, In u (users db) ->
             u_email u <> email /\ u_aadhaar_number u <> aadhaar_number).
Proof.
  intros r. split; [|split].
  - intros u Hu Hm Be Ba. subst r. unfold create_user. rewrite Be, Ba.
    simpl negb. cbv iota.
    destruct (List.find _ (users db)) eqn:Ef; [reflexivity|].
    pose proof (find_none_all _ _ Ef u Hu) as Hn. simpl in Hn.
    apply orb_false_iff in Hn as [H1 H2].
    apply bool_decide_eq_false in H1. apply bool_decide_eq_false in H2.
    destruct Hm; contradiction.
  - apply create_user_unchanged.
  - intros Hc. subst r.
    destruct (create_user now name email aadhaar_number password user_type db)
      as [c db'] eqn:E.
    simpl in Hc. subst c.
    destruct (create_user_created _ _ _ _ _ _ _ _ E)
      as (h & Hh & -> & Hf & _).
    eexists. simpl. split; [reflexivity|]. repeat split; try assumption.
    + pose proof (find_none_all _ _ Hf u H) as Hn. simpl in Hn.
      apply orb_false_iff in Hn as [H1 _]. apply bool_decide_eq_false in H1. exact H1.
    + pose proof (find_none_all _ _ Hf u H) as Hn. simpl in Hn.
      apply orb_false_iff in Hn as [_ H2]. apply bool_decide_eq_false in H2. exact H2.
Qed.

Lemma max_bound (s : Z) (l : list Z) :
  (s <= List.fold_right Z.max s l)%Z
  /\ Forall (fun x => (x <= List.fold_right Z.max s l)%Z) l.
Proof.
  induction l as [|x l [IH1 IH2]]; simpl.
  - split; [lia | constructor].
  - split; [lia|]. constructor; [lia|].
    eapply Forall_impl; [exact IH2|]. simpl. intros y Hy. lia.
Qed.

Lemma create_user_consistent (now name email aadhaar_number password user_type : str)
    (db : database) :
  consistent db ->
  consistent (snd (create_user now name email aadhaar_number password user_type db)).
Proof.
  intros Hc.
  destruct (create_user now name email aadhaar_number password user_type db)
    as [c db'] eqn:E.
  destruct c;
    [| pose proof (create_user_unchanged now name email aadhaar_number password
                     user_type db) as Hu; rewrite E in Hu; simpl in *;
       rewrite Hu by discriminate; exact Hc ..].
  destruct (create_user_created _ _ _ _ _ _ _ _ E) as (h & _ & -> & Hf & _).
  destruct Hc as (Hid & Hem & Haa & Hseq). simpl.
  destruct (max_bound (users_sequence db) (List.map u_id (users db))) as [Hs Hall].
  unfold consistent. simpl. rewrite !map_app. simpl.
  assert (forall u, In u (users db) ->
            u_email u <> email /\ u_aadhaar_number u <> aadhaar_number) as Hnew.
  { intros u Hu. pose proof (find_none_all _ _ Hf u Hu) as Hn. simpl in Hn.
    apply orb_false_iff in Hn as [H1 H2].
    apply bool_decide_eq_false in H1. apply bool_decide_eq_false in H2. auto. }
  repeat split.
  - apply NoDup_app. split; [exact Hid|]. split; [|apply NoDup_singleton].
    intros x Hx Hx1. apply list_elem_of_singleton in Hx1. subst x.
    rewrite Forall_forall in Hall. specialize (Hall _ Hx).
    unfold next_id in Hall. lia.
  - apply NoDup_app. split; [exact Hem|]. split; [|apply NoDup_singleton].
    intros x Hx Hx1. apply list_elem_of_singleton in Hx1. subst x.
    apply list_elem_of_In, in_map_iff in Hx as (u & Hu1 & Hu2).
    exact (proj1 (Hnew u Hu2) Hu1).
  - apply NoDup_app. split; [exact Haa|]. split; [|apply NoDup_singleton].
    intros x Hx Hx1. apply list_elem_of_singleton in Hx1. subst x.
    apply list_elem_of_In, in_map_iff in Hx as (u & Hu1 & Hu2).
    exact (proj2 (Hnew u Hu2) Hu1).
  - apply Forall_app. split.
    + eapply Forall_impl; [exact Hseq|]. simpl. intros u Hu.
      unfold next_id. lia.
    + constructor; [simpl; lia | constructor].
Qed.

Lemma create_user_keeps_login (now name email aadhaar_number password user_type : str)
    (db : database) (e p : str) (user : dict) :
  verify_user e p db = Verified user ->
  verify_user e p (snd (create_user now name email aadhaar_number password user_type db))
    = Verified user.
Proof.
  intros Hv.
  destruct (create_user now name email aadhaar_number password user_type db)
    as [c db'] eqn:E.
  destruct c;
    [| pose proof (create_user_unchanged now name email aadhaar_number password
                     user_type db) as Hu; rewrite E in Hu; simpl in *;
       rewrite Hu by discriminate; exact Hv ..].
  destruct (create_user_created _ _ _ _ _ _ _ _ E) as (h & _ & -> & _).
  simpl. revert Hv. unfold verify_user.
  destruct (hash_password p) as [hp|]; [|discriminate].
  destruct (negb (bindable e)); [discriminate|]. simpl users.
  destruct (List.find _ (users db)) as [u|] eqn:Ef; [|discriminate].
  rewrite (find_app_some _ _ _ _ Ef). intros H. exact H.
Qed.

(** X12: whatever calls of [create_user] are made, the keys, the e-mail
    addresses and the Aadhaar numbers of the table stay unique, and whoever
    could sign in still can, as the same user. *)
Theorem accounts_consistent (requests : list request) (db : database) :
  consistent (mkDb [] 0)
  /\ (consistent db -> consistent (create_all requests db))
  /\ (forall (email password : str) (user : dict),
        verify_user email password db = Verified user ->
        verify_user email password (create_all requests db) = Verified user).
Proof.
  split; [|split].
  - unfold consistent. simpl. repeat split; constructor.
  - revert db. induction requests as [|r rs IH]; intros db Hc; simpl; [exact Hc|].
    apply IH. apply create_user_consistent. exact Hc.
  - revert db. induction requests as [|r rs IH]; intros db e p u Hv; simpl; [exact Hv|].
    apply IH. apply create_user_keeps_login. exact Hv.
Qed.

(** X13: a sign-up the form accepts is followed by a sign-in that succeeds; the
    form accepts only a password typed twice, of six characters or more, an
    Aadhaar number of twelve digits and a name and an e-mail address that
    are not empty. *)
Theorem signup_then_signin (now name email aadhaar_number password confirm_password
    user_type : str) (db db' : database) :
  signup now name email aadhaar_number password confirm_password user_type db
    = (Submitted UserCreated, db') ->
  signin email password db'
    = Some (Verified (user_dict (users_sequence db') name email aadhaar_number
                        user_type))
  /\ confirm_password = password
  /\ List.length aadhaar_number = 12%nat
  /\ Forall (fun c => PyText.isdigit_char c = true) aadhaar_number
  /\ (6 <= List.length password)%nat
  /\ name <> [] /\ email <> [].
Proof.
  unfold signup.
  destruct (List.forallb nonempty _) eqn:Hall; [|discriminate].
  destruct (bool_decide (password = confirm_password)) eqn:Hpw; [|discriminate].
  destruct (Nat.eqb (List.length aadhaar_number) 12) eqn:Hlen; [|discriminate].
  destruct (PyText.isdigit aadhaar_number) eqn:Hdig; [|discriminate].
  destruct (Nat.ltb (List.length password) 6) eqn:Hsix; [discriminate|].
  simpl negb. simpl orb. cbv iota.
  destruct (create_user now name email aadhaar_number password user_type db)
    as [c db''] eqn:E.
  intros [= -> ->].
  simpl in Hall. repeat (apply andb_true_iff in Hall as [? Hall]).
  assert (forall s, nonempty s = true -> s <> []) as Hne
    by (intros s Hs ->; discriminate Hs).
  apply bool_decide_eq_true in Hpw. apply Nat.eqb_eq in Hlen.
  apply Nat.ltb_ge in Hsix.
  split; [|split; [|split; [|split; [|split; [|split]]]]].
  - unfold signin.
    rewrite (proj1 (created_user_verifies _ _ _ _ _ _ _ _ E)).
    destruct email; [discriminate|]. destruct password; [discriminate|]. reflexivity.
  - symmetry. exact Hpw.
  - exact Hlen.
  - unfold PyText.isdigit in Hdig. destruct aadhaar_number; [discriminate|].
    apply Forall_forall. intros c Hc. rewrite forallb_forall in Hdig.
    apply Hdig. apply list_elem_of_In. exact Hc.
  - exact Hsix.
  - apply Hne. assumption.
  - apply Hne. assumption.
Qed.

Lemma signup_then_signin_witness :
  let db' := snd (signup (lit "2024-01-01 10:00:00") (lit "Asha Rao")
                    (lit "asha@example.com") (lit "123412341234") (lit "s3cret!")
                    (lit "s3cret!") (lit "CA") (mkDb [] 0)) in
  signin (lit "asha@example.com") (lit "s3cret!") db'
    = Some (Verified (user_dict (users_sequence db') (lit "Asha Rao")
                        (lit "asha@example.com") (lit "123412341234") (lit "CA")))
  /\ lit "s3cret!" = lit "s3cret!"
  /\ List.length (lit "123412341234") = 12%nat
  /\ Forall (fun c => PyText.isdigit_char c = true) (lit "123412341234")
  /\ (6 <= List.length (lit "s3cret!"))%nat
  /\ lit "Asha Rao" <> [] /\ lit "asha@example.com" <> [].
Proof.
  apply (signup_then_signin (lit "2024-01-01 10:00:00") (lit "Asha Rao")
           (lit "asha@example.com") (lit "123412341234") (lit "s3cret!")
           (lit "s3cret!") (lit "CA") (mkDb [] 0)).
  vm_compute. reflexivity.
Defined.

(** Evaluation of the matcher, one constructor at a time, with the tests on
    known characters computed. *)
Ltac eval_tests :=
  repeat match goal with
  | |- context[if ?b then _ else _] =>
      let v := eval vm_compute in b in
      match v with
      | true => change b with true
      | false => change b with false
      end; cbv iota
  end.

Lemma capture_prefix (w rest : str) :
  List.firstn (List.length (w ++ rest) - List.length rest) (w ++ rest) = w.
Proof.
  rewrite length_app.
  replace (List.length w + List.length rest - List.length rest)%nat
    with (List.length w) by lia.
  apply take_app_length.
Qed.

Lemma in_range_cases (lo hi : nat) (n : N) :
  N.of_nat lo <= n <= N.of_nat hi ->
  In n (List.map N.of_nat (List.seq lo (S hi - lo))).
Proof.
  intros H. apply in_map_iff. exists (N.to_nat n). split; [lia|].
  apply in_seq. lia.
Qed.

Lemma day_re_eq :
  day_re =
    Group 1
      (Alt (Alt (Alt (Alt
         (Cat (Chr (N.eqb 51)) (Cat (Chr (in_range "0" "1")) Eps))
         (Cat (Chr (in_range "1" "2")) (Cat (Chr PyStr.isdecimal) Eps)))
         (Cat (Chr (N.eqb 48)) (Cat (Chr (in_range "1" "9")) Eps)))
         (Chr (in_range "1" "9")))
         (Cat (Chr (N.eqb 32)) (Cat (Chr (in_range "1" "9")) Eps))).
Proof. reflexivity. Qed.

Lemma month_re_eq :
  month_re =
    Group 2
      (Alt (Alt
         (Cat (Chr (N.eqb 49)) (Cat (Chr (in_range "0" "2")) Eps))
         (Cat (Chr (N.eqb 48)) (Cat (Chr (in_range "1" "9")) Eps)))
         (Chr (in_range "1" "9"))).
Proof. reflexivity. Qed.

Lemma year_re_eq :
  year_re = Group 3 (Cat (Chr PyStr.isdecimal) (Cat (Chr PyStr.isdecimal)
                    (Cat (Chr PyStr.isdecimal) (Cat (Chr PyStr.isdecimal) Eps)))).
Proof. reflexivity. Qed.

Ltac known_prefix rest :=
  match goal with
  | |- exec _ (?w ++ _) _ _ = _ =>
      let w' := eval vm_compute in w in
      change w with w' in *;
      pose proof (capture_prefix w' rest) as Hc
  end.

Lemma exec_day (d : N) (rest : str) (c : caps) (k : @cont (str * caps)) (v : str * caps) :
  1 <= d <= 31 ->
  k rest ((1%nat, two_digits d) :: c) = Some v ->
  exec day_re (two_digits d ++ rest) c k = Some v.
Proof.
  intros Hd. apply (in_range_cases 1 31) in Hd. simpl in Hd.
  rewrite day_re_eq.
  repeat (destruct Hd as [<- | Hd];
    [ intros Hk; known_prefix rest; cbn [exec app] in *; eval_tests;
      rewrite Hc, Hk; reflexivity | ]).
  contradiction.
Qed.

Lemma exec_month (m : N) (rest : str) (c : caps) (k : @cont (str * caps)) (v : str * caps) :
  1 <= m <= 12 ->
  k rest ((2%nat, two_digits m) :: c) = Some v ->
  exec month_re (two_digits m ++ rest) c k = Some v.
Proof.
  intros Hd. apply (in_range_cases 1 12) in Hd. simpl in Hd.
  rewrite month_re_eq.
  repeat (destruct Hd as [<- | Hd];
    [ intros Hk; known_prefix rest; cbn [exec app] in *; eval_tests;
      rewrite Hc, Hk; reflexivity | ]).
  contradiction.
Qed.

Lemma exec_year (y1 y2 y3 y4 : N) (rest : str) (c : caps) (k : @cont (str * caps))
    (v : str * caps) :
  PyStr.isdecimal y1 = true -> PyStr.isdecimal y2 = true ->
  PyStr.isdecimal y3 = true -> PyStr.isdecimal y4 = true ->
  k rest ((3%nat, [y1; y2; y3; y4]) :: c) = Some v ->
  exec year_re ([y1; y2; y3; y4] ++ rest) c k = Some v.
Proof.
  intros H1 H2 H3 H4 Hk. rewrite year_re_eq.
  pose proof (capture_prefix [y1; y2; y3; y4] rest) as Hc.
  cbn [exec app] in *. rewrite H1, H2, H3, H4, Hc. exact Hk.
Qed.

Lemma exec_lit (x : N) (rest : str) (c : caps) (k : @cont (str * caps)) :
  exec (lit_re x) (x :: rest) c k = k rest c.
Proof. cbn [exec lit_re]. rewrite N.eqb_refl. reflexivity. Qed.

Lemma exec_cat (r1 r2 : regex) (s : str) (c : caps) (k : @cont (str * caps)) :
  exec (Cat r1 r2) s c k = exec r1 s c (fun s' c' => exec r2 s' c' k).
Proof. reflexivity. Qed.

(** A day followed by a hyphen does not match where three characters that
    are no hyphen stand. *)
Lemma day_then_dash_fails (y1 y2 y3 : N) (rest : str) (c : caps)
    (k : @cont (str * caps)) (r : regex) :
  (PyStr.casefold y2 =? PyStr.casefold 45) = false ->
  (PyStr.casefold y3 =? PyStr.casefold 45) = false ->
  exec (Cat day_re (Cat (lit_re 45) r)) (y1 :: y2 :: y3 :: rest) c k = None.
Proof.
  intros H2 H3. rewrite day_re_eq. cbn [exec lit_re]. rewrite H2, H3.
  repeat match goal with
  | |- context[if ?b then _ else _] => destruct b
  end; reflexivity.
Qed.

Lemma ascii_digit_facts (c : N) :
  ascii_digit c ->
  PyStr.isdecimal c = true
  /\ PyStr.decimal_value c = Some (c - 48)
  /\ (PyStr.casefold c =? PyStr.casefold 45) = false
  /\ PyStr.isspace c = false
  /\ int_space c = false
  /\ (c =? 45) = false /\ (c =? 46) = false /\ (c =? 47) = false /\ (c =? 95) = false.
Proof.
  intros H. apply (in_range_cases 48 57) in H. simpl in H.
  repeat (destruct H as [<- | H]; [vm_compute; repeat split; reflexivity|]).
  contradiction.
Qed.

Lemma two_digits_ascii (n : N) :
  n <= 31 -> Forall ascii_digit (two_digits n)
             /\ PyDate.int (two_digits n) = Some (Z.of_N n)
             /\ List.length (two_digits n) = 2%nat.
Proof.
  intros H. assert (N.of_nat 0 <= n <= N.of_nat 31) as H' by lia. clear H.
  rename H' into H. apply (in_range_cases 0 31) in H. simpl in H.
  repeat (destruct H as [<- | H];
    [ split; [|split; vm_compute; reflexivity];
      vm_compute two_digits;
      repeat (constructor; [unfold ascii_digit; lia|]); constructor |]).
  contradiction.
Qed.

Lemma digits_of_four (fuel : nat) (n : N) :
  (4 <= fuel)%nat -> 1000 <= n <= 9999 ->
  digits_of fuel n [] =
    [48 + (n / 10 / 10 / 10) mod 10; 48 + (n / 10 / 10) mod 10; 48 + (n / 10) mod 10;
     48 + n mod 10].
Proof.
  intros Hf Hn.
  destruct fuel as [|[|[|[|fuel]]]]; try lia.
  assert (n / 10 = n / 10) as _ by reflexivity.
  pose proof (N.Div0.div_le_mono 1000 n 10 ltac:(lia)) as A1.
  change (1000 / 10) with 100 in A1.
  pose proof (N.Div0.div_le_mono 100 (n / 10) 10 A1) as A2.
  change (100 / 10) with 10 in A2.
  assert (n / 10 / 10 / 10 < 10) as A3.
  { apply N.Div0.div_lt_upper_bound. apply N.Div0.div_lt_upper_bound.
    apply N.Div0.div_lt_upper_bound. lia. }
  cbn [digits_of].
  destruct (N.ltb_spec n 10); [lia|].
  destruct (N.ltb_spec (n / 10) 10); [lia|].
  destruct (N.ltb_spec (n / 10 / 10) 10); [lia|].
  destruct (N.ltb_spec (n / 10 / 10 / 10) 10); [reflexivity | lia].
Qed.

Lemma log2_year (n : N) : 1000 <= n -> (4 <= S (N.to_nat (N.log2 n)))%nat.
Proof.
  intros H. pose proof (N.log2_le_mono 1000 n H) as L.
  change (N.log2 1000) with 9 in L. lia.
Qed.

Lemma year_digits (y : N) :
  1000 <= y <= 9999 ->
  exists y1 y2 y3 y4 : N,
    str_of_N y = [y1; y2; y3; y4]
    /\ ascii_digit y1 /\ ascii_digit y2 /\ ascii_digit y3 /\ ascii_digit y4
    /\ PyDate.int [y1; y2; y3; y4] = Some (Z.of_N y).
Proof.
  intros Hy. unfold str_of_N.
  rewrite (digits_of_four _ y (log2_year y (proj1 Hy)) Hy).
  set (q3 := (y / 10 / 10 / 10) mod 10). set (q2 := (y / 10 / 10) mod 10).
  set (q1 := (y / 10) mod 10). set (q0 := y mod 10).
  assert (q3 < 10 /\ q2 < 10 /\ q1 < 10 /\ q0 < 10) as (B3 & B2 & B1 & B0)
    by (repeat split; apply N.mod_lt; lia).
  assert (y = 10 * (10 * (10 * q3 + q2) + q1) + q0) as Hv.
  { subst q3 q2 q1 q0.
    assert (y / 10 / 10 / 10 < 10) as A3.
    { apply N.Div0.div_lt_upper_bound. apply N.Div0.div_lt_upper_bound.
      apply N.Div0.div_lt_upper_bound. lia. }
    rewrite (N.mod_small (y / 10 / 10 / 10) 10 A3).
    rewrite <- (N.div_mod' (y / 10 / 10) 10).
    rewrite <- (N.div_mod' (y / 10) 10).
    apply N.div_mod'. }
  exists (48 + q3), (48 + q2), (48 + q1), (48 + q0).
  assert (forall q, q < 10 -> ascii_digit (48 + q)) as Hd
    by (intros q Hq; unfold ascii_digit; lia).
  split; [reflexivity|]. repeat (split; [apply Hd; assumption|]).
  destruct (ascii_digit_facts _ (Hd q3 B3)) as (_ & D3 & _ & _ & S3 & M3 & _).
  destruct (ascii_digit_facts _ (Hd q2 B2)) as (_ & D2 & _).
  destruct (ascii_digit_facts _ (Hd q1 B1)) as (_ & D1 & _).
  destruct (ascii_digit_facts _ (Hd q0 B0)) as (_ & D0 & _ & _ & S0 & _).
  unfold PyDate.int, PyStr.strip_by. cbn [PyStr.lstrip_by].
  rewrite S3. cbn [List.rev app PyStr.lstrip_by]. rewrite S0.
  cbn [List.rev app]. rewrite M3.
  assert ((48 + q3 =? 43) = false) as -> by (apply N.eqb_neq; lia).
  cbn [digits_value]. rewrite D3, D2, D1, D0. cbn [digits_value option_map].
  f_equal. lia.
Qed.

(** *** Cleaning a date made of digits and separators *)

Lemma map_digits (o n : N) (w : str) :
  Forall ascii_digit w -> (o =? 45) || (o =? 46) || (o =? 47) = true ->
  List.map (fun c => if o =? c then n else c) w = w.
Proof.
  intros Hw Ho. induction Hw as [|x w Hx _ IH]; [reflexivity|].
  simpl. rewrite IH. f_equal.
  destruct (ascii_digit_facts x Hx) as (_ & _ & _ & _ & _ & E1 & E2 & E3 & _).
  destruct (N.eqb_spec o x) as [-> | _]; [|reflexivity].
  rewrite E1, E2, E3 in Ho. discriminate Ho.
Qed.

Lemma strip_plain (s : str) (x z : N) (t : str) :
  s = x :: t -> List.last s x = z ->
  PyStr.isspace x = false -> PyStr.isspace z = false ->
  PyStr.strip s = s.
Proof.
  intros Hs Hl Hx Hz. unfold PyStr.strip, PyStr.strip_by.
  assert (PyStr.lstrip_by PyStr.isspace s = s) as ->.
  { rewrite Hs. simpl. rewrite Hx. reflexivity. }
  assert (exists u, List.rev s = z :: u) as [u Hu].
  { destruct (exists_last (l := s)) as (u & z' & Hu); [rewrite Hs; discriminate|].
    rewrite Hu in Hl. rewrite last_last in Hl. subst z'.
    exists (List.rev u). rewrite Hu, rev_app_distr. reflexivity. }
  rewrite Hu. simpl. rewrite Hz. rewrite <- Hu. apply rev_involutive.
Qed.

(** A text of three runs of digits with a separator between them, cleaned:
    the separator becomes a hyphen. *)
Lemma clean_date_fields (sep : N) (a b c : str) :
  (sep =? 45) || (sep =? 46) || (sep =? 47) = true ->
  Forall ascii_digit a -> Forall ascii_digit b -> Forall ascii_digit c ->
  a <> [] -> c <> [] ->
  clean_date (a ++ [sep] ++ b ++ [sep] ++ c) = a ++ [45] ++ b ++ [45] ++ c.
Proof.
  intros Hsep Ha Hb Hc Hna Hnc. unfold clean_date.
  assert (PyStr.strip (a ++ [sep] ++ b ++ [sep] ++ c) = a ++ [sep] ++ b ++ [sep] ++ c)
    as ->.
  { destruct a as [|x a]; [contradiction|].
    destruct (exists_last Hnc) as (c' & z & ->).
    apply (strip_plain _ x z (a ++ [sep] ++ b ++ [sep] ++ c' ++ [z])).
    - reflexivity.
    - replace ((x :: a) ++ [sep] ++ b ++ [sep] ++ c' ++ [z])
        with (((x :: a) ++ [sep] ++ b ++ [sep] ++ c') ++ [z])
        by (rewrite <- !app_assoc; reflexivity).
      apply last_last.
    - apply Forall_cons_1 in Ha as [Hx _].
      exact (proj1 (proj2 (proj2 (proj2 (ascii_digit_facts x Hx))))).
    - apply Forall_app in Hc as [_ Hz]. apply Forall_cons_1 in Hz as [Hz _].
      exact (proj1 (proj2 (proj2 (proj2 (ascii_digit_facts z Hz))))). }
  change (lit "/") with [47]. change (lit ".") with [46]. change (lit "-") with [45].
  rewrite !replace_one_char.
  assert (forall (o : N) (x : N),
            (o =? 45) || (o =? 46) || (o =? 47) = true ->
            List.map (fun c => if o =? c then 45 else c) (a ++ [x] ++ b ++ [x] ++ c)
              = a ++ [if o =? x then 45 else x] ++ b ++ [if o =? x then 45 else x] ++ c)
    as Hmap.
  { intros o x Ho. rewrite !map_app.
    rewrite (map_digits o 45 a Ha Ho), (map_digits o 45 b Hb Ho),
      (map_digits o 45 c Hc Ho). reflexivity. }
  rewrite (Hmap 47 sep eq_refl), (Hmap 46 _ eq_refl).
  assert ((if 46 =? (if 47 =? sep then 45 else sep) then 45
           else if 47 =? sep then 45 else sep) = 45) as ->; [|reflexivity].
  apply orb_true_iff in Hsep as [Hsep | Hsep];
    [apply orb_true_iff in Hsep as [Hsep | Hsep]|];
    apply N.eqb_eq in Hsep; subst sep; reflexivity.
Qed.

(** *** The formats that read a date of digits *)

Lemma dmy_pattern :
  format_regex (parse_format false (lit "%d-%m-%Y"))
    = Some (Cat day_re (Cat (lit_re 45) (Cat month_re (Cat (lit_re 45) (Cat year_re Eps))))).
Proof. reflexivity. Qed.

Lemma ymd_pattern :
  format_regex (parse_format false (lit "%Y-%m-%d"))
    = Some (Cat year_re (Cat (lit_re 45) (Cat month_re (Cat (lit_re 45) (Cat day_re Eps))))).
Proof. reflexivity. Qed.

Lemma dmy2_pattern :
  format_regex (parse_format false (lit "%d-%m-%y"))
    = Some (Cat day_re (Cat (lit_re 45) (Cat month_re (Cat (lit_re 45) (Cat year2_re Eps))))).
Proof. reflexivity. Qed.

Lemma valid_date_bounds (y m d : N) :
  valid_date y m d = true ->
  1 <= y <= 9999 /\ 1 <= m <= 12 /\ 1 <= d <= 31.
Proof.
  unfold valid_date. intros H.
  repeat (apply andb_true_iff in H as [H ?]).
  repeat match goal with H : (_ <=? _) = true |- _ => apply N.leb_le in H end.
  assert (days_in_month y m <= 31).
  { assert (N.of_nat 1 <= m <= N.of_nat 12) as Hm by lia.
    apply (in_range_cases 1 12) in Hm. vm_compute in Hm.
    repeat (destruct Hm as [<- | Hm];
      [unfold days_in_month; destruct (is_leap y); lia|]).
    contradiction. }
  lia.
Qed.

(** What the formats make of the groups of a date in digits. *)
Lemma strptime_groups (data : str) (format : string) (pattern : regex)
    (y m d : N) (ys ms ds : str) :
  format_regex (parse_format false (lit format)) = Some pattern ->
  exec pattern data [] (fun rest found => Some (rest, found))
    = Some ([], [(1%nat, ds); (2%nat, ms); (3%nat, ys)])
    \/ exec pattern data [] (fun rest found => Some (rest, found))
    = Some ([], [(3%nat, ys); (2%nat, ms); (1%nat, ds)]) ->
  PyDate.int ys = Some (Z.of_N y) -> PyDate.int ms = Some (Z.of_N m) ->
  PyDate.int ds = Some (Z.of_N d) ->
  valid_date y m d = true ->
  strptime data format = Some (mkDate y m d).
Proof.
  intros Hp He Hy Hm Hd Hv. unfold strptime. rewrite Hp.
  destruct He as [-> | ->]; cbn [group Nat.eqb]; rewrite Hy, Hm, Hd;
    cbn [mbind option_bind]; rewrite !N2Z.id, Hv; reflexivity.
Qed.

Lemma strptime_dmy (d : date) :
  valid_date (year d) (month d) (day d) = true -> 1000 <= year d ->
  strptime (dmy_text 45 d) "%d-%m-%Y" = Some d.
Proof.
  destruct d as [y m d]. simpl year. simpl month. simpl day. intros Hv Hy.
  destruct (valid_date_bounds _ _ _ Hv) as (By & Bm & Bd).
  destruct (year_digits y ltac:(lia)) as (y1 & y2 & y3 & y4 & Ey & D1 & D2 & D3 & D4 & Iy).
  destruct (two_digits_ascii m ltac:(lia)) as (_ & Im & _).
  destruct (two_digits_ascii d ltac:(lia)) as (_ & Id & _).
  apply (strptime_groups _ _ _ y m d [y1; y2; y3; y4] (two_digits m) (two_digits d)
           dmy_pattern); try assumption.
  right. unfold dmy_text. simpl year. simpl month. simpl day. rewrite Ey.
  rewrite exec_cat. apply exec_day; [exact Bd|].
  rewrite exec_cat. change ([45] ++ ?x) with (45 :: x). rewrite exec_lit.
  rewrite exec_cat. apply exec_month; [exact Bm|].
  rewrite exec_cat. change ([45] ++ ?x) with (45 :: x). rewrite exec_lit.
  rewrite exec_cat. change [y1; y2; y3; y4] with ([y1; y2; y3; y4] ++ []) at 1.
  apply exec_year; try (apply ascii_digit_facts; assumption).
  reflexivity.
Qed.

Lemma strptime_ymd (d : date) :
  valid_date (year d) (month d) (day d) = true -> 1000 <= year d ->
  strptime (ymd_text 45 d) "%d-%m-%Y" = None
  /\ strptime (ymd_text 45 d) "%d-%m-%y" = None
  /\ strptime (ymd_text 45 d) "%Y-%m-%d" = Some d.
Proof.
  destruct d as [y m d]. simpl year. simpl month. simpl day. intros Hv Hy.
  destruct (valid_date_bounds _ _ _ Hv) as (By & Bm & Bd).
  destruct (year_digits y ltac:(lia)) as (y1 & y2 & y3 & y4 & Ey & D1 & D2 & D3 & D4 & Iy).
  destruct (two_digits_ascii m ltac:(lia)) as (_ & Im & _).
  destruct (two_digits_ascii d ltac:(lia)) as (_ & Id & _).
  unfold ymd_text. simpl year. simpl month. simpl day. rewrite Ey.
  destruct (ascii_digit_facts y2 D2) as (_ & _ & C2 & _).
  destruct (ascii_digit_facts y3 D3) as (_ & _ & C3 & _).
  split; [|split].
  - unfold strptime. rewrite dmy_pattern.
    cbn [app]. rewrite (day_then_dash_fails y1 y2 y3 _ _ _ _ C2 C3). reflexivity.
  - unfold strptime. rewrite dmy2_pattern.
    cbn [app]. rewrite (day_then_dash_fails y1 y2 y3 _ _ _ _ C2 C3). reflexivity.
  - apply (strptime_groups _ _ _ y m d [y1; y2; y3; y4] (two_digits m) (two_digits d)
             ymd_pattern); try assumption.
    left.
    rewrite exec_cat. apply exec_year; try (apply ascii_digit_facts; assumption).
    rewrite exec_cat. change ([45] ++ ?x) with (45 :: x). rewrite exec_lit.
    rewrite exec_cat. apply exec_month; [exact Bm|].
    rewrite exec_cat. change ([45] ++ ?x) with (45 :: x). rewrite exec_lit.
    rewrite exec_cat.
    pose proof (exec_day d [] [(2%nat, two_digits m); (3%nat, [y1; y2; y3; y4])]
                  (fun s' c' => exec Eps s' c' (fun rest found => Some (rest, found)))
                  _ Bd eq_refl) as Hd.
    rewrite app_nil_r in Hd. exact Hd.
Qed.

Lemma date_fields_ascii (d : date) :
  valid_date (year d) (month d) (day d) = true -> 1000 <= year d ->
  Forall ascii_digit (str_of_N (year d)) /\ Forall ascii_digit (two_digits (month d))
  /\ Forall ascii_digit (two_digits (day d))
  /\ str_of_N (year d) <> [] /\ two_digits (day d) <> [].
Proof.
  intros Hv Hy. destruct (valid_date_bounds _ _ _ Hv) as (By & Bm & Bd).
  destruct (year_digits (year d) ltac:(lia))
    as (y1 & y2 & y3 & y4 & -> & D1 & D2 & D3 & D4 & _).
  destruct (two_digits_ascii (month d) ltac:(lia)) as (Am & _ & _).
  destruct (two_digits_ascii (day d) ltac:(lia)) as (Ad & _ & Ld).
  repeat split; try assumption.
  - repeat (constructor; [assumption|]). constructor.
  - discriminate.
  - intros E. rewrite E in Ld. discriminate Ld.
Qed.

(** X14: a date written day first in digits, with dashes, dots or slashes, comes
    out of [format_date_to_ymd] as year, month and day with dots. *)
Theorem format_date_day_first (sep : N) (d : date) :
  valid_date (year d) (month d) (day d) = true -> 1000 <= year d ->
  sep = 45 \/ sep = 46 \/ sep = 47 ->
  format_date_to_ymd (PStr (dmy_text sep d)) = PStr (strftime_ymd d).
Proof.
  intros Hv Hy Hsep.
  destruct (date_fields_ascii d Hv Hy) as (Ay & Am & Ad & Ny & Nd).
  unfold format_date_to_ymd, dmy_text.
  rewrite clean_date_fields; try assumption.
  - change (two_digits (day d) ++ [45] ++ two_digits (month d) ++ [45]
              ++ str_of_N (year d)) with (dmy_text 45 d).
    unfold formats_to_try. cbn [first_parse].
    rewrite (strptime_dmy d Hv Hy). reflexivity.
  - destruct Hsep as [-> | [-> | ->]]; reflexivity.
Qed.

(** X15: a date written year first in digits comes out of [format_date_to_ymd]
    with dots, and formatting the result once more changes nothing. *)
Theorem format_date_year_first (sep : N) (d : date) :
  valid_date (year d) (month d) (day d) = true -> 1000 <= year d ->
  sep = 45 \/ sep = 46 \/ sep = 47 ->
  format_date_to_ymd (PStr (ymd_text sep d)) = PStr (strftime_ymd d)
  /\ format_date_to_ymd (format_date_to_ymd (PStr (ymd_text sep d)))
       = format_date_to_ymd (PStr (ymd_text sep d)).
Proof.
  intros Hv Hy Hsep.
  destruct (date_fields_ascii d Hv Hy) as (Ay & Am & Ad & Ny & Nd).
  assert (forall sep', sep' = 45 \/ sep' = 46 \/ sep' = 47 ->
            format_date_to_ymd (PStr (ymd_text sep' d)) = PStr (strftime_ymd d)) as H.
  { intros sep' Hs. unfold format_date_to_ymd, ymd_text.
    rewrite clean_date_fields; try assumption.
    - change (str_of_N (year d) ++ [45] ++ two_digits (month d) ++ [45]
                ++ two_digits (day d)) with (ymd_text 45 d).
      unfold formats_to_try. cbn [first_parse].
      destruct (strptime_ymd d Hv Hy) as (-> & -> & ->). reflexivity.
    - destruct Hs as [-> | [-> | ->]]; reflexivity. }
  split; [exact (H sep Hsep)|].
  rewrite (H sep Hsep). exact (H 46 (or_intror (or_introl eq_refl))).
Qed.

Lemma format_date_day_first_witness :
  format_date_to_ymd (PStr (lit "29/02/2024")) = PStr (lit "2024.02.29").
Proof.
  apply (format_date_day_first 47 (mkDate 2024 2 29)).
  - vm_compute. reflexivity.
  - vm_compute. discriminate.
  - right. right. reflexivity.
Defined.

Lemma format_date_year_first_witness :
  format_date_to_ymd (PStr (lit "2024-02-29")) = PStr (lit "2024.02.29")
  /\ format_date_to_ymd (format_date_to_ymd (PStr (lit "2024-02-29")))
       = format_date_to_ymd (PStr (lit "2024-02-29")).
Proof.
  apply (format_date_year_first 45 (mkDate 2024 2 29)).
  - vm_compute. reflexivity.
  - vm_compute. discriminate.
  - left. reflexivity.
Defined.

Lemma extract_upload_record (json_loads : str -> option pyval) (f : upload) :
  Py.truthy (extract_upload json_loads f) = false
  \/ exists d, extract_upload json_loads f = PDict d /\ is_Some (d !! lit "items").
Proof.
  unfold extract_upload. destruct (upload_text f) as [text|]; [|left; reflexivity].
  exact (extract_result_cases json_loads text (upload_reply f) (upload_name f)).
Qed.

(** The loop never raises: what is true of the extracted data is a
    dictionary. *)
Lemma extract_all_records (json_loads : str -> option pyval) (files : list upload) :
  exists records : list dict,
    extract_all json_loads files = Some records
    /\ (List.length records <= List.length files)%nat
    /\ Forall (fun d => is_Some (d !! lit "items")
                        /\ exists f, In f files
                             /\ d !! lit "file_name" = Some (PStr (upload_name f)))
              records.
Proof.
  induction files as [|f files (records & IH & Hlen & Hall)].
  - exists []. repeat split; [simpl; lia | constructor].
  - cbn [extract_all].
    assert (Forall (fun d => is_Some (d !! lit "items")
                        /\ exists f', In f' (f :: files)
                             /\ d !! lit "file_name" = Some (PStr (upload_name f')))
              records) as Hall'.
    { eapply Forall_impl; [exact Hall|]. simpl.
      intros d (Hi & f' & Hf' & Hn). split; [exact Hi|]. exists f'. auto. }
    destruct (extract_upload_record json_loads f) as [Hf | (d & Hd & Hi)].
    + rewrite Hf. exists records. repeat split; [exact IH | simpl; lia | exact Hall'].
    + rewrite Hd. destruct (Py.truthy (PDict d)).
      * rewrite IH. simpl. eexists. split; [reflexivity|]. split; [simpl; lia|].
        constructor; [|exact Hall']. split.
        -- rewrite lookup_insert_ne by key_neq. exact Hi.
        -- exists f. split; [left; reflexivity|]. apply lookup_insert_eq.
      * exists records. repeat split; [exact IH | simpl; lia | exact Hall'].
Qed.

(** *** The manual verification *)

Lemma list_item_nat (l : list dict) (n : nat) :
  list_item l (Z.of_nat n) = l !! n.
Proof.
  unfold list_item. destruct (Z.leb_spec 0 (Z.of_nat n)); [|lia].
  rewrite Nat2Z.id. reflexivity.
Qed.

Lemma handle_in_step (c : click) (s s' : session) :
  in_step s -> handle c s = Some s' ->
  in_step s'
  /\ all_extracted_data s' = all_extracted_data s
  /\ extraction_complete s' = extraction_complete s.
Proof.
  intros (l & Hv & Hi & Hlen & Hnames). unfold handle.
  destruct (negb _); [discriminate|].
  rewrite Hi, list_item_nat.
  destruct (all_extracted_data s !! List.length l) as [current_data|] eqn:Ec;
    [|discriminate].
  cbn [mbind option_bind].
  destruct (current_data !! lit "file_name") as [current_file|] eqn:Ef;
    [|discriminate].
  cbn [mbind option_bind].
  assert (forall x : dict, x !! lit "file_name" = Some current_file ->
            in_step (set_index (current_file_index (append_verified x s) + 1)
                       (append_verified x s))
            /\ all_extracted_data (set_index (current_file_index (append_verified x s) + 1)
                                     (append_verified x s))
               = all_extracted_data s
            /\ extraction_complete (set_index (current_file_index (append_verified x s) + 1)
                                      (append_verified x s))
               = extraction_complete s) as Happ.
  { intros x Hx. unfold append_verified. rewrite Hv. cbn [set_index all_extracted_data verified current_file_index extraction_complete].
    split; [|split; reflexivity].
    exists (l ++ [x]). cbn [set_index all_extracted_data verified current_file_index extraction_complete]. split; [reflexivity|].
    apply lookup_lt_Some in Ec as Hlt.
    split; [rewrite Hi, length_app; simpl; lia|].
    split; [rewrite length_app; simpl; lia|].
    intros i d Hd. apply lookup_app_Some in Hd as [Hd | [Hge Hd]].
    - exact (Hnames i d Hd).
    - apply list_lookup_singleton_Some in Hd as [Hz Hxd].
      assert (i = List.length l) as -> by lia.
      exists current_data. split; [exact Ec|]. rewrite <- Hxd, Hx, Ef. reflexivity. }
  destruct c as [values | |].
  - intros [= <-]. apply Happ.
    unfold py_dict. cbn [List.fold_left fst snd].
    repeat (rewrite lookup_insert_ne by key_neq). apply lookup_insert_eq.
  - intros [= <-]. apply Happ. exact Ef.
  - destruct (Z.ltb_spec 0 (Z.of_nat (List.length l))) as [Hpos|]; [|discriminate].
    intros [= <-]. unfold pop_verified, set_index. cbn [set_index all_extracted_data verified current_file_index extraction_complete]. rewrite Hv. cbn [set_index all_extracted_data verified current_file_index extraction_complete].
    split; [|split; reflexivity].
    exists (List.removelast l). cbn [set_index all_extracted_data verified current_file_index extraction_complete]. split; [reflexivity|].
    destruct (exists_last (l := l)) as (l0 & z & ->);
      [intros ->; simpl in Hpos; lia|].
    rewrite removelast_last. rewrite length_app in *. simpl in *.
    split; [lia|]. split; [lia|].
    intros i d Hd. apply (Hnames i d).
    apply lookup_app_l_Some. exact Hd.
Qed.

Lemma handle_all_in_step (clicks : list click) (s s' : session) :
  in_step s -> handle_all clicks s = Some s' ->
  in_step s'
  /\ all_extracted_data s' = all_extracted_data s
  /\ extraction_complete s' = extraction_complete s.
Proof.
  revert s. induction clicks as [|c clicks IH]; intros s Hs; simpl.
  - intros [= <-]. auto.
  - destruct (handle c s) as [s1|] eqn:E; [|discriminate]. simpl.
    destruct (handle_in_step c s s1 Hs E) as (H1 & H2 & H3).
    intros H. destruct (IH s1 H1 H) as (H4 & H5 & H6).
    split; [exact H4|]. split; congruence.
Qed.

(** X16: after an extraction with manual verification, whatever is clicked, the
    extracted records are unchanged and the verified list holds one record
    for each file before the current one, under its file name. *)
Theorem manual_verification_in_step (records : list dict) (clicks : list click)
    (s : session) :
  handle_all clicks (extraction_button true records) = Some s ->
  in_step s
  /\ all_extracted_data s = records
  /\ List.length (verified_invoices s) = Z.to_nat (current_file_index s)
  /\ (0 <= current_file_index s <= Z.of_nat (List.length records))%Z.
Proof.
  intros H.
  assert (in_step (extraction_button true records)
          /\ all_extracted_data (extraction_button true records) = records) as [H0 Ha].
  { destruct records as [|r records]; simpl.
    - split; [|reflexivity]. exists []. simpl.
      repeat split; try lia. intros i d Hd. rewrite lookup_nil in Hd. discriminate Hd.
    - split; [|reflexivity]. exists []. simpl.
      repeat split; try lia. intros i d Hd. rewrite lookup_nil in Hd. discriminate Hd. }
  destruct (handle_all_in_step clicks _ s H0 H) as (H1 & H2 & _).
  split; [exact H1|]. rewrite H2, Ha. split; [reflexivity|].
  destruct H1 as (l & Hv & Hi & Hlen & _).
  unfold verified_invoices. rewrite Hv, Hi. rewrite H2, Ha in Hlen.
  split; lia.
Qed.

(** *** The verification of a batch that was shown without it *)

Lemma handle_alias (records : list dict) (c : click) (s s' : session) :
  (exists extra : list dict,
     verified s = Alias /\ all_extracted_data s = records ++ extra
     /\ current_file_index s = Z.of_nat (List.length extra)) ->
  handle c s = Some s' ->
  exists extra : list dict,
    verified s' = Alias /\ all_extracted_data s' = records ++ extra
    /\ current_file_index s' = Z.of_nat (List.length extra).
Proof.
  intros (extra & Hv & Ha & Hi). unfold handle.
  destruct (negb _); [discriminate|].
  destruct (list_item _ _) as [current_data|]; [|discriminate].
  cbn [mbind option_bind].
  destruct (current_data !! lit "file_name") as [current_file|]; [|discriminate].
  cbn [mbind option_bind].
  assert (forall x : dict,
            exists extra' : list dict,
              verified (set_index (current_file_index (append_verified x s) + 1)
                          (append_verified x s)) = Alias
              /\ all_extracted_data (set_index (current_file_index (append_verified x s) + 1)
                                       (append_verified x s)) = records ++ extra'
              /\ current_file_index (set_index (current_file_index (append_verified x s) + 1)
                                       (append_verified x s))
                 = Z.of_nat (List.length extra')) as Happ.
  { intros x. unfold append_verified. rewrite Hv.
    cbn [set_index all_extracted_data verified current_file_index extraction_complete].
    exists (extra ++ [x]). split; [reflexivity|].
    split; [rewrite Ha, app_assoc; reflexivity|].
    rewrite Hi, length_app. simpl. lia. }
  destruct c as [values | |].
  - intros [= <-]. apply Happ.
  - intros [= <-]. apply Happ.
  - rewrite Hi. destruct (Z.ltb_spec 0 (Z.of_nat (List.length extra))) as [Hpos|];
      [|discriminate].
    intros [= <-]. unfold pop_verified, set_index.
    cbn [set_index all_extracted_data verified current_file_index extraction_complete].
    rewrite Hv.
    cbn [set_index all_extracted_data verified current_file_index extraction_complete].
    destruct (exists_last (l := extra)) as (e0 & z & ->);
      [intros ->; simpl in Hpos; lia|].
    exists e0. split; [reflexivity|]. split.
    + rewrite Ha, app_assoc, removelast_last. reflexivity.
    + rewrite length_app. simpl. lia.
Qed.

(** X17: after an extraction without manual verification the verified list is
    the list of extracted records itself: every record the verification
    adds is added to the batch, and the index never reaches its end. *)
Theorem shared_list_never_completes (records : list dict) (clicks : list click)
    (s : session) :
  records <> [] ->
  handle_all clicks (extraction_button false records) = Some s ->
  verified s = Alias
  /\ (exists extra : list dict,
        all_extracted_data s = records ++ extra
        /\ current_file_index s = Z.of_nat (List.length extra))
  /\ verified_invoices s = all_extracted_data s
  /\ (current_file_index s < Z.of_nat (List.length (all_extracted_data s)))%Z.
Proof.
  intros Hne H.
  assert (exists extra : list dict,
            verified s = Alias /\ all_extracted_data s = records ++ extra
            /\ current_file_index s = Z.of_nat (List.length extra))
    as (extra & Hv & Ha & Hi).
  { revert H.
    assert (exists extra : list dict,
              verified (extraction_button false records) = Alias
              /\ all_extracted_data (extraction_button false records) = records ++ extra
              /\ current_file_index (extraction_button false records)
                 = Z.of_nat (List.length extra)) as H0.
    { exists []. destruct records; [contradiction|]. simpl.
      rewrite app_nil_r. auto. }
    revert H0. generalize (extraction_button false records).
    induction clicks as [|c clicks IH]; intros s0 H0; simpl.
    - intros [= <-]. exact H0.
    - destruct (handle c s0) as [s1|] eqn:E; [|discriminate]. simpl.
      apply IH. exact (handle_alias records c s0 s1 H0 E). }
  split; [exact Hv|]. split; [eauto|].
  split; [unfold verified_invoices; rewrite Hv; reflexivity|].
  rewrite Hi, Ha, length_app.
  destruct records; [contradiction|]. simpl. lia.
Qed.

Lemma shared_list_never_completes_witness :
  let record : dict := <[lit "file_name" := PStr (lit "a.pdf")]> ∅ in
  exists s,
    handle_all [SkipClick; SkipClick] (extraction_button false [record]) = Some s
    /\ verified s = Alias
    /\ (exists extra : list dict,
          all_extracted_data s = [record] ++ extra
          /\ current_file_index s = Z.of_nat (List.length extra))
    /\ verified_invoices s = all_extracted_data s
    /\ (current_file_index s < Z.of_nat (List.length (all_extracted_data s)))%Z.
Proof.
  intros record. eexists. split; [vm_compute; reflexivity|].
  apply (shared_list_never_completes [record] [SkipClick; SkipClick]);
    [discriminate | vm_compute; reflexivity].
Defined.

Lemma manual_verification_in_step_witness :
  let a : dict := <[lit "file_name" := PStr (lit "a.pdf")]> ∅ in
  let b : dict := <[lit "file_name" := PStr (lit "b.pdf")]> ∅ in
  exists s,
    handle_all [SkipClick; PreviousClick; SkipClick] (extraction_button true [a; b])
      = Some s
    /\ in_step s
    /\ all_extracted_data s = [a; b]
    /\ List.length (verified_invoices s) = Z.to_nat (current_file_index s)
    /\ (0 <= current_file_index s <= Z.of_nat (List.length [a; b]))%Z.
Proof.
  intros a b. eexists. split; [vm_compute; reflexivity|].
  apply (manual_verification_in_step [a; b] [SkipClick; PreviousClick; SkipClick]).
  vm_compute. reflexivity.
Defined.

Ltac other_key := let E := fresh "E" in intro E; vm_compute in E; discriminate E.

Lemma signed_in_insert (v : pyval) (s : dict) :
  signed_in (<[lit "authenticated" := v]> s) = Py.truthy v.
Proof. unfold signed_in, Py.get. now rewrite lookup_insert_eq. Qed.

Lemma signed_in_insert_ne (k : str) (v : pyval) (s : dict) :
  k <> lit "authenticated" -> signed_in (<[k := v]> s) = signed_in s.
Proof.
  intros Hk. unfold signed_in, Py.get.
  rewrite lookup_insert_ne by congruence. reflexivity.
Qed.

Lemma on_page_insert (name : string) (p : str) (s : dict) :
  on_page name (<[lit "current_page" := PStr p]> s) = bool_decide (p = lit name).
Proof. unfold on_page, Py.get. now rewrite lookup_insert_eq. Qed.

Lemma on_page_insert_ne (name : string) (k : str) (v : pyval) (s : dict) :
  k <> lit "current_page" -> on_page name (<[k := v]> s) = on_page name s.
Proof.
  intros Hk. unfold on_page, Py.get.
  rewrite lookup_insert_ne by congruence. reflexivity.
Qed.

Lemma set_default_present (k : string) (v : pyval) (s : dict) :
  is_Some (s !! lit k) -> set_default k v s = s.
Proof. intros [w Hw]. unfold set_default. now rewrite Hw. Qed.

Lemma set_default_cases (k : string) (v : pyval) (s : dict) :
  set_default k v s = s
  \/ (s !! lit k = None /\ set_default k v s = <[lit k := v]> s).
Proof. unfold set_default. destruct (s !! lit k); auto. Qed.

Lemma on_page_present (name : string) (s : dict) :
  on_page name s = true -> is_Some (s !! lit "current_page").
Proof.
  unfold on_page, Py.get. destruct (s !! lit "current_page"); eauto.
  discriminate.
Qed.

Lemma signed_in_present (s : dict) :
  signed_in s = true -> is_Some (s !! lit "authenticated").
Proof.
  unfold signed_in, Py.get. destruct (s !! lit "authenticated"); eauto.
  discriminate.
Qed.

Lemma on_page_one (a b : string) (s : dict) :
  on_page a s = true -> on_page b s = true -> lit a = lit b.
Proof.
  unfold on_page, Py.eq_str. destruct (Py.get s _); try discriminate.
  intros Ha Hb. apply bool_decide_eq_true in Ha, Hb. congruence.
Qed.

Lemma signed_in_main_init (s : dict) : signed_in (main_init s) = signed_in s.
Proof.
  unfold main_init.
  destruct (set_default_cases "authenticated" (PBool false)
              (set_default "current_page" (PStr (lit "landing")) s))
    as [-> | [Hn ->]].
  - destruct (set_default_cases "current_page" (PStr (lit "landing")) s)
      as [-> | [_ ->]]; [reflexivity|].
    apply signed_in_insert_ne. other_key.
  - rewrite signed_in_insert.
    destruct (set_default_cases "current_page" (PStr (lit "landing")) s)
      as [E | [_ E]]; rewrite E in Hn.
    + unfold signed_in, Py.get. now rewrite Hn.
    + rewrite lookup_insert_ne in Hn by other_key.
      unfold signed_in, Py.get. now rewrite Hn.
Qed.

Lemma main_init_keys (s : dict) (k : str) :
  is_Some (main_init s !! k) ->
  k = lit "current_page" \/ k = lit "authenticated" \/ is_Some (s !! k).
Proof.
  unfold main_init, set_default.
  destruct (s !! lit "current_page") eqn:E1.
  - destruct (s !! lit "authenticated") eqn:E2; [auto|].
    destruct (decide (k = lit "authenticated")) as [->|Hk]; [auto|].
    rewrite lookup_insert_ne by congruence. auto.
  - rewrite lookup_insert_ne by other_key.
    destruct (s !! lit "authenticated") eqn:E2.
    + destruct (decide (k = lit "current_page")) as [->|Hk]; [auto|].
      rewrite lookup_insert_ne by congruence. auto.
    + destruct (decide (k = lit "authenticated")) as [->|Hk]; [auto|].
      rewrite lookup_insert_ne by congruence.
      destruct (decide (k = lit "current_page")) as [->|Hk']; [auto|].
      rewrite lookup_insert_ne by congruence. auto.
Qed.

Lemma main_init_signed_in (s : dict) :
  signed_in s = true -> on_page "main_app" s = true -> main_init s = s.
Proof.
  intros Hs Hp. unfold main_init.
  rewrite (set_default_present "current_page") by (eapply on_page_present; eauto).
  apply set_default_present, signed_in_present, Hs.
Qed.

Lemma main_init_landing (s : dict) (name : string) :
  lit name <> lit "landing" ->
  on_page name (main_init s) = on_page name s.
Proof.
  intros Hn. unfold main_init.
  assert (H1 : on_page name (set_default "current_page" (PStr (lit "landing")) s)
               = on_page name s).
  { destruct (set_default_cases "current_page" (PStr (lit "landing")) s)
      as [-> | [Hnone ->]]; [reflexivity|].
    rewrite on_page_insert. unfold on_page, Py.get. rewrite Hnone. simpl.
    apply bool_decide_eq_false. congruence. }
  destruct (set_default_cases "authenticated" (PBool false)
              (set_default "current_page" (PStr (lit "landing")) s))
    as [-> | [_ ->]]; [exact H1|].
  rewrite on_page_insert_ne by other_key. exact H1.
Qed.

Lemma guarded_main_init (s : dict) (db : database) :
  guarded s db -> guarded (main_init s) db.
Proof.
  intros [Ht Hf]. unfold guarded. rewrite signed_in_main_init. split.
  - intros Hs. destruct (Ht Hs) as [Hp Hu].
    rewrite main_init_signed_in by assumption. auto.
  - intros Hs. destruct (Hf Hs) as [Hp Hk]. split.
    + rewrite main_init_landing by other_key. exact Hp.
    + intros k Hsome. apply main_init_keys in Hsome.
      destruct Hsome as [?|[?|Hsome]]; auto.
Qed.

Lemma verify_user_row (email password : str) (db : database) (result : dict) :
  verify_user email password db = Verified result ->
  exists u, In u (users db)
    /\ result = user_dict (u_id u) (u_name u) (u_email u) (u_aadhaar_number u)
                  (u_user_type u).
Proof.
  unfold verify_user. destruct (hash_password password); [|discriminate].
  destruct (negb (bindable email)); [discriminate|].
  destruct (List.find _ (users db)) as [u|] eqn:Hfind; [|discriminate].
  intros E. injection E as <-. exists u. split; [|reflexivity].
  apply List.find_some in Hfind. tauto.
Qed.

Lemma main_shown_signed_in (s : dict) :
  main_shown s = true -> signed_in s = true /\ on_page "main_app" s = true.
Proof.
  unfold main_shown, signed_in. intros H.
  apply andb_true_iff in H as [H _]. apply andb_true_iff in H as [H1 H2]. auto.
Qed.

Lemma guarded_auth_write (s : dict) (db : database) (v : pyval) :
  guarded s db -> on_page "auth" s = true ->
  guarded (<[lit "auth_mode" := v]> s) db.
Proof.
  intros [Ht Hf] Hp. unfold guarded.
  rewrite signed_in_insert_ne by other_key.
  rewrite on_page_insert_ne by other_key. split.
  - intros Hs. destruct (Ht Hs) as [Hm _].
    pose proof (on_page_one _ _ _ Hp Hm) as E. vm_compute in E. discriminate E.
  - intros Hs. destruct (Hf Hs) as [Hm Hk]. split; [exact Hm|].
    intros k Hsome. destruct (decide (k = lit "auth_mode")) as [->|Hne]; [auto|].
    rewrite lookup_insert_ne in Hsome by congruence. auto.
Qed.

Lemma guarded_page_write (s : dict) (db : database) (p : str) :
  guarded s db -> signed_in s = false -> p <> lit "main_app" ->
  guarded (<[lit "current_page" := PStr p]> s) db.
Proof.
  intros [Ht Hf] Hs Hp. unfold guarded.
  rewrite signed_in_insert_ne by other_key. rewrite on_page_insert. split.
  - congruence.
  - intros _. destruct (Hf Hs) as [_ Hk]. split.
    + apply bool_decide_eq_false. exact Hp.
    + intros k Hsome. destruct (decide (k = lit "current_page")) as [->|Hne]; [auto|].
      rewrite lookup_insert_ne in Hsome by congruence. auto.
Qed.

Lemma not_signed_in_on (name : string) (s : dict) (db : database) :
  guarded s db -> on_page name s = true -> lit name <> lit "main_app" ->
  signed_in s = false.
Proof.
  intros [Ht _] Hp Hn. destruct (signed_in s) eqn:Hs; [|reflexivity].
  destruct (Ht eq_refl) as [Hm _]. elim Hn. eapply on_page_one; eauto.
Qed.

Lemma guarded_main_write (s : dict) (db : database) (k : str) (v : pyval) :
  guarded s db -> main_shown s = true ->
  k <> lit "current_page" -> k <> lit "authenticated" -> k <> lit "user" ->
  guarded (<[k := v]> s) db.
Proof.
  intros [Ht _] Hm K1 K2 K3. apply main_shown_signed_in in Hm as [Hs Hp].
  unfold guarded. rewrite signed_in_insert_ne by assumption.
  rewrite on_page_insert_ne by assumption.
  rewrite lookup_insert_ne by congruence. split; [exact Ht|congruence].
Qed.

Lemma page_keys_other (k : str) :
  k ∈ page_keys ->
  k <> lit "current_page" /\ k <> lit "authenticated" /\ k <> lit "user"
  /\ k <> lit "auth_mode".
Proof.
  intros Hk. repeat split; intros ->; revert Hk;
    apply (bool_decide_eq_false_1 _); vm_compute; reflexivity.
Qed.

Lemma guarded_sign_out (s : dict) (db : database) : guarded (sign_out s) db.
Proof.
  unfold guarded, sign_out. rewrite signed_in_insert. simpl. split; [discriminate|].
  intros _. rewrite on_page_insert_ne by other_key. rewrite on_page_insert.
  split; [reflexivity|]. intros k Hsome.
  destruct (decide (k = lit "authenticated")) as [->|K1]; [auto|].
  rewrite lookup_insert_ne in Hsome by congruence.
  destruct (decide (k = lit "current_page")) as [->|K2]; [auto|].
  rewrite lookup_insert_ne in Hsome by congruence.
  destruct Hsome as [v Hv]. apply map_lookup_filter_Some in Hv as [_ Hv].
  simpl in Hv. apply orb_prop_elim in Hv as [Hv|Hv];
    apply bool_decide_unpack in Hv; auto.
Qed.

Lemma press_guarded (e : app_event) (s s' : dict) (db db' : database) :
  guarded s db -> press e s db = Some (s', db') -> guarded s' db'.
Proof.
  intros G. apply guarded_main_init in G. unfold press.
  set (s1 := main_init s) in *. clearbody s1. clear s.
  destruct e.
  - (* ShowAuth *)
    destruct (on_page "auth" s1) eqn:Hp; [|discriminate].
    intros E. injection E as <- <-.
    destruct (set_default_cases "auth_mode" (PStr (lit "signin")) s1)
      as [-> | [_ ->]]; [exact G|].
    apply guarded_auth_write; assumption.
  - (* ShowMain *)
    destruct (main_shown s1) eqn:Hm; [|discriminate].
    intros E. injection E as <- <-.
    destruct (set_default_cases "current_nav" (PStr (lit "extraction")) s1)
      as [-> | [_ ->]]; [exact G|].
    apply guarded_main_write; try assumption; other_key.
  - (* Launch *)
    destruct (on_page "landing" s1) eqn:Hp; [|discriminate].
    intros E. injection E as <- <-.
    apply guarded_page_write; [exact G| |other_key].
    eapply not_signed_in_on; [exact G|exact Hp|other_key].
  - (* BackToHome *)
    destruct (on_page "auth" s1) eqn:Hp; [|discriminate].
    intros E. injection E as <- <-.
    apply guarded_page_write; [exact G| |other_key].
    eapply not_signed_in_on; [exact G|exact Hp|other_key].
  - (* ChooseSignIn *)
    destruct (on_page "auth" s1) eqn:Hp; [|discriminate].
    intros E. injection E as <- <-. apply guarded_auth_write; assumption.
  - (* ChooseSignUp *)
    destruct (on_page "auth" s1) eqn:Hp; [|discriminate].
    intros E. injection E as <- <-. apply guarded_auth_write; assumption.
  - (* SubmitSignIn *)
    destruct (on_page "auth" s1) eqn:Hp; [|discriminate]. simpl.
    destruct (Py.eq_str _ _); [|discriminate].
    unfold signin.
    destruct (negb (nonempty email) || negb (nonempty password)).
    { intros E. injection E as <- <-. exact G. }
    destruct (verify_user email password db) as [result| |] eqn:Hv;
      intros E; injection E as <- <-; try exact G.
    apply verify_user_row in Hv as [u [Hin ->]].
    unfold guarded. rewrite signed_in_insert. simpl. split; [|discriminate].
    intros _. rewrite on_page_insert_ne by other_key. rewrite on_page_insert.
    split; [reflexivity|]. exists u. split; [exact Hin|].
    rewrite lookup_insert_ne by other_key.
    rewrite lookup_insert_ne by other_key.
    apply lookup_insert_eq.
  - (* SubmitSignUp *)
    destruct (on_page "auth" s1) eqn:Hp; [|discriminate]. simpl.
    destruct (bool_decide _ && _); [|discriminate].
    assert (Hs : signed_in s1 = false)
      by (eapply not_signed_in_on; [exact G|exact Hp|other_key]).
    assert (G' : forall d, guarded s1 d).
    { intros d. destruct G as [_ Hf]. split; [congruence|auto]. }
    destruct (signup _ _ _ _ _ _ _ db) as [[| | | |[]] d];
      intros E; injection E as <- <-; try apply G'.
    apply guarded_auth_write; [apply G'|exact Hp].
  - (* SignOut *)
    destruct (main_shown s1); [|discriminate].
    intros E. injection E as <- <-. apply guarded_sign_out.
  - (* Navigate *)
    destruct (main_shown s1) eqn:Hm; [|discriminate].
    intros E. injection E as <- <-.
    apply guarded_main_write; try assumption; other_key.
  - (* PageWrite *)
    destruct (main_shown s1) eqn:Hm; [|discriminate]. simpl.
    destruct (bool_decide (key ∈ page_keys)) eqn:Hk; [|discriminate].
    apply bool_decide_eq_true in Hk. apply page_keys_other in Hk as [K1 [K2 [K3 _]]].
    intros E. injection E as <- <-.
    apply guarded_main_write; assumption.
Qed.

Lemma guarded_empty (db : database) : guarded ∅ db.
Proof.
  split; [discriminate|]. intros _. split; [reflexivity|].
  intros k [v Hv]. rewrite lookup_empty in Hv. discriminate.
Qed.

Lemma press_all_guarded (events : list app_event) (s s' : dict) (db db' : database) :
  guarded s db -> press_all events s db = Some (s', db') -> guarded s' db'.
Proof.
  revert s db. induction events as [|e events IH]; intros s db G; simpl.
  - intros E. injection E as <- <-. exact G.
  - destruct (press e s db) as [[s1 db1]|] eqn:Hp; [|discriminate].
    apply IH. eapply press_guarded; eauto.
Qed.

(** X18: whatever is pressed from the first visit on, someone signed in is on
    the main page with the dictionary of a row of the table of users as
    [user]; a session that is not signed in is not on the main page and holds
    nothing but [current_page], [authenticated] and [auth_mode], so that
    signing out leaves none of the data of the pages behind. *)
Theorem pages_guarded (events : list app_event) (db0 : database)
    (s : dict) (db : database) :
  press_all events ∅ db0 = Some (s, db) ->
  guarded s db
  /\ (main_shown s = true -> signed_in s = true)
  /\ forall s' db', press SignOut s db = Some (s', db') ->
       db' = db /\ s' !! lit "user" = None
       /\ forall k, k ∈ page_keys -> s' !! k = None.
Proof.
  intros H. assert (G : guarded s db) by (eapply press_all_guarded; [apply guarded_empty|exact H]).
  split; [exact G|]. split; [apply main_shown_signed_in|].
  intros s' db' Hp. assert (G' : guarded s' db') by (eapply press_guarded; eauto).
  unfold press in Hp. destruct (main_shown (main_init s)); [|discriminate].
  injection Hp as <- <-. split; [reflexivity|].
  destruct G' as [_ Hf].
  assert (Hs : signed_in (sign_out (main_init s)) = false)
    by (unfold sign_out; now rewrite signed_in_insert).
  destruct (Hf Hs) as [_ Hk]. split.
  - destruct (sign_out (main_init s) !! lit "user") eqn:E; [|reflexivity].
    destruct (Hk (lit "user")) as [C|[C|C]]; eauto; vm_compute in C; discriminate C.
  - intros k Hin. destruct (sign_out (main_init s) !! k) eqn:E; [|reflexivity].
    apply page_keys_other in Hin as Ho.
    destruct (Hk k) as [C|[C|C]]; eauto; tauto.
Qed.

Lemma pages_guarded_witness :
  match press_all visit ∅ (mkDb [] 0) with
  | Some (s, db) =>
      guarded s db
      /\ (main_shown s = true -> signed_in s = true)
      /\ forall s' db', press SignOut s db = Some (s', db') ->
           db' = db /\ s' !! lit "user" = None
           /\ forall k, k ∈ page_keys -> s' !! k = None
  | None => False
  end
  /\ match press_all visit ∅ (mkDb [] 0) with
     | Some (s, db) => main_shown s && bool_decide (List.length (users db) = 1%nat)
     | None => false
     end = true.
Proof.
  split; [|vm_compute; reflexivity].
  destruct (press_all visit ∅ (mkDb [] 0)) as [[s db]|] eqn:E.
  - apply (pages_guarded visit (mkDb [] 0)). exact E.
  - assert (H : match press_all visit ∅ (mkDb [] 0) with
                | Some _ => true | None => false end = true)
      by (vm_compute; reflexivity).
    rewrite E in H. discriminate H.
Defined.
